(** * Ottoscalr: the CPU-utilization recommender and the recommendation workflow

    A shallow embedding of [pkg/reco/reco.go], [pkg/reco/workflow.go] and
    [pkg/reco/policyiterators.go].

    - Go's [int] is a 64-bit two's-complement integer: it is carried as a [Z]
      and every arithmetic operation wraps explicitly ([GoInt]).
    - Go's [float64] is IEEE-754 binary64: it is carried as a primitive
      [float], so that every simulated value is bit-for-bit the value the
      program computes ([GoFloat]).
    - [time.Time] and [time.Duration] are integers (nanoseconds).
    - A Go function returning [(T, error)] becomes a function into
      [outcome T]; run-time panics and loops that do not finish are separate
      constructors of [outcome]. *)

From Stdlib Require Import ZArith List Bool Lia String Ascii Permutation.
From Stdlib Require Import Floats.PrimFloat Floats.SpecFloat Floats.FloatOps.
From Stdlib Require Import Floats.FloatAxioms.
Import ListNotations.

Set Warnings "-inexact-float".
Local Open Scope Z_scope.

(** ** Go's [int] *)

Module GoInt.

Definition min_int : Z := - 2 ^ 63.
Definition max_int : Z := 2 ^ 63 - 1.

(** Reduction of a mathematical integer to the 64-bit signed range. *)
Definition wrap (z : Z) : Z := (z + 2 ^ 63) mod 2 ^ 64 - 2 ^ 63.

Definition add (a b : Z) : Z := wrap (a + b).
Definition sub (a b : Z) : Z := wrap (a - b).
Definition mul (a b : Z) : Z := wrap (a * b).

(** [a / b] for [b <> 0]: the quotient truncated toward zero. *)
Definition quot (a b : Z) : Z := wrap (Z.quot a b).

End GoInt.

(** ** Go's [float64] and the [math] functions the package calls *)

Module GoFloat.

Local Open Scope float_scope.

(** [float64(n)] for an integer [n]: the nearest binary64 value, ties to
    even. *)
Definition of_int (n : Z) : float :=
  SF2Prim (binary_normalize prec emax n 0%Z false).

(** [int(x)]: the fraction is discarded.  For NaN, the infinities and the
    values outside the 64-bit range the language leaves the result to the
    implementation; amd64 yields the smallest integer, which is what is
    modelled. *)
Definition to_int (x : float) : Z :=
  match Prim2SF x with
  | S754_zero _ => 0%Z
  | S754_finite s m e =>
      let a := if (0 <=? e)%Z then Z.shiftl (Zpos m) e
               else Z.shiftr (Zpos m) (- e) in
      let v := if s then (- a)%Z else a in
      if ((GoInt.min_int <=? v) && (v <=? GoInt.max_int))%Z then v
      else GoInt.min_int
  | S754_infinity _ | S754_nan => GoInt.min_int
  end.

(** [math.Floor]: zeros, infinities and NaN are returned unchanged. *)
Definition Floor (x : float) : float :=
  match Prim2SF x with
  | S754_finite s m e =>
      if (0 <=? e)%Z then x
      else
        let q := Z.shiftr (Zpos m) (- e) in
        let exact := (Z.shiftl q (- e) =? Zpos m)%Z in
        if s then of_int (- (if exact then q else q + 1))%Z
        else of_int q
  | _ => x
  end.

(** [math.Ceil(x)] is [-Floor(-x)]. *)
Definition Ceil (x : float) : float := - Floor (- x).

Definition is_neg_inf (x : float) : bool := x =? neg_infinity.
Definition is_pos_inf (x : float) : bool := x =? infinity.

(** [math.Min] and [math.Max], with their special cases for infinities,
    NaN and signed zeros. *)
Definition Min (x y : float) : float :=
  if is_neg_inf x || is_neg_inf y then neg_infinity
  else if is_nan x || is_nan y then nan
  else if (x =? zero) && (x =? y) then (if get_sign x then x else y)
  else if x <? y then x else y.

Definition Max (x y : float) : float :=
  if is_pos_inf x || is_pos_inf y then infinity
  else if is_nan x || is_nan y then nan
  else if (x =? zero) && (x =? y) then (if get_sign x then y else x)
  else if y <? x then x else y.

End GoFloat.

(** ** Errors and outcomes *)

(** The [error] values that flow through the package.  [External] stands for
    an error raised by a collaborator (scraper, registry, store, transformer,
    Kubernetes client); its flag tells whether [client.IgnoreNotFound]
    recognises it. *)
Inductive error : Type :=
| unableToRecommendError
| ErrInvalidTarget (targetUtilization : Z)
| ErrUnsupportedObjectKind (objectKind : string)
| ErrFetchScaledObjects (cause : error)
| ErrNoRecommender
| ErrNilPolicyOrConfig
| ErrNilPolicyRecommendation
| External (what : string) (notFound : bool).

Inductive abort : Type :=
| IndexOutOfRange
| NilDereference
| DivideByZero
| DoesNotFinish.

Inductive outcome (A : Type) : Type :=
| Ok (a : A)
| Err (e : error)
| Abort (r : abort).

Arguments Ok {A} a.
Arguments Err {A} e.
Arguments Abort {A} r.

Definition bind {A B : Type} (c : outcome A) (k : A -> outcome B) : outcome B :=
  match c with
  | Ok a => k a
  | Err e => Err e
  | Abort r => Abort r
  end.

Declare Scope outcome_scope.
Delimit Scope outcome_scope with outcome.
Notation "x <- c ;; k" := (bind c (fun x => k))
  (at level 61, c at next level, right associativity) : outcome_scope.
Notation "' pat <- c ;; k" := (bind c (fun x => match x with pat => k end))
  (at level 61, pat pattern, c at next level, right associativity) : outcome_scope.
Local Open Scope outcome_scope.

(** [errors.Is(err, unableToRecommendError)]: the sentinel is private to the
    package and nothing wraps it. *)
Definition is_unableToRecommend (e : error) : bool :=
  match e with
  | unableToRecommendError => true
  | _ => false
  end.

(** [client.IgnoreNotFound(err) != nil]. *)
Definition IgnoreNotFound_non_nil (e : error) : bool :=
  match e with
  | External _ true => false
  | _ => true
  end.

(** ** Data model *)

Definition Time : Type := Z.
Definition Duration : Type := Z.

(** Modelled from the spec: [metrics.DataPoint] is declared outside the
    package; it has a timestamp and a value, the two fields the package
    reads. *)
Record DataPoint : Type := mkDataPoint {
  Timestamp : Time;
  Value : float
}.

Record TimerEvent : Type := mkTimerEvent {
  TimerTimestamp : Time;
  Delta : float
}.

(** Modelled from the spec: [v1alpha1.HPAConfiguration] is declared outside
    the package; its three fields are [int]s. *)
Record HPAConfiguration : Type := mkHPAConfiguration {
  Min : Z;
  Max : Z;
  TargetMetricValue : Z
}.

(** [WorkloadMeta]; [Kind] comes from the embedded [metav1.TypeMeta]. *)
Record WorkloadMeta : Type := mkWorkloadMeta {
  Kind : string;
  Name : string;
  Namespace : string
}.

(** Modelled from the spec: of a KEDA scaled object the package reads
    [Spec.MaxReplicaCount], a pointer to a 32-bit integer. *)
Record ScaledObject : Type := mkScaledObject {
  MaxReplicaCount : option Z
}.

(** ** Collaborator interfaces of the recommender

    Modelled from the spec: the scraper, the metrics transformers, the
    object clients and their registry are interfaces declared outside the
    package.  Each method is a function from its arguments to its answer. *)

Record Scraper : Type := mkScraper {
  GetAverageCPUUtilizationByWorkload :
    string -> string -> Time -> Time -> Duration -> outcome (list DataPoint);
  GetACLByWorkload : string -> string -> outcome Duration
}.

Record MetricsTransformer : Type := mkMetricsTransformer {
  Transform : Time -> Time -> list DataPoint -> outcome (list DataPoint)
}.

Record ObjectClient : Type := mkObjectClient {
  GetContainerResourceLimits : string -> string -> outcome float;
  GetMaxReplicaFromAnnotation : string -> string -> outcome Z;
  GetReplicaCount : string -> string -> outcome Z
}.

Record DeploymentClientRegistry : Type := mkDeploymentClientRegistry {
  GetObjectClient : string -> outcome ObjectClient
}.

(** [client.Client.List] for scaled objects selected by
    [spec.scaleTargetRef.name] in a namespace: the list it filled in and the
    error it returned, if any. *)
Record K8sClient : Type := mkK8sClient {
  ListScaledObjects : string -> string -> list ScaledObject * option error
}.

Record CpuUtilizationBasedRecommender : Type := mkRecommender {
  k8sClient : K8sClient;
  redLineUtil : float;
  metricWindow : Duration;
  scraper : Scraper;
  metricsTransformer : list MetricsTransformer;
  metricStep : Duration;
  minTarget : Z;
  maxTarget : Z;
  metricsPercentageThreshold : Z;
  clientsRegistry : DeploymentClientRegistry
}.

(** ** The HPA simulator *)

Section Simulator.

Local Open Scope float_scope.

Variable c : CpuUtilizationBasedRecommender.

(** The loop that consumes the timers of all upscale events that are due:
    the head of the queue is consumed while the data point is not before
    it. *)
Fixpoint consumeTimers (now : Time) (readyResources : float)
    (readyResourcesTimerList : list TimerEvent) : float * list TimerEvent :=
  match readyResourcesTimerList with
  | [] => (readyResources, [])
  | t :: rest =>
      if negb (now <? TimerTimestamp t)%Z
      then consumeTimers now (readyResources + Delta t) rest
      else (readyResources, readyResourcesTimerList)
  end.

(** [ceil((100 * value) / target / perPod)], the replicas a data point
    asks for before clamping. *)
Definition demandedReplicas (value : float) (targetUtilization : Z)
    (perPodResources : float) : float :=
  GoFloat.Ceil (100 * value / GoFloat.of_int targetUtilization / perPodResources).

Definition clampReplicas (maxReplicas minReplicas : Z) (r : float) : float :=
  GoFloat.Min (GoFloat.of_int maxReplicas) (GoFloat.Max (GoFloat.of_int minReplicas) r).

Record SimState : Type := mkSimState {
  readyResources : float;
  readyResourcesTimerList : list TimerEvent;
  calculatedMinReplicas : float
}.

(** One iteration of the loop over [dataPoints[1:]]; [targetUtilization]
    is the inflated target. *)
Definition simulateStep (acl : Duration) (targetUtilization : Z)
    (perPodResources : float) (maxReplicas minReplicas : Z)
    (st : SimState) (dp : DataPoint) : SimState * DataPoint :=
  let '(ready, timers) :=
    consumeTimers (Timestamp dp) (readyResources st) (readyResourcesTimerList st) in
  let newReplicas :=
    clampReplicas maxReplicas minReplicas
      (demandedReplicas (Value dp) targetUtilization perPodResources) in
  let calculatedMin :=
    GoFloat.Min (calculatedMinReplicas st)
      (demandedReplicas (Value dp) targetUtilization perPodResources) in
  let newResources := newReplicas * perPodResources in
  let '(ready', timers') :=
    if ready <? newResources then
      let delta := newResources - ready in
      let delta := fold_left (fun d timer => d - Delta timer) timers delta in
      if 0 <? delta
      then (ready, timers ++ [mkTimerEvent (Timestamp dp + acl)%Z delta])
      else (ready, timers)
    else (newResources, []) in
  (mkSimState ready' timers' calculatedMin,
   mkDataPoint (Timestamp dp) (ready' * redLineUtil c)).

Fixpoint simulateLoop (acl : Duration) (targetUtilization : Z)
    (perPodResources : float) (maxReplicas minReplicas : Z)
    (st : SimState) (dataPoints : list DataPoint) : list DataPoint * SimState :=
  match dataPoints with
  | [] => ([], st)
  | dp :: rest =>
      let '(st', out) :=
        simulateStep acl targetUtilization perPodResources maxReplicas minReplicas st dp in
      let '(outs, final) :=
        simulateLoop acl targetUtilization perPodResources maxReplicas minReplicas st' rest in
      (out :: outs, final)
  end.

(** The 10% headroom: [int(math.Floor(float64(target) * 1.1))]. *)
Definition inflateTarget (targetUtilization : Z) : Z :=
  GoFloat.to_int (GoFloat.Floor (GoFloat.of_int targetUtilization * 1.1)).

Definition simulateHPA (dataPoints : list DataPoint) (acl : Duration)
    (targetUtilization : Z) (perPodResources : float)
    (maxReplicas minReplicas : Z) : outcome (list DataPoint * Z) :=
  let targetUtilization := inflateTarget targetUtilization in
  match dataPoints with
  | [] => Ok ([], 0%Z)
  | dp0 :: rest =>
      if ((targetUtilization <? 1) || (100 <? targetUtilization))%Z
      then Err (ErrInvalidTarget targetUtilization)
      else
        let currentReplicas :=
          GoFloat.Min (GoFloat.of_int maxReplicas)
            (GoFloat.Max (GoFloat.of_int minReplicas)
               (GoFloat.Ceil (Value dp0 * 100 / GoFloat.of_int targetUtilization
                              / perPodResources))) in
        let calculatedMin :=
          GoFloat.Ceil (Value dp0 * 100 / GoFloat.of_int targetUtilization
                        / perPodResources) in
        let currentResources := currentReplicas * perPodResources in
        let first := mkDataPoint (Timestamp dp0) (currentResources * redLineUtil c) in
        let '(outs, final) :=
          simulateLoop acl targetUtilization perPodResources maxReplicas minReplicas
            (mkSimState currentResources [] calculatedMin) rest in
        Ok (first :: outs, GoFloat.to_int (calculatedMinReplicas final))
  end.

(** [hasNoBreachOccurred]: indexes [simulated] by the positions of
    [original]; a shorter [simulated] is an index out of range. *)
Fixpoint hasNoBreachOccurred (original simulated : list DataPoint) : outcome bool :=
  match original, simulated with
  | [], _ => Ok true
  | o :: original', s :: simulated' =>
      if Value s <? Value o then Ok false
      else hasNoBreachOccurred original' simulated'
  | _ :: _, [] => Abort IndexOutOfRange
  end.

(** [calculateSavings] *)
Definition calculateSavings (maxReplicas : Z) (simulated : list DataPoint)
    (perPodResources : float) : float :=
  let savings :=
    fold_left
      (fun savings dp =>
         let sm := Value dp / redLineUtil c in
         savings + (GoFloat.of_int maxReplicas * perPodResources - sm))
      simulated 0 in
  let savings := savings / (GoFloat.of_int maxReplicas * perPodResources) in
  let savings := savings / GoFloat.of_int (Z.of_nat (List.length simulated)) in
  savings * 100.

(** The binary search over the target of [findOptimalHPAConfigurations] for
    one candidate floor [minReplicas].  The state is [low], [high] and the
    two variables that every probe overwrites, [simulatedHPAList] and
    [calculatedMin]; the result is their value when [low > high].

    The loop is given [fuel] iterations.  When neither [high - low] nor
    [mid + 1] and [mid - 1] overflow every iteration halves the interval, so
    that 64 iterations always finish it ([searchTarget_finishes]). *)
Fixpoint searchTarget (dataPoints : list DataPoint) (acl : Duration)
    (perPodResources : float) (maxReplicas minReplicas : Z)
    (fuel : nat) (low high : Z)
    (simulatedHPAList : list DataPoint) (calculatedMin : Z)
    : outcome (Z * list DataPoint * Z) :=
  if (low <=? high)%Z then
    match fuel with
    | O => Abort DoesNotFinish
    | S fuel' =>
        let mid := GoInt.add low (GoInt.quot (GoInt.sub high low) 2) in
        let target := mid in
        '(simulatedHPAList, calculatedMin) <-
          simulateHPA dataPoints acl target perPodResources maxReplicas minReplicas ;;
        noBreach <- hasNoBreachOccurred dataPoints simulatedHPAList ;;
        if noBreach : bool
        then searchTarget dataPoints acl perPodResources maxReplicas minReplicas
               fuel' (GoInt.add mid 1) high simulatedHPAList calculatedMin
        else searchTarget dataPoints acl perPodResources maxReplicas minReplicas
               fuel' low (GoInt.sub mid 1) simulatedHPAList calculatedMin
    end
  else Ok (high, simulatedHPAList, calculatedMin).

Definition searchFuel : nat := 64.

(** The variables the sweep over [minReplicas] carries from one candidate to
    the next. *)
Record Best : Type := mkBest {
  optimalTargetThreshold : Z;
  optimalMin : Z;
  savings : float
}.

(** The body of the sweep after the binary search: the candidate replaces
    the best one when [high >= minTarget], [calculatedMin <= minReplicas],
    the last simulated list is not empty and its savings are at least the
    best savings. *)
Definition recordCandidate (minTarget : Z) (perPodResources : float)
    (maxReplicas minReplicas : Z) (best : Best)
    (high : Z) (simulatedHPAList : list DataPoint) (calculatedMin : Z) : Best :=
  if ((minTarget <=? high) && (calculatedMin <=? minReplicas))%Z then
    if (0 <? Z.of_nat (List.length simulatedHPAList))%Z then
      let newSavings := calculateSavings maxReplicas simulatedHPAList perPodResources in
      if savings best <=? newSavings
      then mkBest high minReplicas newSavings
      else best
    else best
  else best.

(** The sweep [for ; minReplicas <= maxReplicas; minReplicas++].  It runs
    [maxReplicas] times when [maxReplicas] is below the largest [int]; with
    the largest [int] the counter wraps and the loop has no exit. *)
Fixpoint sweepMinReplicas (dataPoints : list DataPoint) (acl : Duration)
    (minTarget maxTarget : Z) (perPodResources : float) (maxReplicas : Z)
    (fuel : nat) (minReplicas : Z) (best : Best) : outcome Best :=
  if (minReplicas <=? maxReplicas)%Z then
    match fuel with
    | O => Abort DoesNotFinish
    | S fuel' =>
        '(high, simulatedHPAList, calculatedMin) <-
          searchTarget dataPoints acl perPodResources maxReplicas minReplicas
            searchFuel minTarget maxTarget [] 0%Z ;;
        sweepMinReplicas dataPoints acl minTarget maxTarget perPodResources maxReplicas
          fuel' (GoInt.add minReplicas 1)
          (recordCandidate minTarget perPodResources maxReplicas minReplicas best
             high simulatedHPAList calculatedMin)
    end
  else Ok best.

(** [findOptimalHPAConfigurations]: the optimal target, the optimal floor
    and [maxReplicas].  The three values the source returns next to a
    non-nil error are dropped: no caller reads them. *)
Definition findOptimalHPAConfigurations (dataPoints : list DataPoint)
    (acl : Duration) (minTarget maxTarget : Z) (perPodResources : float)
    (maxReplicas : Z) : outcome (Z * Z * Z) :=
  best <- sweepMinReplicas dataPoints acl minTarget maxTarget perPodResources
            maxReplicas (Z.to_nat maxReplicas) 1%Z (mkBest 0%Z 0%Z 0) ;;
  if (optimalTargetThreshold best <? minTarget)%Z || (savings best =? 0)
  then Err unableToRecommendError
  else Ok (optimalTargetThreshold best, optimalMin best, maxReplicas).

End Simulator.


(** ** The recommender *)

Section Recommender.

Local Open Scope float_scope.

Variable c : CpuUtilizationBasedRecommender.

(** [time.Duration.Seconds]: whole seconds plus the nanoseconds left over,
    both as floating-point numbers. *)
Definition Seconds (d : Duration) : float :=
  GoFloat.of_int (Z.quot d 1000000000) + GoFloat.of_int (Z.rem d 1000000000) / 1e9.

(** [isMetricsAboveThreshold]; the integer division panics on a step of
    less than one second. *)
Definition isMetricsAboveThreshold (dataPoints : list DataPoint) : outcome bool :=
  let window := GoFloat.to_int (Seconds (metricWindow c)) in
  let step := GoFloat.to_int (Seconds (metricStep c)) in
  if (step =? 0)%Z then Abort DivideByZero
  else
    let totalDataPoints := GoInt.quot window step in
    let percentageOfDataPointsFetched :=
      GoFloat.of_int (Z.of_nat (List.length dataPoints))
      / GoFloat.of_int totalDataPoints * 100 in
    if (GoFloat.to_int percentageOfDataPointsFetched <? metricsPercentageThreshold c)%Z
    then Ok false
    else Ok true.

(** [getContainerCPULimitsSum] *)
Definition getContainerCPULimitsSum (namespace objectKind objectName : string)
    : outcome float :=
  match GetObjectClient (clientsRegistry c) objectKind with
  | Err _ => Err (ErrUnsupportedObjectKind objectKind)
  | Abort r => Abort r
  | Ok deploymentClient =>
      GetContainerResourceLimits deploymentClient namespace objectName
  end.

(** [getMaxPods]: the annotation, else the first scaled object that names
    the workload, else the current replica count. *)
Definition getMaxPods (namespace objectKind objectName : string) : outcome Z :=
  match GetObjectClient (clientsRegistry c) objectKind with
  | Err _ => Err (ErrUnsupportedObjectKind objectKind)
  | Abort r => Abort r
  | Ok deploymentClient =>
      match GetMaxReplicaFromAnnotation deploymentClient namespace objectName with
      | Ok maxPods => Ok maxPods
      | Abort r => Abort r
      | Err _ =>
          let '(scaledObjects, err) :=
            ListScaledObjects (k8sClient c) namespace objectName in
          let fromScaledObjects :=
            match scaledObjects with
            | {| MaxReplicaCount := Some n |} :: _ => Ok n
            | _ => GetReplicaCount deploymentClient namespace objectName
            end in
          match err with
          | Some e =>
              if IgnoreNotFound_non_nil e then Err (ErrFetchScaledObjects e)
              else fromScaledObjects
          | None => fromScaledObjects
          end
      end
  end.

(** The loop over [c.metricsTransformer]. *)
Fixpoint applyTransformers (transformers : list MetricsTransformer)
    (start end_ : Time) (dataPoints : list DataPoint) : outcome (list DataPoint) :=
  match transformers with
  | [] => Ok dataPoints
  | t :: rest =>
      dataPoints <- Transform t start end_ dataPoints ;;
      applyTransformers rest start end_ dataPoints
  end.

(** The configuration both no-op paths of [Recommend] return. *)
Definition noOpConfiguration (workloadMaxReplicas : Z) : HPAConfiguration :=
  mkHPAConfiguration workloadMaxReplicas workloadMaxReplicas (minTarget c).

(** [Recommend]; [now] is the reading of [time.Now()] that becomes [end]. *)
Definition Recommend (now : Time) (workloadMeta : WorkloadMeta)
    : outcome HPAConfiguration :=
  let end_ := now in
  let start := (end_ - metricWindow c)%Z in
  dataPoints <-
    GetAverageCPUUtilizationByWorkload (scraper c) (Namespace workloadMeta)
      (Name workloadMeta) start end_ (metricStep c) ;;
  workloadMaxReplicas <-
    getMaxPods (Namespace workloadMeta) (Kind workloadMeta) (Name workloadMeta) ;;
  aboveThreshold <- isMetricsAboveThreshold dataPoints ;;
  if negb aboveThreshold then Ok (noOpConfiguration workloadMaxReplicas)
  else
    dataPoints <- applyTransformers (metricsTransformer c) start end_ dataPoints ;;
    acl <- GetACLByWorkload (scraper c) (Namespace workloadMeta) (Name workloadMeta) ;;
    perPodResources <-
      getContainerCPULimitsSum (Namespace workloadMeta) (Kind workloadMeta)
        (Name workloadMeta) ;;
    match findOptimalHPAConfigurations c dataPoints acl (minTarget c) (maxTarget c)
            perPodResources workloadMaxReplicas with
    | Err e =>
        if is_unableToRecommend e then Ok (noOpConfiguration workloadMaxReplicas)
        else Err e
    | Abort r => Abort r
    | Ok (optimalTargetUtil, minReplicas, maxReplicas) =>
        Ok (mkHPAConfiguration minReplicas maxReplicas optimalTargetUtil)
    end.

End Recommender.

(** ** Policies *)

Record Policy : Type := mkPolicy {
  PolicyName : string;
  RiskIndex : string;
  MinReplicaPercentageCut : Z;
  TargetUtilization : Z
}.

(** Modelled from the spec: the policy custom resource [v1alpha1.Policy]
    is declared outside the package; these are the fields [PolicyFromCR]
    reads. *)
Record PolicySpec : Type := mkPolicySpec {
  SpecRiskIndex : string;
  SpecMinReplicaPercentageCut : Z;
  SpecTargetUtilization : Z
}.

Record PolicyCR : Type := mkPolicyCR {
  CRName : string;
  Spec : PolicySpec
}.

(** The zero value of [v1alpha1.Policy]. *)
Definition zeroPolicyCR : PolicyCR :=
  mkPolicyCR EmptyString (mkPolicySpec EmptyString 0 0).

(** Modelled from the spec: the persisted [v1alpha1.PolicyRecommendation]
    is declared outside the package; these are the fields the aging iterator
    reads, [Spec.Policy] and [Spec.TransitionedAt]. *)
Record PolicyRecommendation : Type := mkPolicyRecommendation {
  RecoPolicy : string;
  TransitionedAt : Time
}.

Definition zeroPolicyRecommendation : PolicyRecommendation :=
  mkPolicyRecommendation EmptyString 0.

(** Modelled from the spec: [policy.Store] is an interface declared outside
    the package.  A result is a pointer, so a store may answer with a nil
    pointer and no error: [None]. *)
Record PolicyStore : Type := mkPolicyStore {
  GetDefaultPolicy : outcome (option PolicyCR);
  GetSafestPolicy : outcome (option PolicyCR);
  GetPolicyByName : string -> outcome (option PolicyCR);
  GetNextPolicyByName : string -> outcome (option PolicyCR);
  GetSortedPolicies : outcome (option (list PolicyCR))
}.

(** [PolicyFromCR], on a non-nil pointer. *)
Definition PolicyFromCR (policy : PolicyCR) : Policy :=
  mkPolicy (CRName policy) (SpecRiskIndex (Spec policy))
    (SpecMinReplicaPercentageCut (Spec policy)) (SpecTargetUtilization (Spec policy)).

(** [PolicyFromCR] on a pointer that may be nil. *)
Definition PolicyFromCRPtr (policy : option PolicyCR) : outcome (option Policy) :=
  match policy with
  | Some p => Ok (Some (PolicyFromCR p))
  | None => Abort NilDereference
  end.

(** ** Policy iterators *)

Record PolicyIterator : Type := mkPolicyIterator {
  NextPolicy : WorkloadMeta -> outcome (option Policy)
}.

(** [DefaultPolicyIterator.NextPolicy] *)
Definition DefaultPolicyIterator_NextPolicy (store : PolicyStore)
    (wm : WorkloadMeta) : outcome (option Policy) :=
  policy <- GetDefaultPolicy store ;;
  PolicyFromCRPtr policy.

(** [isAgeBeyondExpiry]; [now] is the reading of [metav1.Now()]. *)
Definition isAgeBeyondExpiry (now : Time) (policyreco : option PolicyRecommendation)
    (age : Duration) : outcome bool :=
  match policyreco with
  | None => Err ErrNilPolicyRecommendation
  | Some policyreco =>
      if (now <? TransitionedAt policyreco + age)%Z then Ok false else Ok true
  end.

(** [AgingPolicyIterator.NextPolicy].  [get] is the answer of
    [client.Get] for the workload's [PolicyRecommendation]: the object as the
    call left it and the error it returned.  The source drops the error. *)
Definition AgingPolicyIterator_NextPolicy (store : PolicyStore)
    (get : string -> string -> PolicyRecommendation * option error)
    (Age : Duration) (now : Time) (wm : WorkloadMeta) : outcome (option Policy) :=
  let '(policyreco, _) := get (Namespace wm) (Name wm) in
  expired <- isAgeBeyondExpiry now (Some policyreco) Age ;;
  if (String.length (RecoPolicy policyreco) =? 0)%nat then
    safestPolicy <- GetSafestPolicy store ;;
    PolicyFromCRPtr safestPolicy
  else if negb expired then
    p <- GetPolicyByName store (RecoPolicy policyreco) ;;
    PolicyFromCRPtr p
  else
    nextPolicy <- GetNextPolicyByName store (RecoPolicy policyreco) ;;
    PolicyFromCRPtr nextPolicy.

(** ** The recommendation workflow *)

Record Recommender : Type := mkRecommenderIface {
  RecommendFor : WorkloadMeta -> outcome (option HPAConfiguration)
}.

(** [policyIterators] is a Go map; the list gives its entries in the order
    in which one run of [Execute] happens to range over them. *)
Record RecommendationWorkflowImpl : Type := mkWorkflow {
  recommender : option Recommender;
  policyIterators : list (string * PolicyIterator);
  policyStore : option PolicyStore;
  minRequiredReplicas : Z
}.

(** [createRecoConfigFromPolicy]: the product is divided by 100 in [int]
    arithmetic, and the quotient is what is converted to [float64] and given
    to [math.Ceil]. *)
Definition createRecoConfigFromPolicy (policy : option Policy)
    (recoConfig : option HPAConfiguration) (wm : WorkloadMeta)
    : outcome HPAConfiguration :=
  match policy, recoConfig with
  | Some policy, Some recoConfig =>
      Ok (mkHPAConfiguration
            (GoInt.sub (Max recoConfig)
               (GoFloat.to_int
                  (GoFloat.Ceil
                     (GoFloat.of_int
                        (GoInt.quot
                           (GoInt.mul (MinReplicaPercentageCut policy)
                              (GoInt.sub (Max recoConfig) (Min recoConfig)))
                           100)))))
            (Max recoConfig)
            (TargetUtilization policy))
  | _, _ => Err ErrNilPolicyOrConfig
  end.

(** [shouldApplyReco] *)
Definition shouldApplyReco (config : option HPAConfiguration)
    (policy : option Policy) : bool :=
  match policy with
  | None => true
  | Some policy =>
      match config with
      | None => false
      | Some config =>
          if (MinReplicaPercentageCut policy =? 100)
             && (TargetMetricValue config <? TargetUtilization policy)
          then true
          else false
      end
  end.

(** [pickSafestPolicy]; [<=] on [RiskIndex] is Go's order on strings. *)
Definition pickSafestPolicy (p1 p2 : option Policy) : option Policy :=
  match p1, p2 with
  | None, Some _ => p2
  | Some _, None => p1
  | None, None => None
  | Some q1, Some q2 =>
      if String.leb (RiskIndex q1) (RiskIndex q2) then p1 else p2
  end.

(** [transformTargetRecoConfig] *)
Definition transformTargetRecoConfig (targetRecoConfig : option HPAConfiguration)
    (minRequiredReplicas : Z) : option HPAConfiguration :=
  match targetRecoConfig with
  | None => None
  | Some targetRecoConfig =>
      let maxReplicas := Max targetRecoConfig in
      let minReplicas := Min targetRecoConfig in
      let minReplicas :=
        if (minRequiredReplicas <=? maxReplicas) && (minReplicas <? minRequiredReplicas)
        then minRequiredReplicas else minReplicas in
      Some (mkHPAConfiguration minReplicas maxReplicas
              (TargetMetricValue targetRecoConfig))
  end.

(** The loop of [findClosestSafePolicy].  [config] is dereferenced only for
    an item whose cut is 100. *)
Fixpoint scanClosestSafePolicy (config : option HPAConfiguration)
    (items : list PolicyCR) (closestSafePolicy : PolicyCR) : outcome PolicyCR :=
  match items with
  | [] => Ok closestSafePolicy
  | pc :: rest =>
      if (SpecMinReplicaPercentageCut (Spec pc) =? 100) then
        match config with
        | None => Abort NilDereference
        | Some cfg =>
            if (SpecTargetUtilization (Spec pc) <=? TargetMetricValue cfg)
            then scanClosestSafePolicy config rest pc
            else scanClosestSafePolicy config rest closestSafePolicy
        end
      else scanClosestSafePolicy config rest closestSafePolicy
  end.

(** [findClosestSafePolicy]: the result is never a nil pointer. *)
Definition findClosestSafePolicy (config : option HPAConfiguration)
    (policies : option (list PolicyCR)) : outcome Policy :=
  match policies with
  | None => Abort NilDereference
  | Some items =>
      closestSafePolicy <- scanClosestSafePolicy config items zeroPolicyCR ;;
      Ok (PolicyFromCR closestSafePolicy)
  end.

(** [generateNextRecoConfig] *)
Definition generateNextRecoConfig (rw : RecommendationWorkflowImpl)
    (config : option HPAConfiguration) (policy : option Policy) (wm : WorkloadMeta)
    : outcome (option HPAConfiguration * option Policy) :=
  if shouldApplyReco config policy then
    match policyStore rw with
    | None => Abort NilDereference
    | Some store =>
        match GetSortedPolicies store with
        | Err _ => Ok (config, None)
        | Abort r => Abort r
        | Ok policies =>
            p <- findClosestSafePolicy config policies ;;
            Ok (config, Some p)
        end
    end
  else
    match createRecoConfigFromPolicy policy config wm with
    | Ok recoConfig => Ok (Some recoConfig, policy)
    | Err _ => Ok (None, policy)
    | Abort r => Abort r
    end.

(** The loop of [Execute] over the policy iterators. *)
Fixpoint runPolicyIterators (iterators : list (string * PolicyIterator))
    (wm : WorkloadMeta) (nextPolicy : option Policy) : outcome (option Policy) :=
  match iterators with
  | [] => Ok nextPolicy
  | (_, pi) :: rest =>
      p <- NextPolicy pi wm ;;
      match p with
      | None => runPolicyIterators rest wm nextPolicy
      | Some _ => runPolicyIterators rest wm (pickSafestPolicy nextPolicy p)
      end
  end.

(** [Execute]: the configuration to apply, the raw recommendation and the
    policy credited. *)
Definition Execute (rw : RecommendationWorkflowImpl) (wm : WorkloadMeta)
    : outcome (option HPAConfiguration * option HPAConfiguration * option Policy) :=
  match recommender rw with
  | None => Err ErrNoRecommender
  | Some r =>
      targetRecoConfig <- RecommendFor r wm ;;
      let targetRecoConfig :=
        transformTargetRecoConfig targetRecoConfig (minRequiredReplicas rw) in
      nextPolicy <- runPolicyIterators (policyIterators rw) wm None ;;
      '(nextConfig, policyToApply) <-
        generateNextRecoConfig rw targetRecoConfig nextPolicy wm ;;
      Ok (nextConfig, targetRecoConfig, policyToApply)
  end.

(** The CPU-utilization recommender behind the [Recommender] interface. *)
Definition CpuRecommender (c : CpuUtilizationBasedRecommender) (now : Time)
    : Recommender :=
  mkRecommenderIface (fun wm => cfg <- Recommend c now wm ;; Ok (Some cfg)).

(** ** Concrete inputs *)

Definition Second : Duration := 1000000000.

Definition minutes (n : Z) : Time := n * 60 * Second.

Definition silentScraper : Scraper :=
  mkScraper (fun _ _ _ _ _ => Ok []) (fun _ _ => Ok 0).

Definition emptyRegistry : DeploymentClientRegistry :=
  mkDeploymentClientRegistry (fun kind => Err (External "unknown kind" false)).

Definition emptyCluster : K8sClient :=
  mkK8sClient (fun _ _ => ([], None)).

(** A recommender with a one-hour window, a one-minute step, targets between
    10 and 60 and a 50% data threshold; only [redLineUtil] matters to the
    simulator. *)
Definition simulatorOnly (redLineUtil : float) : CpuUtilizationBasedRecommender :=
  mkRecommender emptyCluster redLineUtil (minutes 60) silentScraper []
    (minutes 1) 10 60 50 emptyRegistry.

(** Demand that dips between two peaks: 0.1875, 1, 0.21875 and 3 cores, one
    minute apart. *)
Definition dipBetweenPeaks : list DataPoint :=
  [ mkDataPoint (minutes 0) 0.1875%float;
    mkDataPoint (minutes 1) 1%float;
    mkDataPoint (minutes 2) 0.21875%float;
    mkDataPoint (minutes 3) 3%float ].

(** One data point of 2 cores. *)
Definition singlePoint : list DataPoint := [ mkDataPoint (minutes 0) 2%float ].

Definition supplyValues (simulated : list DataPoint) : list float :=
  map Value simulated.

(** [supply] is pointwise greater than or equal to [supply']. *)
Fixpoint supplyAtLeast (supply supply' : list DataPoint) : bool :=
  match supply, supply' with
  | [], [] => true
  | s :: rest, s' :: rest' =>
      (Value s' <=? Value s)%float && supplyAtLeast rest rest'
  | _, _ => false
  end.

(** The cut of the specification: the ceiling of the exact quotient
    [cut * (max - min) / 100]. *)
Definition exactCeilingCut (cut max min : Z) : Z :=
  - ((- (cut * (max - min))) / 100).

(** The test of [findClosestSafePolicy]: a no-op policy whose target does
    not exceed the recommended one. *)
Definition isSafeFor (config : HPAConfiguration) (pc : PolicyCR) : bool :=
  (SpecMinReplicaPercentageCut (Spec pc) =? 100)
  && (SpecTargetUtilization (Spec pc) <=? TargetMetricValue config).

(** What an iterator contributes to the merge of [Execute]; only read when
    the iterator succeeds. *)
Definition iteratorOutput (wm : WorkloadMeta) (it : string * PolicyIterator)
    : option Policy :=
  match NextPolicy (snd it) wm with
  | Ok p => p
  | _ => None
  end.

Definition iteratorSucceeds (wm : WorkloadMeta) (it : string * PolicyIterator) : Prop :=
  exists p, NextPolicy (snd it) wm = Ok p.

(** Two distinct no-op policies with the same risk index, and iterators
    that answer with them. *)
Definition guarded : Policy := mkPolicy "guarded" "1" 100 30.
Definition cautious : Policy := mkPolicy "cautious" "1" 100 40.

Definition constantIterator (p : Policy) : PolicyIterator :=
  mkPolicyIterator (fun _ => Ok (Some p)).

(** The invariant of the data model on a configuration. *)
Definition validConfiguration (c : CpuUtilizationBasedRecommender)
    (cfg : HPAConfiguration) : Prop :=
  1 <= Min cfg <= Max cfg
  /\ minTarget c <= TargetMetricValue cfg <= maxTarget c.

(** What the sweep of [findOptimalHPAConfigurations] carries: nothing
    recorded yet, or a recorded floor and target within their bounds. *)
Definition bestWithinBounds (minTarget maxTarget maxReplicas : Z) (best : Best) : Prop :=
  best = mkBest 0 0 0%float
  \/ (1 <= optimalMin best <= maxReplicas
      /\ minTarget <= optimalTargetThreshold best <= maxTarget).

(** The three ways in which [Recommend] returns a configuration. *)
Inductive RecommendPath (c : CpuUtilizationBasedRecommender) (now : Time)
    (wm : WorkloadMeta) : HPAConfiguration -> Prop :=
| InsufficientData (dataPoints : list DataPoint) (workloadMaxReplicas : Z) :
    GetAverageCPUUtilizationByWorkload (scraper c) (Namespace wm) (Name wm)
      (now - metricWindow c) now (metricStep c) = Ok dataPoints ->
    getMaxPods c (Namespace wm) (Kind wm) (Name wm) = Ok workloadMaxReplicas ->
    isMetricsAboveThreshold c dataPoints = Ok false ->
    RecommendPath c now wm (noOpConfiguration c workloadMaxReplicas)
| SearchRan (dataPoints transformed : list DataPoint) (workloadMaxReplicas : Z)
    (acl : Duration) (perPodResources : float) (cfg : HPAConfiguration) :
    GetAverageCPUUtilizationByWorkload (scraper c) (Namespace wm) (Name wm)
      (now - metricWindow c) now (metricStep c) = Ok dataPoints ->
    getMaxPods c (Namespace wm) (Kind wm) (Name wm) = Ok workloadMaxReplicas ->
    isMetricsAboveThreshold c dataPoints = Ok true ->
    applyTransformers (metricsTransformer c) (now - metricWindow c) now dataPoints
      = Ok transformed ->
    GetACLByWorkload (scraper c) (Namespace wm) (Name wm) = Ok acl ->
    getContainerCPULimitsSum c (Namespace wm) (Kind wm) (Name wm) = Ok perPodResources ->
    (findOptimalHPAConfigurations c transformed acl (minTarget c) (maxTarget c)
       perPodResources workloadMaxReplicas = Err unableToRecommendError
     /\ cfg = noOpConfiguration c workloadMaxReplicas
     \/ exists optimalTargetUtil minReplicas maxReplicas,
          findOptimalHPAConfigurations c transformed acl (minTarget c) (maxTarget c)
            perPodResources workloadMaxReplicas
          = Ok (optimalTargetUtil, minReplicas, maxReplicas)
          /\ cfg = mkHPAConfiguration minReplicas maxReplicas optimalTargetUtil) ->
    RecommendPath c now wm cfg.

(** An object client without the max-pods annotation. *)
Definition plainClient (limits : float) (replicas : Z) : ObjectClient :=
  mkObjectClient (fun _ _ => Ok limits)
    (fun _ _ => Err (External "no max-pods annotation" false))
    (fun _ _ => Ok replicas).

(** A recommender whose scraper has no data for a workload that runs
    [replicas] replicas of one core each. *)
Definition withoutData (replicas : Z) : CpuUtilizationBasedRecommender :=
  mkRecommender emptyCluster 0.8 (minutes 60) silentScraper [] (minutes 1)
    10 60 50 (mkDeploymentClientRegistry (fun _ => Ok (plainClient 1 replicas))).

(** A policy store that is down, and one that holds a single policy. *)
Definition storeDown : error := External "policy store unavailable" false.

Definition failingStore : PolicyStore :=
  mkPolicyStore (Err storeDown) (Err storeDown) (fun _ => Err storeDown)
    (fun _ => Err storeDown) (Err storeDown).

Definition noOpPolicyCR : PolicyCR := mkPolicyCR "no-op" (mkPolicySpec "1" 100 10).

Definition singlePolicyStore : PolicyStore :=
  mkPolicyStore (Ok (Some noOpPolicyCR)) (Ok (Some noOpPolicyCR))
    (fun _ => Ok (Some noOpPolicyCR)) (fun _ => Ok (Some noOpPolicyCR))
    (Ok (Some [noOpPolicyCR])).

Definition fixedRecommender (cfg : HPAConfiguration) : Recommender :=
  mkRecommenderIface (fun _ => Ok (Some cfg)).

Definition failingRecommender (e : error) : Recommender :=
  mkRecommenderIface (fun _ => Err e).

(** A workflow without policy iterators whose policy store is down. *)
Definition workflowWithStoreDown : RecommendationWorkflowImpl :=
  mkWorkflow (Some (fixedRecommender (mkHPAConfiguration 4 10 40))) []
    (Some failingStore) 3.

(** A read of the persisted recommendation that fails and leaves the object
    empty. *)
Definition failingGet (namespace name : string) : PolicyRecommendation * option error :=
  (zeroPolicyRecommendation, Some (External "connection refused" false)).

Definition someWorkload : WorkloadMeta :=
  mkWorkloadMeta "Deployment" "checkout" "shop".

(** ** The workflow builder *)

(** Modelled from the spec: [logr.Logger] is declared outside the package;
    the builder only compares it with its zero value.  [zapLogger] is the
    logger of [zap.New()]. *)
Inductive Logger : Type :=
| zeroValLogger
| zapLogger
| givenLogger (name : string).

(** The error of [Build]. *)
Inductive BuildError : Type :=
| ErrBothNil.

Module RecoWorkflowBuilder.

(** [RecoWorkflowBuilder] has the fields of [RecommendationWorkflowImpl].
    The map [policyIterators] is nil ([None]) or a list of entries with
    distinct names, kept in the order of insertion. *)
Record t : Type := mk {
  recommender : option Recommender;
  policyIterators : option (list (string * PolicyIterator));
  policyStore : option PolicyStore;
  logger : Logger;
  minRequiredReplicas : Z
}.

Definition NewRecommendationWorkflowBuilder : t :=
  mk None None None zeroValLogger 0.

(** [WithRecommender]; the argument is an interface value and may be nil. *)
Definition WithRecommender (b : t) (r : option Recommender) : t :=
  match recommender b with
  | None => mk r (policyIterators b) (policyStore b) (logger b) (minRequiredReplicas b)
  | Some _ => b
  end.

Definition hasName (name : string) (entry : string * PolicyIterator) : bool :=
  String.eqb name (fst entry).

(** [WithPolicyIterator]; [name] is the answer of [p.GetName()]. *)
Definition WithPolicyIterator (b : t) (name : string) (p : PolicyIterator) : t :=
  match policyIterators b with
  | None =>
      mk (recommender b) (Some [(name, p)]) (policyStore b) (logger b)
        (minRequiredReplicas b)
  | Some entries =>
      if existsb (hasName name) entries then b
      else mk (recommender b) (Some (entries ++ [(name, p)])) (policyStore b)
             (logger b) (minRequiredReplicas b)
  end.

Definition WithLogger (b : t) (log : Logger) : t :=
  match logger b with
  | zeroValLogger =>
      mk (recommender b) (policyIterators b) (policyStore b) log (minRequiredReplicas b)
  | _ => b
  end.

Definition WithMinRequiredReplicas (b : t) (minRequiredReplicas : Z) : t :=
  mk (recommender b) (policyIterators b) (policyStore b) (logger b) minRequiredReplicas.

Definition WithPolicyStore (b : t) (policyStore : option PolicyStore) : t :=
  mk (recommender b) (policyIterators b) policyStore (logger b) (minRequiredReplicas b).

(** [Build]: the workflow and the logger it carries.  The list of the
    workflow is the map in the order of insertion; a run of [Execute] may
    range over any permutation of it. *)
Definition Build (b : t) : (RecommendationWorkflowImpl * Logger) + BuildError :=
  let logger := match logger b with zeroValLogger => zapLogger | l => l end in
  match recommender b, policyIterators b with
  | None, None => inr ErrBothNil
  | _, _ =>
      let minRequiredReplicas :=
        if (minRequiredReplicas b =? 0) then 3 else minRequiredReplicas b in
      inl (mkWorkflow (recommender b)
             (match policyIterators b with Some entries => entries | None => [] end)
             (policyStore b) minRequiredReplicas,
           logger)
  end.

(** The calls [WithPolicyIterator] and [WithRecommender] in a row. *)
Definition WithPolicyIterators (b : t) (named : list (string * PolicyIterator)) : t :=
  fold_left (fun b entry => WithPolicyIterator b (fst entry) (snd entry)) named b.

Definition WithRecommenders (b : t) (rs : list (option Recommender)) : t :=
  fold_left WithRecommender rs b.

Definition entries (b : t) : list (string * PolicyIterator) :=
  match policyIterators b with
  | Some entries => entries
  | None => []
  end.

End RecoWorkflowBuilder.

(** ** Earlier revisions of the workflow

    [src/unnamed/part_000] and the second half of
    [pkg/reco/policyiterators.go] hold two earlier revisions of
    [workflow.go].  They have no policy store, no floor promotion and no nil
    guards, and they replace errors by errors of their own. *)

Module Earlier.

(** The errors of the earlier revisions: an error as the current revision
    has it, the fixed error that stands for every failure of the
    recommender, and the error that quotes the failure of a policy
    iterator. *)
Inductive error' : Type :=
| Plain (e : error)
| ErrUnableToGenerateRecommendation
| ErrUnableToGenerateNextPolicy (cause : error).

Inductive result (A : Type) : Type :=
| Done (a : A)
| Failed (e : error')
| Panicked (r : abort).

Arguments Done {A} a.
Arguments Failed {A} e.
Arguments Panicked {A} r.

Definition andThen {A B : Type} (x : result A) (k : A -> result B) : result B :=
  match x with
  | Done a => k a
  | Failed e => Failed e
  | Panicked r => Panicked r
  end.

(** [shouldApplyReco] without the nil check of the configuration, which is
    dereferenced when the cut of the policy is 100. *)
Definition shouldApplyReco (config : option HPAConfiguration)
    (policy : option Policy) : result bool :=
  match policy with
  | None => Done true
  | Some policy =>
      if (MinReplicaPercentageCut policy =? 100) then
        match config with
        | None => Panicked NilDereference
        | Some config =>
            Done (TargetMetricValue config <? TargetUtilization policy)
        end
      else Done false
  end.

(** [createRecoConfigFromPolicy] without the nil guard. *)
Definition createRecoConfigFromPolicy (policy : option Policy)
    (recoConfig : option HPAConfiguration) (wm : WorkloadMeta)
    : result HPAConfiguration :=
  match policy, recoConfig with
  | Some policy, Some recoConfig =>
      Done (mkHPAConfiguration
              (GoInt.sub (Max recoConfig)
                 (GoFloat.to_int
                    (GoFloat.Ceil
                       (GoFloat.of_int
                          (GoInt.quot
                             (GoInt.mul (MinReplicaPercentageCut policy)
                                (GoInt.sub (Max recoConfig) (Min recoConfig)))
                             100)))))
              (Max recoConfig)
              (TargetUtilization policy))
  | _, _ => Panicked NilDereference
  end.

(** [generateNextRecoConfig] of both earlier revisions. *)
Definition generateNextRecoConfig (config : option HPAConfiguration)
    (policy : option Policy) (wm : WorkloadMeta) : result (option HPAConfiguration) :=
  andThen (shouldApplyReco config policy) (fun apply =>
  if apply : bool then Done config
  else andThen (createRecoConfigFromPolicy policy config wm) (fun recoConfig =>
       Done (Some recoConfig))).

Definition recommend (r : Recommender) (wm : WorkloadMeta)
    : result (option HPAConfiguration) :=
  match RecommendFor r wm with
  | Ok recoConfig => Done recoConfig
  | Err _ => Failed ErrUnableToGenerateRecommendation
  | Abort a => Panicked a
  end.

(** The loop of [Execute] in the second half of [policyiterators.go]: the
    iterators are a slice, an error is quoted in a new error, and the name
    of the answer is logged, which dereferences it. *)
Fixpoint runSlice (iterators : list PolicyIterator) (wm : WorkloadMeta)
    (nextPolicy : option Policy) : result (option Policy) :=
  match iterators with
  | [] => Done nextPolicy
  | pi :: rest =>
      match NextPolicy pi wm with
      | Err e => Failed (ErrUnableToGenerateNextPolicy e)
      | Abort a => Panicked a
      | Ok None => Panicked NilDereference
      | Ok (Some p) => runSlice rest wm (pickSafestPolicy nextPolicy (Some p))
      end
  end.

(** The loop of [Execute] in [part_000]: the iterators are a map, an error is
    returned as it is and a nil answer is skipped. *)
Fixpoint runMap (iterators : list (string * PolicyIterator)) (wm : WorkloadMeta)
    (nextPolicy : option Policy) : result (option Policy) :=
  match iterators with
  | [] => Done nextPolicy
  | (_, pi) :: rest =>
      match NextPolicy pi wm with
      | Err e => Failed (Plain e)
      | Abort a => Panicked a
      | Ok None => runMap rest wm nextPolicy
      | Ok (Some p) => runMap rest wm (pickSafestPolicy nextPolicy (Some p))
      end
  end.

Definition finish (recoConfig : option HPAConfiguration) (nextPolicy : option Policy)
    (wm : WorkloadMeta)
    : result (option HPAConfiguration * option HPAConfiguration * option Policy) :=
  andThen (generateNextRecoConfig recoConfig nextPolicy wm) (fun nextConfig =>
  Done (nextConfig, recoConfig, nextPolicy)).

(** [Execute] of the second half of [policyiterators.go]. *)
Definition ExecuteSlice (Recommender : option Recommender)
    (PolicyIterators : list PolicyIterator) (wm : WorkloadMeta)
    : result (option HPAConfiguration * option HPAConfiguration * option Policy) :=
  match Recommender with
  | None => Failed (Plain ErrNoRecommender)
  | Some r =>
      andThen (recommend r wm) (fun recoConfig =>
      andThen (runSlice PolicyIterators wm None) (fun nextPolicy =>
      finish recoConfig nextPolicy wm))
  end.

(** [Execute] of [part_000]. *)
Definition ExecuteMap (recommender : option Recommender)
    (policyIterators : list (string * PolicyIterator)) (wm : WorkloadMeta)
    : result (option HPAConfiguration * option HPAConfiguration * option Policy) :=
  match recommender with
  | None => Failed (Plain ErrNoRecommender)
  | Some r =>
      andThen (recommend r wm) (fun recoConfig =>
      andThen (runMap policyIterators wm None) (fun nextPolicy =>
      finish recoConfig nextPolicy wm))
  end.

End Earlier.

(** ** Notions used by the further properties *)

(** The simulation of [target] with the floor [minReplicas] succeeds and
    supplies every data point. *)
Definition breachFree (c : CpuUtilizationBasedRecommender)
    (dataPoints : list DataPoint) (acl : Duration) (perPodResources : float)
    (maxReplicas minReplicas target : Z) : Prop :=
  exists simulated calculatedMin,
    simulateHPA c dataPoints acl target perPodResources maxReplicas minReplicas
    = Ok (simulated, calculatedMin)
    /\ hasNoBreachOccurred dataPoints simulated = Ok true.

(** The sweep has recorded nothing, or a floor and a target within their
    bounds whose simulation supplies every data point. *)
Definition bestIsSound (c : CpuUtilizationBasedRecommender)
    (dataPoints : list DataPoint) (acl : Duration) (minTarget maxTarget : Z)
    (perPodResources : float) (maxReplicas : Z) (best : Best) : Prop :=
  best = mkBest 0 0 0%float
  \/ (1 <= optimalMin best <= maxReplicas
      /\ minTarget <= optimalTargetThreshold best <= maxTarget
      /\ breachFree c dataPoints acl perPodResources maxReplicas
           (optimalMin best) (optimalTargetThreshold best)).

(** ** The data gate *)








(** * Properties *)

(** ** The simulator *)

(** C10: the empty-series check of [simulateHPA] comes before the validation
    of the inflated target.  An empty series gives an empty supply series,
    an observed minimum of 0 and no error, whatever the target; a non-empty
    series gives the invalid-target error exactly when the inflated target
    [floor(target * 1.1)] lies outside [1, 100]. *)
Theorem simulateHPA_empty_series_precedes_target_check :
  forall (c : CpuUtilizationBasedRecommender) (acl : Duration) (target : Z)
         (perPodResources : float) (maxReplicas minReplicas : Z),
    simulateHPA c [] acl target perPodResources maxReplicas minReplicas = Ok ([], 0)
    /\ forall (dp : DataPoint) (rest : list DataPoint) (e : error),
         simulateHPA c (dp :: rest) acl target perPodResources maxReplicas minReplicas
           = Err e
         <-> (inflateTarget target < 1 \/ 100 < inflateTarget target)
             /\ e = ErrInvalidTarget (inflateTarget target).
Proof.
  intros c acl target pp maxR minR. split; [reflexivity|].
  intros dp rest e. unfold simulateHPA.
  destruct (inflateTarget target <? 1) eqn:Hlo;
    [|destruct (100 <? inflateTarget target) eqn:Hhi]; cbn [orb].
  - apply Z.ltb_lt in Hlo. split.
    + intros H. injection H as <-. split; [lia|reflexivity].
    + intros [_ ->]. reflexivity.
  - apply Z.ltb_lt in Hhi. split.
    + intros H. injection H as <-. split; [lia|reflexivity].
    + intros [_ ->]. reflexivity.
  - apply Z.ltb_ge in Hlo. apply Z.ltb_ge in Hhi.
    destruct (simulateLoop _ _ _ _ _ _ _ _) as [outs final]. split.
    + discriminate.
    + intros [[H|H] _]; lia.
Qed.

Lemma simulateHPA_empty_series_precedes_target_check_witness :
  simulateHPA (simulatorOnly 0.5) [] 0 200 1 5 1 = Ok ([], 0)
  /\ simulateHPA (simulatorOnly 0.5) singlePoint 0 200 1 5 1 = Err (ErrInvalidTarget 220).
Proof.
  split.
  - apply (proj1 (simulateHPA_empty_series_precedes_target_check
                    (simulatorOnly 0.5) 0 200 1%float 5 1)).
  - apply (proj2 (simulateHPA_empty_series_precedes_target_check
                    (simulatorOnly 0.5) 0 200 1%float 5 1)).
    split; [right; vm_compute; reflexivity|vm_compute; reflexivity].
Defined.

(** C1: the supply of [simulateHPA] is not monotone in the target.  With
    one core per pod, between 1 and 10 replicas, a cycle lag of two minutes
    and a red line of 1, the series [dipBetweenPeaks] gets the supply
    2, 2, 2, 2 at target 10 and the supply 1, 1, 1, 5 at target 19: at the
    last point the lower target supplies less.  At target 10 the dip is a
    downscale, which clears the upscale queued at the first peak; at target
    19 the dip still asks for more than is ready, the queued upscale stays
    and fires at the last point. *)
Theorem simulateHPA_lower_target_supplies_less :
  let c := simulatorOnly 1 in
  exists supply10 supply19 : list DataPoint,
    simulateHPA c dipBetweenPeaks (minutes 2) 10 1 10 1 = Ok (supply10, 2)
    /\ simulateHPA c dipBetweenPeaks (minutes 2) 19 1 10 1 = Ok (supply19, 1)
    /\ supplyValues supply10 = [2; 2; 2; 2]%float
    /\ supplyValues supply19 = [1; 1; 1; 5]%float
    /\ supplyAtLeast supply10 supply19 = false.
Proof.
  intros c. eexists. eexists.
  split; [vm_compute; reflexivity|].
  split; [vm_compute; reflexivity|].
  repeat split; vm_compute; reflexivity.
Qed.

(** C2: [createRecoConfigFromPolicy] divides in [int] arithmetic before it
    takes the ceiling.  For a cut of 50 and a recommendation with min 5 and
    max 10 the source computes [250 / 100 = 2] and returns min 8; the ceiling
    of the exact quotient 2.5 is 3, which would give min 7. *)
Theorem createRecoConfigFromPolicy_truncates_before_ceiling :
  createRecoConfigFromPolicy
    (Some (mkPolicy "half" "3" 50 50)) (Some (mkHPAConfiguration 5 10 40)) someWorkload
  = Ok (mkHPAConfiguration 8 10 50)
  /\ 10 - exactCeilingCut 50 10 5 = 7.
Proof. split; vm_compute; reflexivity. Qed.

(** C3: [findOptimalHPAConfigurations] scores a candidate by the list and the
    observed minimum of the last probe of the binary search, not by those of
    the target it records.  For [singlePoint], one core per pod, at most 5
    replicas, targets 60..61 and a red line of 0.5, the search for floor 3
    probes 60 (no breach) and then 61 (breach) and ends with target 60, the
    supply 1.5 and the observed minimum 3 of the probe at 61.  At target 60
    the simulator observes a minimum of 4, above the floor, and a supply of
    2, whose savings are 20 and not 40.  The candidate (3, 60) is recorded
    with savings 40 and wins over (4, 61), whose savings are 20. *)
Theorem findOptimalHPAConfigurations_scores_last_probe :
  let c := simulatorOnly 0.5 in
  searchTarget c singlePoint 0 1 5 3 searchFuel 60 61 [] 0
    = Ok (60, [mkDataPoint 0 1.5%float], 3)
  /\ simulateHPA c singlePoint 0 61 1 5 3 = Ok ([mkDataPoint 0 1.5%float], 3)
  /\ hasNoBreachOccurred singlePoint [mkDataPoint 0 1.5%float] = Ok false
  /\ simulateHPA c singlePoint 0 60 1 5 3 = Ok ([mkDataPoint 0 2%float], 4)
  /\ calculateSavings c 5 [mkDataPoint 0 1.5%float] 1 = 40%float
  /\ calculateSavings c 5 [mkDataPoint 0 2%float] 1 = 20%float
  /\ searchTarget c singlePoint 0 1 5 4 searchFuel 60 61 [] 0
       = Ok (61, [mkDataPoint 0 2%float], 3)
  /\ findOptimalHPAConfigurations c singlePoint 0 60 61 1 5 = Ok (60, 3, 5).
Proof. intros c. repeat split; vm_compute; reflexivity. Qed.

(** The binary search also misses the largest breach-free target when the
    breach is not monotone in the target.  For [dipBetweenPeaks] and floor 1
    every probe of the search over 10..19 breaches, so the search ends below
    [minTarget]; yet target 19 does not breach.  The sweep settles for floor
    3, with savings 70, where floor 1 at target 19 would save 80. *)
Lemma searchTarget_misses_breach_free_target :
  let c := simulatorOnly 1 in
  (exists simulated calculatedMin,
     searchTarget c dipBetweenPeaks (minutes 2) 1 10 1 searchFuel 10 19 [] 0
       = Ok (9, simulated, calculatedMin))
  /\ (exists supply19,
        simulateHPA c dipBetweenPeaks (minutes 2) 19 1 10 1 = Ok (supply19, 1)
        /\ hasNoBreachOccurred dipBetweenPeaks supply19 = Ok true
        /\ calculateSavings c 10 supply19 1 = 80%float)
  /\ (exists supply3,
        simulateHPA c dipBetweenPeaks (minutes 2) 19 1 10 3 = Ok (supply3, 1)
        /\ calculateSavings c 10 supply3 1 = 70%float)
  /\ findOptimalHPAConfigurations c dipBetweenPeaks (minutes 2) 10 19 1 10
       = Ok (19, 3, 10).
Proof.
  intros c. split; [|split; [|split]].
  - eexists. eexists. vm_compute. reflexivity.
  - eexists. split; [vm_compute; reflexivity|]. split; vm_compute; reflexivity.
  - eexists. split; vm_compute; reflexivity.
  - vm_compute. reflexivity.
Qed.

(** ** The workflow *)

(** C5: [shouldApplyReco] is true exactly when the policy is nil, or the
    configuration is not nil, the policy's cut is 100 and the recommended
    target is below the policy's target.  In every other case, and so for
    every cut below 100, [generateNextRecoConfig] credits the policy and
    returns what [createRecoConfigFromPolicy] derives from it: for a non-nil
    configuration, a configuration with the same max and the target of the
    policy. *)
Theorem shouldApplyReco_iff :
  (forall (config : option HPAConfiguration) (policy : option Policy),
      shouldApplyReco config policy = true
      <-> policy = None
          \/ exists cfg p, config = Some cfg /\ policy = Some p
                           /\ MinReplicaPercentageCut p = 100
                           /\ TargetMetricValue cfg < TargetUtilization p)
  /\ (forall (config : option HPAConfiguration) (p : Policy),
         MinReplicaPercentageCut p < 100 ->
         shouldApplyReco config (Some p) = false)
  /\ (forall (rw : RecommendationWorkflowImpl) (config : option HPAConfiguration)
             (policy : option Policy) (wm : WorkloadMeta),
         shouldApplyReco config policy = false ->
         exists p,
           policy = Some p
           /\ generateNextRecoConfig rw config policy wm
              = Ok (match createRecoConfigFromPolicy policy config wm with
                    | Ok derived => Some derived
                    | _ => None
                    end, Some p)
           /\ forall cfg, config = Some cfg ->
                exists derived,
                  createRecoConfigFromPolicy policy config wm = Ok derived
                  /\ Max derived = Max cfg
                  /\ TargetMetricValue derived = TargetUtilization p).
Proof.
  split; [|split].
  - intros config policy. unfold shouldApplyReco. split.
    + destruct policy as [p|]; [|now left].
      destruct config as [cfg|]; [|discriminate].
      destruct (MinReplicaPercentageCut p =? 100) eqn:Hcut;
        destruct (TargetMetricValue cfg <? TargetUtilization p) eqn:Hlt;
        cbn [andb]; try discriminate.
      intros _. right. exists cfg, p.
      apply Z.eqb_eq in Hcut. apply Z.ltb_lt in Hlt. auto.
    + intros [->|(cfg & p & -> & -> & Hcut & Hlt)]; [reflexivity|].
      apply Z.eqb_eq in Hcut. apply Z.ltb_lt in Hlt.
      now rewrite Hcut, Hlt.
  - intros config p Hcut. unfold shouldApplyReco.
    destruct config as [cfg|]; [|reflexivity].
    replace (MinReplicaPercentageCut p =? 100) with false; [reflexivity|].
    symmetry. apply Z.eqb_neq. lia.
  - intros rw config policy wm Hno.
    destruct policy as [p|]; [|discriminate Hno].
    exists p. split; [reflexivity|].
    unfold generateNextRecoConfig. rewrite Hno. split.
    + destruct config; reflexivity.
    + intros cfg ->. cbn [createRecoConfigFromPolicy].
      eexists. split; [reflexivity|]. split; reflexivity.
Qed.

Lemma shouldApplyReco_iff_witness :
  shouldApplyReco (Some (mkHPAConfiguration 1 10 40)) (Some (mkPolicy "p50" "5" 50 50))
  = false.
Proof.
  apply (proj1 (proj2 shouldApplyReco_iff)). vm_compute. reflexivity.
Defined.

(** Go's order on strings is transitive. *)
Lemma string_leb_trans (a b c : string) :
  String.leb a b = true -> String.leb b c = true -> String.leb a c = true.
Proof.
  unfold String.leb. revert b c.
  induction a as [|x a IH]; intros [|y b] [|z c]; cbn [String.compare];
    try discriminate; try reflexivity.
  unfold Ascii.compare.
  destruct (N.compare_spec (N_of_ascii x) (N_of_ascii y)) as [Hxy|Hxy|Hxy];
    destruct (N.compare_spec (N_of_ascii y) (N_of_ascii z)) as [Hyz|Hyz|Hyz];
    destruct (N.compare_spec (N_of_ascii x) (N_of_ascii z)) as [Hxz|Hxz|Hxz];
    try lia; try discriminate; try reflexivity.
  apply IH.
Qed.

Lemma string_leb_refl (a : string) : String.leb a a = true.
Proof. destruct (String.leb_total a a); assumption. Qed.

Lemma pickSafestPolicy_nil_l (p : option Policy) : pickSafestPolicy None p = p.
Proof. destruct p; reflexivity. Qed.

Lemma pickSafestPolicy_nil_r (p : option Policy) : pickSafestPolicy p None = p.
Proof. destruct p; reflexivity. Qed.

Lemma pickSafestPolicy_assoc (a b c : option Policy) :
  pickSafestPolicy a (pickSafestPolicy b c) = pickSafestPolicy (pickSafestPolicy a b) c.
Proof.
  destruct a as [a|], b as [b|], c as [c|]; cbn [pickSafestPolicy];
    try reflexivity;
    try (destruct (String.leb _ _); reflexivity).
  destruct (String.leb (RiskIndex b) (RiskIndex c)) eqn:Hbc;
    destruct (String.leb (RiskIndex a) (RiskIndex b)) eqn:Hab;
    cbn [pickSafestPolicy]; rewrite ?Hab, ?Hbc; try reflexivity.
  - now rewrite (string_leb_trans _ _ _ Hab Hbc).
  - destruct (String.leb (RiskIndex a) (RiskIndex c)) eqn:Hac; [|reflexivity].
    destruct (String.leb_total (RiskIndex b) (RiskIndex c)) as [H|H]; [congruence|].
    rewrite (string_leb_trans _ _ _ Hac H) in Hab. discriminate.
Qed.

(** The result of [pickSafestPolicy] is one of its arguments, and no
    argument has a smaller risk index. *)
Lemma pickSafestPolicy_choice (a b : option Policy) :
  pickSafestPolicy a b = a \/ pickSafestPolicy a b = b.
Proof.
  destruct a as [a|], b as [b|]; cbn [pickSafestPolicy]; auto.
  destruct (String.leb _ _); auto.
Qed.

(** [r] is at most as risky as the policy [x], if [x] is one. *)
Definition safeAs (r x : option Policy) : Prop :=
  forall p, x = Some p ->
            exists q, r = Some q /\ String.leb (RiskIndex q) (RiskIndex p) = true.

Lemma safeAs_refl (r : option Policy) : safeAs r r.
Proof. intros p ->. exists p. split; [reflexivity|apply string_leb_refl]. Qed.

Lemma safeAs_trans (r s x : option Policy) : safeAs r s -> safeAs s x -> safeAs r x.
Proof.
  intros Hrs Hsx p Hp. destruct (Hsx p Hp) as (q & Hq & Hle).
  destruct (Hrs q Hq) as (q' & Hq' & Hle'). exists q'. split; [assumption|].
  eapply string_leb_trans; eassumption.
Qed.

Lemma pickSafestPolicy_safeAs (a b : option Policy) :
  safeAs (pickSafestPolicy a b) a /\ safeAs (pickSafestPolicy a b) b.
Proof.
  destruct a as [a|], b as [b|]; cbn [pickSafestPolicy];
    try (split; (apply safeAs_refl || (intros p Hp; discriminate Hp))).
  destruct (String.leb (RiskIndex a) (RiskIndex b)) eqn:Hab; split;
    try apply safeAs_refl; intros p Hp; injection Hp as <-.
  - exists a. auto.
  - exists b. split; [reflexivity|].
    destruct (String.leb_total (RiskIndex a) (RiskIndex b)); congruence.
Qed.

(** The merge of a list of iterator outputs: one of them (or the start),
    and as safe as every one of them. *)
Lemma fold_pickSafestPolicy_choice (outputs : list (option Policy)) (start : option Policy) :
  fold_left pickSafestPolicy outputs start = start
  \/ In (fold_left pickSafestPolicy outputs start) outputs.
Proof.
  revert start. induction outputs as [|o outputs IH]; intros start; cbn [fold_left].
  - now left.
  - destruct (IH (pickSafestPolicy start o)) as [H|H].
    + rewrite H. destruct (pickSafestPolicy_choice start o) as [->| ->].
      * now left.
      * right. now left.
    + right. now right.
Qed.

Lemma fold_pickSafestPolicy_safeAs (outputs : list (option Policy)) (start : option Policy) :
  safeAs (fold_left pickSafestPolicy outputs start) start
  /\ forall o, In o outputs -> safeAs (fold_left pickSafestPolicy outputs start) o.
Proof.
  revert start. induction outputs as [|o outputs IH]; intros start; cbn [fold_left].
  - split; [apply safeAs_refl|intros o []].
  - destruct (IH (pickSafestPolicy start o)) as [Hs Ho].
    destruct (pickSafestPolicy_safeAs start o) as [H1 H2]. split.
    + eapply safeAs_trans; eassumption.
    + intros o' [<-|Hin]; [eapply safeAs_trans; eassumption|auto].
Qed.

(** The merge over two orders of the same outputs has one risk index. *)
Lemma fold_pickSafestPolicy_permutation (outputs outputs' : list (option Policy)) :
  Permutation outputs outputs' ->
  option_map RiskIndex (fold_left pickSafestPolicy outputs None)
  = option_map RiskIndex (fold_left pickSafestPolicy outputs' None).
Proof.
  intros Hperm.
  assert (Hhalf : forall l l', (forall o, In o l -> In o l') ->
            forall q, fold_left pickSafestPolicy l None = Some q ->
            exists q', fold_left pickSafestPolicy l' None = Some q'
                       /\ String.leb (RiskIndex q') (RiskIndex q) = true).
  { intros l l' Hincl q Hq.
    destruct (fold_pickSafestPolicy_choice l None) as [H|H]; [congruence|].
    rewrite Hq in H. apply Hincl in H.
    destruct (fold_pickSafestPolicy_safeAs l' None) as [_ Hall].
    exact (Hall _ H q eq_refl). }
  assert (Hin : forall o, In o outputs -> In o outputs')
    by (intros o; apply Permutation_in; assumption).
  assert (Hin' : forall o, In o outputs' -> In o outputs)
    by (intros o; apply Permutation_in; apply Permutation_sym; assumption).
  destruct (fold_left pickSafestPolicy outputs None) as [q|] eqn:Hq.
  - destruct (Hhalf _ _ Hin q Hq) as (q' & Hq' & Hle).
    destruct (Hhalf _ _ Hin' q' Hq') as (q'' & Hq'' & Hle').
    rewrite Hq'. rewrite Hq in Hq''. injection Hq'' as <-. cbn [option_map].
    f_equal. apply String.leb_antisym; assumption.
  - destruct (fold_left pickSafestPolicy outputs' None) as [q'|] eqn:Hq'; [|reflexivity].
    destruct (Hhalf _ _ Hin' q' Hq') as (q & Hq'' & _). congruence.
Qed.

(** The loop of [Execute] succeeds exactly when every iterator does, and
    then merges the outputs from left to right. *)
Lemma runPolicyIterators_ok (iterators : list (string * PolicyIterator))
    (wm : WorkloadMeta) (start result : option Policy) :
  runPolicyIterators iterators wm start = Ok result
  <-> Forall (iteratorSucceeds wm) iterators
      /\ result = fold_left pickSafestPolicy (map (iteratorOutput wm) iterators) start.
Proof.
  revert start. induction iterators as [|[name pi] iterators IH]; intros start;
    cbn [runPolicyIterators map fold_left].
  - split.
    + intros H. injection H as <-. split; [constructor|reflexivity].
    + intros [_ ->]. reflexivity.
  - destruct (NextPolicy pi wm) as [p|e|r] eqn:Hpi; cbn [bind].
    + assert (Hout : iteratorOutput wm (name, pi) = p)
        by (unfold iteratorOutput; cbn [snd]; now rewrite Hpi).
      rewrite Hout.
      assert (Hstep : forall acc, runPolicyIterators iterators wm acc = Ok result
                <-> Forall (iteratorSucceeds wm) ((name, pi) :: iterators)
                    /\ result = fold_left pickSafestPolicy
                                  (map (iteratorOutput wm) iterators) acc).
      { intros acc. rewrite IH. split.
        - intros [Hall ->]. split; [|reflexivity].
          constructor; [exists p; exact Hpi|assumption].
        - intros [Hall ->]. split; [|reflexivity]. now inversion Hall. }
      destruct p as [p|].
      * apply Hstep.
      * rewrite pickSafestPolicy_nil_r. apply Hstep.
    + split; [discriminate|].
      intros [Hall _]. inversion Hall as [|? ? [p Hp] _]; subst.
      cbn [snd] in Hp. congruence.
    + split; [discriminate|].
      intros [Hall _]. inversion Hall as [|? ? [p Hp] _]; subst.
      cbn [snd] in Hp. congruence.
Qed.

(** C6, as the code has it: [pickSafestPolicy] is associative and has nil as
    a two-sided identity.  The two orders of its arguments give policies
    with one risk index, and the same policy unless the arguments are
    distinct policies with equal risk index; on equal risk indices each call
    returns its first argument.  When the loop of [Execute] over the policy
    iterators succeeds in one order of the map, it succeeds in every order,
    and the merged policy has the same risk index; of two iterators that
    answer policies with equal risk index, the one the loop runs first
    gives the merged policy. *)
Theorem pickSafestPolicy_laws :
  (forall a b c : option Policy,
      pickSafestPolicy a (pickSafestPolicy b c)
      = pickSafestPolicy (pickSafestPolicy a b) c)
  /\ (forall a : option Policy,
         pickSafestPolicy None a = a /\ pickSafestPolicy a None = a)
  /\ (forall a b : option Policy,
         option_map RiskIndex (pickSafestPolicy a b)
         = option_map RiskIndex (pickSafestPolicy b a))
  /\ (forall a b : option Policy,
         (forall p q, a = Some p -> b = Some q -> RiskIndex p = RiskIndex q -> p = q) ->
         pickSafestPolicy a b = pickSafestPolicy b a)
  /\ (forall p q : Policy,
         RiskIndex p = RiskIndex q ->
         pickSafestPolicy (Some p) (Some q) = Some p
         /\ pickSafestPolicy (Some q) (Some p) = Some q)
  /\ (forall (iterators iterators' : list (string * PolicyIterator))
             (wm : WorkloadMeta) (nextPolicy : option Policy),
         Permutation iterators iterators' ->
         runPolicyIterators iterators wm None = Ok nextPolicy ->
         exists nextPolicy',
           runPolicyIterators iterators' wm None = Ok nextPolicy'
           /\ option_map RiskIndex nextPolicy = option_map RiskIndex nextPolicy')
  /\ (forall (first second : string * PolicyIterator) (wm : WorkloadMeta)
             (p q : Policy),
         NextPolicy (snd first) wm = Ok (Some p) ->
         NextPolicy (snd second) wm = Ok (Some q) ->
         RiskIndex p = RiskIndex q ->
         runPolicyIterators [first; second] wm None = Ok (Some p)
         /\ runPolicyIterators [second; first] wm None = Ok (Some q)).
Proof.
  split; [exact pickSafestPolicy_assoc|].
  split; [intros a; split; [apply pickSafestPolicy_nil_l|apply pickSafestPolicy_nil_r]|].
  assert (Hcases : forall p q : Policy,
             pickSafestPolicy (Some p) (Some q) = pickSafestPolicy (Some q) (Some p)
             \/ RiskIndex p = RiskIndex q
                /\ pickSafestPolicy (Some p) (Some q) = Some p
                /\ pickSafestPolicy (Some q) (Some p) = Some q).
  { intros p q. cbn [pickSafestPolicy].
    destruct (String.leb (RiskIndex p) (RiskIndex q)) eqn:Hpq;
      destruct (String.leb (RiskIndex q) (RiskIndex p)) eqn:Hqp; auto.
    - right. split; [apply String.leb_antisym; assumption|auto].
    - destruct (String.leb_total (RiskIndex p) (RiskIndex q)); congruence. }
  assert (Htie : forall p q : Policy,
             RiskIndex p = RiskIndex q ->
             pickSafestPolicy (Some p) (Some q) = Some p).
  { intros p q Heq. cbn [pickSafestPolicy].
    now rewrite Heq, string_leb_refl. }
  split; [|split; [|split; [|split]]].
  - intros [p|] [q|]; try reflexivity.
    destruct (Hcases p q) as [->|(Heq & -> & ->)]; [reflexivity|].
    cbn [option_map]. now rewrite Heq.
  - intros [p|] [q|] Hdistinct; try reflexivity.
    destruct (Hcases p q) as [H|(Heq & -> & ->)]; [exact H|].
    now rewrite (Hdistinct p q eq_refl eq_refl Heq).
  - intros p q Heq. split; [now apply Htie|]. apply Htie. now symmetry.
  - intros iterators iterators' wm nextPolicy Hperm Hrun.
    apply runPolicyIterators_ok in Hrun. destruct Hrun as [Hall ->].
    eexists. split.
    + apply runPolicyIterators_ok. split; [|reflexivity].
      eapply Permutation_Forall; eassumption.
    + apply fold_pickSafestPolicy_permutation. now apply Permutation_map.
  - intros [n1 it1] [n2 it2] wm p q Hp Hq Heq. cbn [snd] in Hp, Hq.
    cbn [runPolicyIterators]. rewrite Hp, Hq. cbn [bind]. rewrite ?Hp, ?Hq.
    cbn [bind]. rewrite !pickSafestPolicy_nil_l.
    rewrite (Htie p q Heq), (Htie q p (eq_sym Heq)). split; reflexivity.
Qed.

Lemma pickSafestPolicy_laws_witness :
  pickSafestPolicy (Some guarded) (Some (mkPolicy "bold" "7" 20 60))
  = pickSafestPolicy (Some (mkPolicy "bold" "7" 20 60)) (Some guarded)
  /\ (pickSafestPolicy (Some guarded) (Some cautious) = Some guarded
      /\ pickSafestPolicy (Some cautious) (Some guarded) = Some cautious)
  /\ (runPolicyIterators
        [("a", constantIterator guarded); ("b", constantIterator cautious)]%string
        someWorkload None = Ok (Some guarded)
      /\ runPolicyIterators
           [("b", constantIterator cautious); ("a", constantIterator guarded)]%string
           someWorkload None = Ok (Some cautious)).
Proof.
  split; [|split].
  - apply (proj1 (proj2 (proj2 (proj2 pickSafestPolicy_laws)))).
    intros p q Hp Hq Heq. injection Hp as <-. injection Hq as <-.
    vm_compute in Heq. discriminate Heq.
  - apply (proj1 (proj2 (proj2 (proj2 (proj2 pickSafestPolicy_laws)))) guarded cautious).
    reflexivity.
  - apply (proj2 (proj2 (proj2 (proj2 (proj2 (proj2 pickSafestPolicy_laws)))))
             ("a"%string, constantIterator guarded)
             ("b"%string, constantIterator cautious) someWorkload guarded cautious);
      reflexivity.
Defined.

(** C6 fails as stated: for two distinct policies with the same risk index
    each order of the arguments returns its first argument, and the loop of
    [Execute] over two iterators that answer with them ends with the policy
    of the iterator it ran first. *)
Lemma pickSafestPolicy_not_commutative :
  pickSafestPolicy (Some guarded) (Some cautious)
  <> pickSafestPolicy (Some cautious) (Some guarded)
  /\ runPolicyIterators
       [("a", constantIterator guarded); ("b", constantIterator cautious)]%string
       someWorkload None = Ok (Some guarded)
  /\ runPolicyIterators
       [("b", constantIterator cautious); ("a", constantIterator guarded)]%string
       someWorkload None = Ok (Some cautious).
Proof.
  split; [|split]; [|reflexivity|reflexivity].
  vm_compute. discriminate.
Qed.

(** The scan of [findClosestSafePolicy] with a non-nil configuration. *)
Lemma scanClosestSafePolicy_step (cfg : HPAConfiguration) (pc : PolicyCR)
    (rest : list PolicyCR) (closest : PolicyCR) :
  scanClosestSafePolicy (Some cfg) (pc :: rest) closest
  = scanClosestSafePolicy (Some cfg) rest (if isSafeFor cfg pc then pc else closest).
Proof.
  cbn [scanClosestSafePolicy]. unfold isSafeFor.
  destruct (SpecMinReplicaPercentageCut (Spec pc) =? 100); cbn [andb]; [|reflexivity].
  destruct (SpecTargetUtilization (Spec pc) <=? TargetMetricValue cfg); reflexivity.
Qed.

Lemma scanClosestSafePolicy_no_match (cfg : HPAConfiguration) (items : list PolicyCR)
    (closest : PolicyCR) :
  (forall x, In x items -> isSafeFor cfg x = false) ->
  scanClosestSafePolicy (Some cfg) items closest = Ok closest.
Proof.
  revert closest. induction items as [|pc rest IH]; intros closest Hnone.
  - reflexivity.
  - rewrite scanClosestSafePolicy_step, (Hnone pc (or_introl eq_refl)).
    apply IH. intros x Hx. apply Hnone. now right.
Qed.

Lemma scanClosestSafePolicy_last_match (cfg : HPAConfiguration)
    (before after : list PolicyCR) (pc closest : PolicyCR) :
  isSafeFor cfg pc = true ->
  (forall x, In x after -> isSafeFor cfg x = false) ->
  scanClosestSafePolicy (Some cfg) (before ++ pc :: after) closest = Ok pc.
Proof.
  intros Hpc Hafter. revert closest.
  induction before as [|b before IH]; intros closest; cbn [app].
  - rewrite scanClosestSafePolicy_step, Hpc.
    now apply scanClosestSafePolicy_no_match.
  - rewrite scanClosestSafePolicy_step. apply IH.
Qed.

(** C8: [findClosestSafePolicy] returns the last policy of the list whose
    cut is 100 and whose target is at most the recommended target, with the
    name, the risk index, the cut and the target of that item; when no
    policy of the list passes that test it returns the empty policy (a
    non-nil pointer to a policy with empty name and risk index and zero cut
    and target). *)
Theorem findClosestSafePolicy_last_safe :
  (forall (cfg : HPAConfiguration) (before after : list PolicyCR) (pc : PolicyCR),
      SpecMinReplicaPercentageCut (Spec pc) = 100 ->
      SpecTargetUtilization (Spec pc) <= TargetMetricValue cfg ->
      (forall x, In x after ->
                 ~ (SpecMinReplicaPercentageCut (Spec x) = 100
                    /\ SpecTargetUtilization (Spec x) <= TargetMetricValue cfg)) ->
      findClosestSafePolicy (Some cfg) (Some (before ++ pc :: after))
      = Ok (mkPolicy (CRName pc) (SpecRiskIndex (Spec pc)) 100
              (SpecTargetUtilization (Spec pc))))
  /\ (forall (cfg : HPAConfiguration) (items : list PolicyCR),
         (forall x, In x items ->
                    ~ (SpecMinReplicaPercentageCut (Spec x) = 100
                       /\ SpecTargetUtilization (Spec x) <= TargetMetricValue cfg)) ->
         findClosestSafePolicy (Some cfg) (Some items)
         = Ok (mkPolicy EmptyString EmptyString 0 0)).
Proof.
  assert (Hsafe : forall cfg x,
             isSafeFor cfg x = true
             <-> SpecMinReplicaPercentageCut (Spec x) = 100
                 /\ SpecTargetUtilization (Spec x) <= TargetMetricValue cfg).
  { intros cfg x. unfold isSafeFor.
    rewrite andb_true_iff, Z.eqb_eq, Z.leb_le. reflexivity. }
  assert (Hunsafe : forall cfg (l : list PolicyCR),
             (forall x, In x l ->
                        ~ (SpecMinReplicaPercentageCut (Spec x) = 100
                           /\ SpecTargetUtilization (Spec x) <= TargetMetricValue cfg)) ->
             forall x, In x l -> isSafeFor cfg x = false).
  { intros cfg l Hl x Hx. apply not_true_is_false. rewrite Hsafe. now apply Hl. }
  split.
  - intros cfg before after pc Hcut Htarget Hafter. unfold findClosestSafePolicy.
    rewrite scanClosestSafePolicy_last_match;
      [|apply Hsafe; auto|now apply Hunsafe].
    cbn [bind]. unfold PolicyFromCR. now rewrite Hcut.
  - intros cfg items Hnone. unfold findClosestSafePolicy.
    rewrite scanClosestSafePolicy_no_match; [reflexivity|now apply Hunsafe].
Qed.

Lemma findClosestSafePolicy_last_safe_witness :
  findClosestSafePolicy (Some (mkHPAConfiguration 1 10 45))
    (Some ([mkPolicyCR "p30" (mkPolicySpec "1" 100 30)]
           ++ mkPolicyCR "p40" (mkPolicySpec "2" 100 40)
           :: [mkPolicyCR "p50" (mkPolicySpec "3" 100 50);
               mkPolicyCR "p60" (mkPolicySpec "4" 80 40)]))
  = Ok (mkPolicy "p40" "2" 100 40).
Proof.
  apply (proj1 findClosestSafePolicy_last_safe (mkHPAConfiguration 1 10 45)
           [mkPolicyCR "p30" (mkPolicySpec "1" 100 30)]
           [mkPolicyCR "p50" (mkPolicySpec "3" 100 50);
            mkPolicyCR "p60" (mkPolicySpec "4" 80 40)]
           (mkPolicyCR "p40" (mkPolicySpec "2" 100 40))).
  - reflexivity.
  - vm_compute. discriminate.
  - intros x [<-|[<-|[]]]; vm_compute; intros [H1 H2];
      [apply H2; reflexivity|discriminate H1].
Defined.

(** ** The recommender *)

Lemma GoInt_wrap_small (z : Z) : GoInt.min_int <= z <= GoInt.max_int -> GoInt.wrap z = z.
Proof.
  unfold GoInt.wrap, GoInt.min_int, GoInt.max_int. intros H.
  rewrite Z.mod_small; lia.
Qed.

(** The midpoint of the binary search when its bounds are ordered,
    non-negative and below the largest [int]: nothing wraps. *)
Lemma searchTarget_midpoint (low high : Z) :
  0 <= low <= high -> high < GoInt.max_int ->
  let mid := GoInt.add low (GoInt.quot (GoInt.sub high low) 2) in
  mid = low + (high - low) / 2
  /\ GoInt.add mid 1 = mid + 1
  /\ GoInt.sub mid 1 = mid - 1.
Proof.
  intros Hlow Hhigh. unfold GoInt.add, GoInt.sub, GoInt.quot.
  assert (Hmax : GoInt.max_int = 9223372036854775807) by reflexivity.
  assert (Hmin : GoInt.min_int = -9223372036854775808) by reflexivity.
  rewrite (GoInt_wrap_small (high - low)) by lia.
  rewrite Z.quot_div_nonneg by lia.
  pose proof (Z.div_pos (high - low) 2 ltac:(lia) ltac:(lia)) as Hpos.
  assert (Hhalf : (high - low) / 2 <= high - low)
    by (apply Z.div_le_upper_bound; lia).
  rewrite (GoInt_wrap_small ((high - low) / 2)) by lia.
  rewrite (GoInt_wrap_small (low + (high - low) / 2)) by lia.
  rewrite !GoInt_wrap_small by lia. auto.
Qed.

(** The binary search never ends above the upper bound it started from. *)
Lemma searchTarget_high_bound (c : CpuUtilizationBasedRecommender)
    (dataPoints : list DataPoint) (acl : Duration) (perPodResources : float)
    (maxReplicas minReplicas : Z) (fuel : nat) :
  forall (low high : Z) (simulated : list DataPoint) (calculatedMin : Z)
         (high' : Z) (simulated' : list DataPoint) (calculatedMin' : Z),
    0 <= low -> high < GoInt.max_int ->
    searchTarget c dataPoints acl perPodResources maxReplicas minReplicas
      fuel low high simulated calculatedMin = Ok (high', simulated', calculatedMin') ->
    high' <= high.
Proof.
  induction fuel as [|fuel IH]; intros low high simulated calculatedMin
    high' simulated' calculatedMin' Hlow Hhigh; cbn [searchTarget];
    destruct (low <=? high) eqn:Hguard;
    try (intros H; injection H as <- _ _; lia); try discriminate.
  apply Z.leb_le in Hguard.
  destruct (searchTarget_midpoint low high ltac:(lia) Hhigh) as (Hmid & Hup & Hdown).
  assert (Hhalf : 0 <= (high - low) / 2 <= high - low).
  { split; [apply Z.div_pos; lia|apply Z.div_le_upper_bound; lia]. }
  rewrite Hup, Hdown.
  destruct (simulateHPA _ _ _ _ _ _ _) as [[sim cmin]|e|r]; cbn [bind]; try discriminate.
  destruct (hasNoBreachOccurred _ _) as [[|]|e|r]; cbn [bind]; try discriminate;
    intros Hrun; apply IH in Hrun; lia.
Qed.

Lemma recordCandidate_within_bounds (c : CpuUtilizationBasedRecommender)
    (minTarget maxTarget : Z) (perPodResources : float) (maxReplicas minReplicas : Z)
    (best : Best) (high : Z) (simulated : list DataPoint) (calculatedMin : Z) :
  1 <= minReplicas <= maxReplicas -> high <= maxTarget ->
  bestWithinBounds minTarget maxTarget maxReplicas best ->
  bestWithinBounds minTarget maxTarget maxReplicas
    (recordCandidate c minTarget perPodResources maxReplicas minReplicas best
       high simulated calculatedMin).
Proof.
  intros Hmin Hhigh Hbest. unfold recordCandidate.
  destruct (minTarget <=? high) eqn:Htarget; cbn [andb]; [|assumption].
  destruct (calculatedMin <=? minReplicas); [|assumption].
  destruct (0 <? Z.of_nat (List.length simulated)); [|assumption].
  destruct (savings best <=? _)%float; [|assumption].
  right. cbn [optimalMin optimalTargetThreshold]. apply Z.leb_le in Htarget. lia.
Qed.

(** The sweep keeps its best candidate within bounds.  [fuel] counts the
    candidates left, so the counter can only wrap on the last one, after
    which the model has no iteration left and does not return. *)
Lemma sweepMinReplicas_within_bounds (c : CpuUtilizationBasedRecommender)
    (dataPoints : list DataPoint) (acl : Duration) (minTarget maxTarget : Z)
    (perPodResources : float) (maxReplicas : Z) (fuel : nat) :
  0 <= minTarget -> maxTarget < GoInt.max_int -> maxReplicas <= GoInt.max_int ->
  forall (minReplicas : Z) (best result : Best),
    1 <= minReplicas ->
    (minReplicas <= maxReplicas -> Z.of_nat fuel + minReplicas <= maxReplicas + 1) ->
    bestWithinBounds minTarget maxTarget maxReplicas best ->
    sweepMinReplicas c dataPoints acl minTarget maxTarget perPodResources maxReplicas
      fuel minReplicas best = Ok result ->
    bestWithinBounds minTarget maxTarget maxReplicas result.
Proof.
  intros HminT HmaxT HmaxR.
  assert (Hmax : GoInt.max_int = 9223372036854775807) by reflexivity.
  assert (Hmin : GoInt.min_int = -9223372036854775808) by reflexivity.
  induction fuel as [|fuel IH]; intros minReplicas best result Hone Hfuel Hbest;
    cbn [sweepMinReplicas]; destruct (minReplicas <=? maxReplicas) eqn:Hguard;
    try (intros H; injection H as <-; assumption); try discriminate.
  apply Z.leb_le in Hguard.
  destruct (searchTarget _ _ _ _ _ _ _ _ _ _ _) as [[[high simulated] calculatedMin]|e|r]
    eqn:Hsearch; cbn [bind]; try discriminate.
  apply searchTarget_high_bound in Hsearch; [|lia|lia].
  assert (Hrec := recordCandidate_within_bounds c minTarget maxTarget perPodResources
                    maxReplicas minReplicas best high simulated calculatedMin
                    ltac:(lia) Hsearch Hbest).
  destruct (Z.eq_dec minReplicas GoInt.max_int) as [Hlast|Hnot].
  - assert (fuel = O) by lia. subst fuel.
    replace (GoInt.add minReplicas 1) with GoInt.min_int
      by (subst minReplicas; reflexivity).
    cbn [sweepMinReplicas].
    replace (GoInt.min_int <=? maxReplicas) with true
      by (symmetry; apply Z.leb_le; lia).
    discriminate.
  - unfold GoInt.add. rewrite GoInt_wrap_small by lia.
    apply IH; [lia|lia|assumption].
Qed.

(** A result of [findOptimalHPAConfigurations] is within the bounds it was
    given. *)
Lemma findOptimalHPAConfigurations_within_bounds (c : CpuUtilizationBasedRecommender)
    (dataPoints : list DataPoint) (acl : Duration) (minTarget maxTarget : Z)
    (perPodResources : float) (maxReplicas : Z) (target minReplicas maxReplicas' : Z) :
  0 <= minTarget -> maxTarget < GoInt.max_int -> maxReplicas <= GoInt.max_int ->
  findOptimalHPAConfigurations c dataPoints acl minTarget maxTarget perPodResources
    maxReplicas = Ok (target, minReplicas, maxReplicas') ->
  maxReplicas' = maxReplicas
  /\ 1 <= minReplicas <= maxReplicas
  /\ minTarget <= target <= maxTarget.
Proof.
  intros HminT HmaxT HmaxR. unfold findOptimalHPAConfigurations.
  destruct (sweepMinReplicas _ _ _ _ _ _ _ _ _ _) as [best|e|r] eqn:Hsweep;
    cbn [bind]; try discriminate.
  apply sweepMinReplicas_within_bounds in Hsweep; try assumption; try lia.
  - destruct Hsweep as [->|Hbounds].
    + cbn [savings optimalTargetThreshold]. rewrite orb_true_r. discriminate.
    + destruct (_ || _); [discriminate|].
      intros H. injection H as <- <- <-. auto.
  - now left.
Qed.

(** *** The search returns *)

Lemma simulateLoop_length (c : CpuUtilizationBasedRecommender) (acl : Duration)
    (target : Z) (perPodResources : float) (maxReplicas minReplicas : Z)
    (dataPoints : list DataPoint) :
  forall st : SimState,
    List.length (fst (simulateLoop c acl target perPodResources maxReplicas minReplicas
                        st dataPoints))
    = List.length dataPoints.
Proof.
  induction dataPoints as [|dp rest IH]; intros st; cbn [simulateLoop].
  - reflexivity.
  - destruct (simulateStep _ _ _ _ _ _ _ _) as [st' out].
    specialize (IH st'). destruct (simulateLoop _ _ _ _ _ _ _ _) as [outs final].
    cbn [fst List.length] in *. now rewrite IH.
Qed.

(** [simulateHPA] returns a series as long as its input, or an error. *)
Lemma simulateHPA_returns (c : CpuUtilizationBasedRecommender)
    (dataPoints : list DataPoint) (acl : Duration) (target : Z)
    (perPodResources : float) (maxReplicas minReplicas : Z) :
  (exists simulated calculatedMin,
      simulateHPA c dataPoints acl target perPodResources maxReplicas minReplicas
      = Ok (simulated, calculatedMin)
      /\ List.length simulated = List.length dataPoints)
  \/ exists e,
      simulateHPA c dataPoints acl target perPodResources maxReplicas minReplicas = Err e.
Proof.
  unfold simulateHPA. destruct dataPoints as [|dp0 rest].
  - left. eexists _, _. split; reflexivity.
  - destruct (_ || _); [right; eexists; reflexivity|]. left.
    pose proof (simulateLoop_length c acl (inflateTarget target) perPodResources
                  maxReplicas minReplicas rest) as Hlen.
    match goal with
    | |- context [simulateLoop c ?a ?t ?p ?mx ?mn ?st rest] =>
        specialize (Hlen st);
        destruct (simulateLoop c a t p mx mn st rest) as [outs final]
    end.
    eexists _, _. split; [reflexivity|]. cbn [fst List.length] in *. now rewrite Hlen.
Qed.

Lemma hasNoBreachOccurred_returns (original simulated : list DataPoint) :
  List.length simulated = List.length original ->
  exists noBreach, hasNoBreachOccurred original simulated = Ok noBreach.
Proof.
  revert simulated. induction original as [|o original IH]; intros [|s simulated] Hlen;
    cbn [hasNoBreachOccurred]; try discriminate Hlen; eauto.
  destruct (Value s <? Value o)%float; eauto.
Qed.

(** With ordered, non-negative bounds below the largest [int], the binary
    search ends within [fuel] iterations once the interval has fewer than
    [2 ^ fuel] targets: it returns a result or the error of a probe. *)
Lemma searchTarget_finishes (c : CpuUtilizationBasedRecommender)
    (dataPoints : list DataPoint) (acl : Duration) (perPodResources : float)
    (maxReplicas minReplicas : Z) (fuel : nat) :
  forall (low high : Z) (simulated : list DataPoint) (calculatedMin : Z) (r : abort),
    0 <= low -> high < GoInt.max_int -> high + 1 - low < 2 ^ Z.of_nat fuel ->
    searchTarget c dataPoints acl perPodResources maxReplicas minReplicas
      fuel low high simulated calculatedMin <> Abort r.
Proof.
  induction fuel as [|fuel IH]; intros low high simulated calculatedMin r Hlow Hhigh Hsize;
    cbn [searchTarget]; destruct (low <=? high) eqn:Hguard; try discriminate.
  - apply Z.leb_le in Hguard. cbn in Hsize. lia.
  - apply Z.leb_le in Hguard.
    rewrite Nat2Z.inj_succ, Z.pow_succ_r in Hsize by lia.
    destruct (searchTarget_midpoint low high ltac:(lia) Hhigh) as (Hmid & Hup & Hdown).
    pose proof (Z.div_mod (high - low) 2 ltac:(lia)) as Hdiv.
    pose proof (Z.mod_pos_bound (high - low) 2 ltac:(lia)) as Hmod.
    rewrite Hup, Hdown.
    destruct (simulateHPA_returns c dataPoints acl
                (GoInt.add low (GoInt.quot (GoInt.sub high low) 2))
                perPodResources maxReplicas minReplicas)
      as [(sim & cmin & -> & Hlen)|[e ->]]; cbn [bind]; [|discriminate].
    destruct (hasNoBreachOccurred_returns dataPoints sim Hlen) as [noBreach ->].
    cbn [bind]. destruct noBreach; apply IH; lia.
Qed.

(** With bounds as above and fewer than the largest [int] replicas,
    [findOptimalHPAConfigurations] returns a result or an error. *)
Lemma findOptimalHPAConfigurations_returns (c : CpuUtilizationBasedRecommender)
    (dataPoints : list DataPoint) (acl : Duration) (minTarget maxTarget : Z)
    (perPodResources : float) (maxReplicas : Z) :
  0 <= minTarget -> maxTarget < GoInt.max_int -> maxReplicas < GoInt.max_int ->
  forall r : abort,
    findOptimalHPAConfigurations c dataPoints acl minTarget maxTarget perPodResources
      maxReplicas <> Abort r.
Proof.
  intros HminT HmaxT HmaxR.
  assert (Hmax : GoInt.max_int = 9223372036854775807) by reflexivity.
  assert (Hmin : GoInt.min_int = -9223372036854775808) by reflexivity.
  assert (Hsweep : forall (fuel : nat) (minReplicas : Z) (best : Best) (r : abort),
             1 <= minReplicas -> maxReplicas + 1 <= Z.of_nat fuel + minReplicas ->
             sweepMinReplicas c dataPoints acl minTarget maxTarget perPodResources
               maxReplicas fuel minReplicas best <> Abort r).
  { induction fuel as [|fuel IH]; intros minReplicas best r Hone Hfuel;
      cbn [sweepMinReplicas]; destruct (minReplicas <=? maxReplicas) eqn:Hguard;
      try discriminate.
    - apply Z.leb_le in Hguard. lia.
    - apply Z.leb_le in Hguard.
      destruct (searchTarget _ _ _ _ _ _ _ _ _ _ _)
        as [[[high simulated] calculatedMin]|e|r'] eqn:Hsearch; cbn [bind];
        try discriminate.
      + unfold GoInt.add. rewrite GoInt_wrap_small by lia. apply IH; lia.
      + exfalso. revert Hsearch. apply searchTarget_finishes; try lia.
        unfold searchFuel. change (2 ^ Z.of_nat 64) with 18446744073709551616. lia. }
  intros r. unfold findOptimalHPAConfigurations.
  destruct (sweepMinReplicas _ _ _ _ _ _ _ _ _ _) as [best|e|r'] eqn:Hrun;
    cbn [bind]; try discriminate.
  - destruct (_ || _); discriminate.
  - exfalso. revert Hrun. apply Hsweep; lia.
Qed.

(** A configuration returned by [Recommend] comes from one of three paths. *)
Lemma Recommend_ok_path (c : CpuUtilizationBasedRecommender) (now : Time)
    (wm : WorkloadMeta) (cfg : HPAConfiguration) :
  Recommend c now wm = Ok cfg -> RecommendPath c now wm cfg.
Proof.
  unfold Recommend.
  destruct (GetAverageCPUUtilizationByWorkload _ _ _ _ _ _) as [dataPoints|e|r]
    eqn:Hscrape; cbn [bind]; try discriminate.
  destruct (getMaxPods c _ _ _) as [workloadMaxReplicas|e|r] eqn:Hmax;
    cbn [bind]; try discriminate.
  destruct (isMetricsAboveThreshold c dataPoints) as [[|]|e|r] eqn:Habove;
    cbn [bind negb]; try discriminate.
  - destruct (applyTransformers _ _ _ _) as [transformed|e|r] eqn:Htransform;
      cbn [bind]; try discriminate.
    destruct (GetACLByWorkload _ _ _) as [acl|e|r] eqn:Hacl; cbn [bind]; try discriminate.
    destruct (getContainerCPULimitsSum c _ _ _) as [perPodResources|e|r] eqn:Hlimits;
      cbn [bind]; try discriminate.
    destruct (findOptimalHPAConfigurations _ _ _ _ _ _ _) as [[[t m] mx]|e|r] eqn:Hfind;
      try discriminate.
    + intros H. injection H as <-.
      eapply SearchRan; try eassumption. right. eauto.
    + destruct e; cbn [is_unableToRecommend]; try discriminate.
      intros H. injection H as <-.
      eapply SearchRan; try eassumption. left. auto.
  - intros H. injection H as <-. eapply InsufficientData; eassumption.
Qed.












(** C7, as the code has it: when [getMaxPods] yields at least 1 and the
    target bounds satisfy [0 <= minTarget <= maxTarget], below the largest
    [int], every configuration that [Recommend] returns satisfies
    [1 <= min <= max] and [minTarget <= target <= maxTarget]; so does the
    raw recommendation that [Execute] returns after the floor promotion. *)
Theorem Recommend_valid_configuration :
  forall (c : CpuUtilizationBasedRecommender) (now : Time) (wm : WorkloadMeta),
    0 <= minTarget c <= maxTarget c ->
    maxTarget c < GoInt.max_int ->
    (forall n, getMaxPods c (Namespace wm) (Kind wm) (Name wm) = Ok n ->
               1 <= n <= GoInt.max_int) ->
    (forall cfg, Recommend c now wm = Ok cfg -> validConfiguration c cfg)
    /\ (forall (rw : RecommendationWorkflowImpl)
               (nextConfig targetRecoConfig : option HPAConfiguration)
               (policyToApply : option Policy),
           recommender rw = Some (CpuRecommender c now) ->
           Execute rw wm = Ok (nextConfig, targetRecoConfig, policyToApply) ->
           exists cfg, targetRecoConfig = Some cfg /\ validConfiguration c cfg).
Proof.
  intros c now wm Htargets HmaxT Hpods.
  assert (Hreco : forall cfg, Recommend c now wm = Ok cfg -> validConfiguration c cfg).
  { intros cfg Hcfg. apply Recommend_ok_path in Hcfg.
    destruct Hcfg as [dataPoints wmr _ Hmax _
                     |dataPoints transformed wmr acl pp cfg _ Hmax _ _ _ _ Hfind].
    - apply Hpods in Hmax. unfold validConfiguration, noOpConfiguration.
      cbn [Min Max TargetMetricValue]. lia.
    - apply Hpods in Hmax.
      destruct Hfind as [[_ ->]|(t & m & mx & Hfind & ->)].
      + unfold validConfiguration, noOpConfiguration.
        cbn [Min Max TargetMetricValue]. lia.
      + apply findOptimalHPAConfigurations_within_bounds in Hfind; try lia.
        destruct Hfind as (-> & Hm & Ht). unfold validConfiguration.
        cbn [Min Max TargetMetricValue]. lia. }
  split; [exact Hreco|].
  intros rw nextConfig targetRecoConfig policyToApply Hrec. unfold Execute.
  rewrite Hrec. cbn [CpuRecommender RecommendFor].
  destruct (Recommend c now wm) as [cfg|e|r] eqn:Hcfg; cbn [bind]; try discriminate.
  destruct (runPolicyIterators _ _ _) as [nextPolicy|e|r]; cbn [bind]; try discriminate.
  destruct (generateNextRecoConfig _ _ _ _) as [[next pol]|e|r]; cbn [bind];
    try discriminate.
  intros H. injection H as _ <- _.
  specialize (Hreco cfg eq_refl). destruct Hreco as [Hmin Htarget].
  cbn [transformTargetRecoConfig]. eexists. split; [reflexivity|].
  unfold validConfiguration. cbn [Min Max TargetMetricValue].
  split; [|exact Htarget].
  destruct (minRequiredReplicas rw <=? Max cfg) eqn:Hle;
    destruct (Min cfg <? minRequiredReplicas rw) eqn:Hlt; cbn [andb]; lia.
Qed.

Lemma Recommend_valid_configuration_witness :
  validConfiguration (withoutData 5) (mkHPAConfiguration 5 5 10).
Proof.
  apply (proj1 (Recommend_valid_configuration (withoutData 5) (minutes 600) someWorkload
                  ltac:(vm_compute; split; discriminate)
                  ltac:(reflexivity)
                  ltac:(intros n H; vm_compute in H; injection H as <-;
                        vm_compute; split; discriminate))).
  vm_compute. reflexivity.
Defined.

(** C7 fails as stated: for a workload without the max-pods annotation and
    without a scaled object that runs no replica, and a series below the
    data threshold, [Recommend] returns min = max = 0. *)
Lemma Recommend_no_op_with_zero_replicas :
  Recommend (withoutData 0) (minutes 600) someWorkload = Ok (mkHPAConfiguration 0 0 10)
  /\ ~ validConfiguration (withoutData 0) (mkHPAConfiguration 0 0 10).
Proof.
  split; [vm_compute; reflexivity|].
  unfold validConfiguration. cbn [Min Max]. lia.
Qed.

(** ** Errors of the collaborators *)

Lemma applyTransformers_first_failure (before after : list MetricsTransformer)
    (t : MetricsTransformer) (start end_ : Time)
    (dataPoints transformed : list DataPoint) (e : error) :
  applyTransformers before start end_ dataPoints = Ok transformed ->
  Transform t start end_ transformed = Err e ->
  applyTransformers (before ++ t :: after) start end_ dataPoints = Err e.
Proof.
  revert dataPoints. induction before as [|b before IH]; intros dataPoints;
    cbn [app applyTransformers].
  - intros H. injection H as <-. intros ->. reflexivity.
  - destruct (Transform b start end_ dataPoints) as [d|e'|r]; cbn [bind];
      try discriminate. apply IH.
Qed.

Lemma runPolicyIterators_first_failure (before after : list (string * PolicyIterator))
    (name : string) (pi : PolicyIterator) (wm : WorkloadMeta)
    (start : option Policy) (e : error) :
  Forall (iteratorSucceeds wm) before ->
  NextPolicy pi wm = Err e ->
  runPolicyIterators (before ++ (name, pi) :: after) wm start = Err e.
Proof.
  intros Hbefore Hpi. revert start.
  induction Hbefore as [|[n b] before [p Hp] _ IH]; intros start;
    cbn [app runPolicyIterators].
  - rewrite Hpi. reflexivity.
  - cbn [snd] in Hp. rewrite Hp. cbn [bind]. destruct p; apply IH.
Qed.

(** C9, as the code has it.

    [Execute] returns unchanged the error of the recommender, and so every
    error of [Recommend], and the error of the first policy iterator that
    fails.

    [Recommend] returns unchanged the error of the scraper (utilization and
    cycle lag), of the first transformer that fails, of [getMaxPods] and of
    [getContainerCPULimitsSum].  Those two return unchanged the error of
    the object client ([GetReplicaCount], [GetContainerResourceLimits]);
    they report a failure of the registry as an unsupported object kind,
    without its cause; [getMaxPods] reports a failure to list the scaled
    objects, other than not-found, in an error that quotes it, and returns
    neither the error of [GetMaxReplicaFromAnnotation] nor a not-found
    listing error: the next source of the maximum answers.

    The default iterator and the aging iterator return unchanged the error
    of the policy store.

    Two failures are not returned.  The answer of the aging iterator
    depends on the persisted recommendation as the read left it, not on the
    error of the read.  A failure of the policy store to list the sorted
    policies, on the path that applies the recommendation, is dropped:
    [Execute] returns the recommendation, no policy and no error. *)
Theorem Execute_surfaces_collaborator_errors :
  (forall (rw : RecommendationWorkflowImpl) (r : Recommender) (wm : WorkloadMeta)
          (e : error),
      recommender rw = Some r -> RecommendFor r wm = Err e ->
      Execute rw wm = Err e)
  /\ (forall (rw : RecommendationWorkflowImpl) (r : Recommender) (wm : WorkloadMeta)
             (cfg : option HPAConfiguration)
             (before after : list (string * PolicyIterator))
             (name : string) (pi : PolicyIterator) (e : error),
         recommender rw = Some r -> RecommendFor r wm = Ok cfg ->
         policyIterators rw = before ++ (name, pi) :: after ->
         Forall (iteratorSucceeds wm) before ->
         NextPolicy pi wm = Err e ->
         Execute rw wm = Err e)
  /\ (forall (c : CpuUtilizationBasedRecommender) (now : Time) (wm : WorkloadMeta)
             (e : error),
         GetAverageCPUUtilizationByWorkload (scraper c) (Namespace wm) (Name wm)
           (now - metricWindow c) now (metricStep c) = Err e ->
         Recommend c now wm = Err e)
  /\ (forall (c : CpuUtilizationBasedRecommender) (now : Time) (wm : WorkloadMeta)
             (dataPoints : list DataPoint) (e : error),
         GetAverageCPUUtilizationByWorkload (scraper c) (Namespace wm) (Name wm)
           (now - metricWindow c) now (metricStep c) = Ok dataPoints ->
         GetObjectClient (clientsRegistry c) (Kind wm) = Err e ->
         Recommend c now wm = Err (ErrUnsupportedObjectKind (Kind wm)))
  /\ (forall (c : CpuUtilizationBasedRecommender) (now : Time) (wm : WorkloadMeta)
             (dataPoints transformed : list DataPoint) (n : Z)
             (before after : list MetricsTransformer) (t : MetricsTransformer)
             (e : error),
         GetAverageCPUUtilizationByWorkload (scraper c) (Namespace wm) (Name wm)
           (now - metricWindow c) now (metricStep c) = Ok dataPoints ->
         getMaxPods c (Namespace wm) (Kind wm) (Name wm) = Ok n ->
         isMetricsAboveThreshold c dataPoints = Ok true ->
         metricsTransformer c = before ++ t :: after ->
         applyTransformers before (now - metricWindow c) now dataPoints = Ok transformed ->
         Transform t (now - metricWindow c) now transformed = Err e ->
         Recommend c now wm = Err e)
  /\ (forall (c : CpuUtilizationBasedRecommender) (now : Time) (wm : WorkloadMeta)
             (dataPoints transformed : list DataPoint) (n : Z) (e : error),
         GetAverageCPUUtilizationByWorkload (scraper c) (Namespace wm) (Name wm)
           (now - metricWindow c) now (metricStep c) = Ok dataPoints ->
         getMaxPods c (Namespace wm) (Kind wm) (Name wm) = Ok n ->
         isMetricsAboveThreshold c dataPoints = Ok true ->
         applyTransformers (metricsTransformer c) (now - metricWindow c) now dataPoints
           = Ok transformed ->
         GetACLByWorkload (scraper c) (Namespace wm) (Name wm) = Err e ->
         Recommend c now wm = Err e)
  /\ (forall (store : PolicyStore) (wm : WorkloadMeta) (e : error),
         GetDefaultPolicy store = Err e ->
         DefaultPolicyIterator_NextPolicy store wm = Err e)
  /\ (forall (rw : RecommendationWorkflowImpl) (r : Recommender) (wm : WorkloadMeta)
             (cfg : option HPAConfiguration) (nextPolicy : option Policy)
             (store : PolicyStore) (e : error),
         recommender rw = Some r -> RecommendFor r wm = Ok cfg ->
         runPolicyIterators (policyIterators rw) wm None = Ok nextPolicy ->
         shouldApplyReco (transformTargetRecoConfig cfg (minRequiredReplicas rw))
           nextPolicy = true ->
         policyStore rw = Some store ->
         GetSortedPolicies store = Err e ->
         Execute rw wm
         = Ok (transformTargetRecoConfig cfg (minRequiredReplicas rw),
               transformTargetRecoConfig cfg (minRequiredReplicas rw),
               None))
  /\ (forall (rw : RecommendationWorkflowImpl) (c : CpuUtilizationBasedRecommender)
             (now : Time) (wm : WorkloadMeta) (e : error),
         recommender rw = Some (CpuRecommender c now) ->
         Recommend c now wm = Err e ->
         Execute rw wm = Err e)
  /\ (forall (c : CpuUtilizationBasedRecommender) (now : Time) (wm : WorkloadMeta)
             (dataPoints : list DataPoint) (e : error),
         GetAverageCPUUtilizationByWorkload (scraper c) (Namespace wm) (Name wm)
           (now - metricWindow c) now (metricStep c) = Ok dataPoints ->
         getMaxPods c (Namespace wm) (Kind wm) (Name wm) = Err e ->
         Recommend c now wm = Err e)
  /\ (forall (c : CpuUtilizationBasedRecommender) (now : Time) (wm : WorkloadMeta)
             (dataPoints transformed : list DataPoint) (n : Z) (acl : Duration)
             (e : error),
         GetAverageCPUUtilizationByWorkload (scraper c) (Namespace wm) (Name wm)
           (now - metricWindow c) now (metricStep c) = Ok dataPoints ->
         getMaxPods c (Namespace wm) (Kind wm) (Name wm) = Ok n ->
         isMetricsAboveThreshold c dataPoints = Ok true ->
         applyTransformers (metricsTransformer c) (now - metricWindow c) now dataPoints
           = Ok transformed ->
         GetACLByWorkload (scraper c) (Namespace wm) (Name wm) = Ok acl ->
         getContainerCPULimitsSum c (Namespace wm) (Kind wm) (Name wm) = Err e ->
         Recommend c now wm = Err e)
  /\ (forall (c : CpuUtilizationBasedRecommender)
             (namespace objectKind objectName : string),
         (forall e,
             GetObjectClient (clientsRegistry c) objectKind = Err e ->
             getMaxPods c namespace objectKind objectName
             = Err (ErrUnsupportedObjectKind objectKind)
             /\ getContainerCPULimitsSum c namespace objectKind objectName
                = Err (ErrUnsupportedObjectKind objectKind))
         /\ (forall deploymentClient,
                GetObjectClient (clientsRegistry c) objectKind = Ok deploymentClient ->
                getContainerCPULimitsSum c namespace objectKind objectName
                = GetContainerResourceLimits deploymentClient namespace objectName)
         /\ (forall deploymentClient e items e',
                GetObjectClient (clientsRegistry c) objectKind = Ok deploymentClient ->
                GetMaxReplicaFromAnnotation deploymentClient namespace objectName = Err e ->
                ListScaledObjects (k8sClient c) namespace objectName = (items, Some e') ->
                IgnoreNotFound_non_nil e' = true ->
                getMaxPods c namespace objectKind objectName
                = Err (ErrFetchScaledObjects e'))
         /\ (forall deploymentClient e items err,
                GetObjectClient (clientsRegistry c) objectKind = Ok deploymentClient ->
                GetMaxReplicaFromAnnotation deploymentClient namespace objectName = Err e ->
                ListScaledObjects (k8sClient c) namespace objectName = (items, err) ->
                (forall e', err = Some e' -> IgnoreNotFound_non_nil e' = false) ->
                getMaxPods c namespace objectKind objectName
                = match items with
                  | {| MaxReplicaCount := Some n |} :: _ => Ok n
                  | _ => GetReplicaCount deploymentClient namespace objectName
                  end))
  /\ (forall (store : PolicyStore)
             (get : string -> string -> PolicyRecommendation * option error)
             (Age : Duration) (now : Time) (wm : WorkloadMeta) (e : error),
         let policyreco := fst (get (Namespace wm) (Name wm)) in
         (if (String.length (RecoPolicy policyreco) =? 0)%nat
          then GetSafestPolicy store
          else if now <? TransitionedAt policyreco + Age
               then GetPolicyByName store (RecoPolicy policyreco)
               else GetNextPolicyByName store (RecoPolicy policyreco))
         = Err e ->
         AgingPolicyIterator_NextPolicy store get Age now wm = Err e)
  /\ (forall (store : PolicyStore)
             (get get' : string -> string -> PolicyRecommendation * option error)
             (Age : Duration) (now : Time) (wm : WorkloadMeta),
         fst (get (Namespace wm) (Name wm)) = fst (get' (Namespace wm) (Name wm)) ->
         AgingPolicyIterator_NextPolicy store get Age now wm
         = AgingPolicyIterator_NextPolicy store get' Age now wm).
Proof.
  repeat apply conj.
  - intros rw r wm e Hrec Herr. unfold Execute. now rewrite Hrec, Herr.
  - intros rw r wm cfg before after name pi e Hrec Hcfg Hits Hbefore Hpi.
    unfold Execute. rewrite Hrec, Hcfg. cbn [bind]. rewrite Hits.
    now rewrite (runPolicyIterators_first_failure before after name pi wm None e).
  - intros c now wm e Herr. unfold Recommend. now rewrite Herr.
  - intros c now wm dataPoints e Hscrape Hreg. unfold Recommend.
    rewrite Hscrape. cbn [bind]. unfold getMaxPods. now rewrite Hreg.
  - intros c now wm dataPoints transformed n before after t e
      Hscrape Hmax Habove Hts Hbefore Ht.
    unfold Recommend. rewrite Hscrape; cbn [bind]. rewrite Hmax; cbn [bind].
    rewrite Habove; cbn [bind negb]. rewrite Hts.
    now rewrite (applyTransformers_first_failure before after t _ _ _ _ e Hbefore Ht).
  - intros c now wm dataPoints transformed n e Hscrape Hmax Habove Hts Hacl.
    unfold Recommend. rewrite Hscrape; cbn [bind]. rewrite Hmax; cbn [bind].
    rewrite Habove; cbn [bind negb]. rewrite Hts; cbn [bind]. now rewrite Hacl.
  - intros store wm e Herr. unfold DefaultPolicyIterator_NextPolicy. now rewrite Herr.
  - intros rw r wm cfg nextPolicy store e Hrec Hcfg Hits Happly Hstore Herr.
    unfold Execute. rewrite Hrec, Hcfg. cbn [bind]. rewrite Hits. cbn [bind].
    unfold generateNextRecoConfig. now rewrite Happly, Hstore, Herr.
  - intros rw c now wm e Hrec Herr. unfold Execute. rewrite Hrec.
    cbn [CpuRecommender RecommendFor]. now rewrite Herr.
  - intros c now wm dataPoints e Hscrape Hmax. unfold Recommend.
    rewrite Hscrape; cbn [bind]. now rewrite Hmax.
  - intros c now wm dataPoints transformed n acl e Hscrape Hmax Habove Hts Hacl Hlimits.
    unfold Recommend. rewrite Hscrape; cbn [bind]. rewrite Hmax; cbn [bind].
    rewrite Habove; cbn [bind negb]. rewrite Hts; cbn [bind]. rewrite Hacl; cbn [bind].
    now rewrite Hlimits.
  - intros c namespace objectKind objectName. repeat apply conj.
    + intros e Hreg. unfold getMaxPods, getContainerCPULimitsSum. rewrite Hreg.
      split; reflexivity.
    + intros deploymentClient Hreg. unfold getContainerCPULimitsSum.
      now rewrite Hreg.
    + intros deploymentClient e items e' Hreg Hannotation Hlist Hfound.
      unfold getMaxPods. rewrite Hreg, Hannotation, Hlist. now rewrite Hfound.
    + intros deploymentClient e items err Hreg Hannotation Hlist Hignored.
      unfold getMaxPods. rewrite Hreg, Hannotation, Hlist.
      destruct err as [e'|]; [rewrite (Hignored e' eq_refl)|]; reflexivity.
  - intros store get Age now wm e. cbv zeta.
    unfold AgingPolicyIterator_NextPolicy.
    destruct (get (Namespace wm) (Name wm)) as [policyreco err]. cbn [fst].
    cbn [isAgeBeyondExpiry].
    destruct (String.length (RecoPolicy policyreco) =? 0)%nat;
      destruct (now <? TransitionedAt policyreco + Age); cbn [bind negb];
      intros ->; reflexivity.
  - intros store get get' Age now wm. unfold AgingPolicyIterator_NextPolicy.
    destruct (get (Namespace wm) (Name wm)) as [policyreco err].
    destruct (get' (Namespace wm) (Name wm)) as [policyreco' err'].
    cbn [fst]. now intros ->.
Qed.

Lemma Execute_surfaces_collaborator_errors_witness :
  Execute (mkWorkflow (Some (failingRecommender (External "scrape timeout" false)))
             [] (Some singlePolicyStore) 3) someWorkload
  = Err (External "scrape timeout" false)
  /\ AgingPolicyIterator_NextPolicy failingStore failingGet (minutes 60) (minutes 600)
       someWorkload = Err storeDown
  /\ AgingPolicyIterator_NextPolicy singlePolicyStore failingGet (minutes 60)
       (minutes 600) someWorkload
     = AgingPolicyIterator_NextPolicy singlePolicyStore
         (fun _ _ => (zeroPolicyRecommendation, None)) (minutes 60) (minutes 600)
         someWorkload.
Proof.
  destruct Execute_surfaces_collaborator_errors
    as (Hrecommender & _ & _ & _ & _ & _ & _ & _ & _ & _ & _ & _ & Hstore & Hread).
  split; [|split].
  - apply (Hrecommender _ (failingRecommender (External "scrape timeout" false)));
      reflexivity.
  - apply (Hstore failingStore failingGet (minutes 60) (minutes 600) someWorkload
             storeDown).
    reflexivity.
  - apply (Hread singlePolicyStore failingGet
             (fun _ _ => (zeroPolicyRecommendation, None))
             (minutes 60) (minutes 600) someWorkload).
    reflexivity.
Defined.

(** C9 fails as stated.  With no policy iterator the recommendation is
    applied; the policy store fails to list the sorted policies, and
    [Execute] returns the recommendation with no policy and no error.  And
    the aging iterator, whose read of the persisted recommendation fails,
    answers with the safest policy of the store. *)
Lemma Execute_swallows_store_failure :
  GetSortedPolicies failingStore = Err storeDown
  /\ Execute workflowWithStoreDown someWorkload
     = Ok (Some (mkHPAConfiguration 4 10 40), Some (mkHPAConfiguration 4 10 40), None)
  /\ snd (failingGet (Namespace someWorkload) (Name someWorkload))
     = Some (External "connection refused" false)
  /\ AgingPolicyIterator_NextPolicy singlePolicyStore failingGet (minutes 60)
       (minutes 600) someWorkload
     = Ok (Some (mkPolicy "no-op" "1" 100 10)).
Proof. repeat split; vm_compute; reflexivity. Qed.

(** * Further properties *)

(** ** The simulator and the search *)

Lemma simulateStep_timestamp (c : CpuUtilizationBasedRecommender) (acl : Duration)
    (target : Z) (perPodResources : float) (maxReplicas minReplicas : Z)
    (st : SimState) (dp : DataPoint) :
  Timestamp (snd (simulateStep c acl target perPodResources maxReplicas minReplicas st dp))
  = Timestamp dp.
Proof.
  unfold simulateStep.
  destruct (consumeTimers _ _ _) as [ready timers].
  destruct (ready <? _)%float; [destruct (0 <? _)%float|]; reflexivity.
Qed.

Lemma simulateLoop_timestamps (c : CpuUtilizationBasedRecommender) (acl : Duration)
    (target : Z) (perPodResources : float) (maxReplicas minReplicas : Z)
    (dataPoints : list DataPoint) :
  forall st : SimState,
    map Timestamp (fst (simulateLoop c acl target perPodResources maxReplicas minReplicas
                          st dataPoints))
    = map Timestamp dataPoints.
Proof.
  induction dataPoints as [|dp rest IH]; intros st; cbn [simulateLoop].
  - reflexivity.
  - pose proof (simulateStep_timestamp c acl target perPodResources maxReplicas
                  minReplicas st dp) as Hstep.
    destruct (simulateStep _ _ _ _ _ _ _ _) as [st' out].
    specialize (IH st'). destruct (simulateLoop _ _ _ _ _ _ _ _) as [outs final].
    cbn [fst snd map] in *. now rewrite Hstep, IH.
Qed.

(** X1: a successful [simulateHPA] returns one supply point per data point,
    with the timestamps of the data points in their order. *)
Theorem simulateHPA_keeps_timestamps :
  forall (c : CpuUtilizationBasedRecommender) (dataPoints : list DataPoint)
         (acl : Duration) (target : Z) (perPodResources : float)
         (maxReplicas minReplicas : Z) (simulated : list DataPoint) (calculatedMin : Z),
    simulateHPA c dataPoints acl target perPodResources maxReplicas minReplicas
    = Ok (simulated, calculatedMin) ->
    map Timestamp simulated = map Timestamp dataPoints.
Proof.
  intros c dataPoints acl target pp maxR minR simulated calculatedMin.
  unfold simulateHPA. destruct dataPoints as [|dp0 rest].
  - intros H. injection H as <- _. reflexivity.
  - destruct (_ || _); [discriminate|].
    pose proof (simulateLoop_timestamps c acl (inflateTarget target) pp maxR minR rest)
      as Hloop.
    match goal with
    | |- context [simulateLoop c ?a ?t ?p ?mx ?mn ?st rest] =>
        specialize (Hloop st);
        destruct (simulateLoop c a t p mx mn st rest) as [outs final]
    end.
    intros H. injection H as <- _. cbn [map fst Timestamp] in *. now rewrite Hloop.
Qed.

Lemma simulateHPA_keeps_timestamps_witness :
  map Timestamp [mkDataPoint 0 2%float] = map Timestamp singlePoint.
Proof.
  apply (simulateHPA_keeps_timestamps (simulatorOnly 0.5) singlePoint 0 60 1%float 5 3
           [mkDataPoint 0 2%float] 4).
  vm_compute. reflexivity.
Defined.

(** The observed minimum after the loop is a fold over the data points that
    reads neither the clamp bounds, nor the lag, nor the red line. *)
Lemma simulateLoop_calculatedMin (c : CpuUtilizationBasedRecommender) (acl : Duration)
    (target : Z) (perPodResources : float) (maxReplicas minReplicas : Z)
    (dataPoints : list DataPoint) :
  forall st : SimState,
    calculatedMinReplicas
      (snd (simulateLoop c acl target perPodResources maxReplicas minReplicas
              st dataPoints))
    = fold_left
        (fun least dp =>
           GoFloat.Min least (demandedReplicas (Value dp) target perPodResources))
        dataPoints (calculatedMinReplicas st).
Proof.
  induction dataPoints as [|dp rest IH]; intros st; cbn [simulateLoop fold_left].
  - reflexivity.
  - assert (Hstep : calculatedMinReplicas
                      (fst (simulateStep c acl target perPodResources maxReplicas
                              minReplicas st dp))
                    = GoFloat.Min (calculatedMinReplicas st)
                        (demandedReplicas (Value dp) target perPodResources)).
    { unfold simulateStep. destruct (consumeTimers _ _ _) as [ready timers].
      destruct (ready <? _)%float; [destruct (0 <? _)%float|]; reflexivity. }
    destruct (simulateStep _ _ _ _ _ _ _ _) as [st' out].
    specialize (IH st'). destruct (simulateLoop _ _ _ _ _ _ _ _) as [outs final].
    cbn [fst snd] in *. now rewrite IH, Hstep.
Qed.

(** X2: the observed minimum that [simulateHPA] returns depends on the data
    points, the target and the resources per pod only: two successful
    simulations that differ in the recommender (red line), the lag and the
    clamp bounds return the same observed minimum. *)
Theorem simulateHPA_observedMin_ignores_clamp :
  forall (c c' : CpuUtilizationBasedRecommender) (dataPoints : list DataPoint)
         (acl acl' : Duration) (target : Z) (perPodResources : float)
         (maxReplicas minReplicas maxReplicas' minReplicas' : Z)
         (simulated simulated' : list DataPoint) (calculatedMin calculatedMin' : Z),
    simulateHPA c dataPoints acl target perPodResources maxReplicas minReplicas
    = Ok (simulated, calculatedMin) ->
    simulateHPA c' dataPoints acl' target perPodResources maxReplicas' minReplicas'
    = Ok (simulated', calculatedMin') ->
    calculatedMin = calculatedMin'.
Proof.
  intros c c' dataPoints acl acl' target pp maxR minR maxR' minR'
    simulated simulated' calculatedMin calculatedMin'.
  unfold simulateHPA. destruct dataPoints as [|dp0 rest].
  - intros H H'. injection H as _ <-. injection H' as _ <-. reflexivity.
  - destruct (_ || _); [discriminate|].
    pose proof (simulateLoop_calculatedMin c acl (inflateTarget target) pp maxR minR rest)
      as Hloop.
    pose proof (simulateLoop_calculatedMin c' acl' (inflateTarget target) pp maxR' minR' rest)
      as Hloop'.
    match goal with
    | |- context [simulateLoop c ?a ?t ?p ?mx ?mn ?st rest] =>
        specialize (Hloop st);
        destruct (simulateLoop c a t p mx mn st rest) as [outs final]
    end.
    match goal with
    | |- context [simulateLoop c' ?a ?t ?p ?mx ?mn ?st rest] =>
        specialize (Hloop' st);
        destruct (simulateLoop c' a t p mx mn st rest) as [outs' final']
    end.
    intros H H'. injection H as _ <-. injection H' as _ <-.
    cbn [snd calculatedMinReplicas] in *. now rewrite Hloop, Hloop'.
Qed.

Lemma simulateHPA_observedMin_ignores_clamp_witness : 4 = 4.
Proof.
  apply (simulateHPA_observedMin_ignores_clamp (simulatorOnly 0.5) (simulatorOnly 1)
           singlePoint 0 (minutes 2) 60 1%float 5 3 10 1
           [mkDataPoint 0 2%float] [mkDataPoint 0 4%float] 4 4);
    vm_compute; reflexivity.
Defined.

(** X3: [hasNoBreachOccurred] reads [simulated] at the positions of
    [original] only.  It answers true exactly when [simulated] is at least
    as long as [original] and no data point exceeds the supply at its
    position; it panics exactly when [simulated] runs out before a breach is
    found. *)
Theorem hasNoBreachOccurred_spec :
  forall original simulated : list DataPoint,
    (hasNoBreachOccurred original simulated = Ok true
     <-> (List.length original <= List.length simulated)%nat
         /\ Forall2 (fun o s => (Value s <? Value o)%float = false)
              original (firstn (List.length original) simulated))
    /\ (hasNoBreachOccurred original simulated = Abort IndexOutOfRange
        <-> (List.length simulated < List.length original)%nat
            /\ Forall2 (fun o s => (Value s <? Value o)%float = false)
                 (firstn (List.length simulated) original) simulated).
Proof.
  induction original as [|o original IH]; intros [|s simulated];
    cbn [hasNoBreachOccurred List.length firstn].
  1-3: split; split; intros H;
       first [ discriminate H
             | reflexivity
             | split; [lia|constructor]
             | destruct H as [H _]; lia ].
  destruct (IH simulated) as [Htrue Hpanic].
  destruct (Value s <? Value o)%float eqn:Hbreach.
  - split; split; intros H; try discriminate H;
      destruct H as [_ H]; inversion H; subst; congruence.
  - split; split; intros H.
    + apply Htrue in H. destruct H as [Hlen Hall].
      split; [lia|now constructor].
    + apply Htrue. destruct H as [Hlen Hall].
      inversion Hall; subst. split; [lia|assumption].
    + apply Hpanic in H. destruct H as [Hlen Hall].
      split; [lia|now constructor].
    + apply Hpanic. destruct H as [Hlen Hall].
      inversion Hall; subst. split; [lia|assumption].
Qed.

(** [<] on [float64] is irreflexive, NaN included. *)
Lemma float_ltb_irrefl (x : float) : (x <? x)%float = false.
Proof.
  rewrite ltb_spec. unfold SFltb, SFcompare.
  destruct (Prim2SF x) as [s|s| |s m e]; try reflexivity.
  - destruct s; reflexivity.
  - destruct s; rewrite Z.compare_refl, Pos.compare_cont_refl; reflexivity.
Qed.

(** X4: a supply equal to the demand is not a breach: every series supplies
    itself, whatever its values. *)
Theorem hasNoBreachOccurred_equal_supply :
  forall dataPoints : list DataPoint,
    hasNoBreachOccurred dataPoints dataPoints = Ok true.
Proof.
  induction dataPoints as [|dp rest IH]; cbn [hasNoBreachOccurred].
  - reflexivity.
  - now rewrite float_ltb_irrefl.
Qed.

Lemma hasNoBreachOccurred_never_errs (original simulated : list DataPoint) (e : error) :
  hasNoBreachOccurred original simulated <> Err e.
Proof.
  revert simulated. induction original as [|o original IH]; intros [|s simulated];
    cbn [hasNoBreachOccurred]; try discriminate.
  destruct (Value s <? Value o)%float; [discriminate|apply IH].
Qed.

Lemma simulateHPA_error (c : CpuUtilizationBasedRecommender)
    (dataPoints : list DataPoint) (acl : Duration) (target : Z)
    (perPodResources : float) (maxReplicas minReplicas : Z) (e : error) :
  simulateHPA c dataPoints acl target perPodResources maxReplicas minReplicas = Err e ->
  dataPoints <> []
  /\ exists inflated, e = ErrInvalidTarget inflated /\ (inflated < 1 \/ 100 < inflated).
Proof.
  unfold simulateHPA. destruct dataPoints as [|dp0 rest]; [discriminate|].
  destruct (inflateTarget target <? 1) eqn:Hlo;
    [|destruct (100 <? inflateTarget target) eqn:Hhi]; cbn [orb].
  - intros H. injection H as <-. split; [discriminate|].
    eexists. split; [reflexivity|]. left. now apply Z.ltb_lt.
  - intros H. injection H as <-. split; [discriminate|].
    eexists. split; [reflexivity|]. right. now apply Z.ltb_lt.
  - destruct (simulateLoop _ _ _ _ _ _ _ _). discriminate.
Qed.

Lemma searchTarget_error (c : CpuUtilizationBasedRecommender)
    (dataPoints : list DataPoint) (acl : Duration) (perPodResources : float)
    (maxReplicas minReplicas : Z) (fuel : nat) :
  forall (low high : Z) (simulated : list DataPoint) (calculatedMin : Z) (e : error),
    searchTarget c dataPoints acl perPodResources maxReplicas minReplicas
      fuel low high simulated calculatedMin = Err e ->
    dataPoints <> []
    /\ exists inflated, e = ErrInvalidTarget inflated /\ (inflated < 1 \/ 100 < inflated).
Proof.
  induction fuel as [|fuel IH]; intros low high simulated calculatedMin e;
    cbn [searchTarget]; destruct (low <=? high); try discriminate.
  destruct (simulateHPA _ _ _ _ _ _ _) as [[sim cmin]|e'|r] eqn:Hsim; cbn [bind];
    try discriminate.
  - destruct (hasNoBreachOccurred dataPoints sim) as [[|]|e'|r] eqn:Hbreach;
      cbn [bind]; try discriminate; try apply IH.
    intros _. exfalso. exact (hasNoBreachOccurred_never_errs _ _ _ Hbreach).
  - intros H. injection H as <-. eapply simulateHPA_error. eassumption.
Qed.

(** X5: the only errors of [findOptimalHPAConfigurations] are
    [unableToRecommendError] and the invalid-target error of a probe, which
    needs a non-empty series and an inflated target outside [1, 100]. *)
Theorem findOptimalHPAConfigurations_errors :
  forall (c : CpuUtilizationBasedRecommender) (dataPoints : list DataPoint)
         (acl : Duration) (minTarget maxTarget : Z) (perPodResources : float)
         (maxReplicas : Z) (e : error),
    findOptimalHPAConfigurations c dataPoints acl minTarget maxTarget perPodResources
      maxReplicas = Err e ->
    e = unableToRecommendError
    \/ (dataPoints <> []
        /\ exists inflated,
             e = ErrInvalidTarget inflated /\ (inflated < 1 \/ 100 < inflated)).
Proof.
  intros c dataPoints acl minTarget maxTarget pp maxReplicas e.
  assert (Hsweep : forall (fuel : nat) (minReplicas : Z) (best : Best),
             sweepMinReplicas c dataPoints acl minTarget maxTarget pp maxReplicas
               fuel minReplicas best = Err e ->
             dataPoints <> []
             /\ exists inflated,
                  e = ErrInvalidTarget inflated /\ (inflated < 1 \/ 100 < inflated)).
  { induction fuel as [|fuel IH]; intros minReplicas best;
      cbn [sweepMinReplicas]; destruct (minReplicas <=? maxReplicas); try discriminate.
    destruct (searchTarget _ _ _ _ _ _ _ _ _ _ _)
      as [[[high simulated] calculatedMin]|e'|r] eqn:Hsearch; cbn [bind];
      try discriminate.
    - apply IH.
    - intros H. injection H as <-. eapply searchTarget_error. eassumption. }
  unfold findOptimalHPAConfigurations.
  destruct (sweepMinReplicas _ _ _ _ _ _ _ _ _ _) as [best|e'|r] eqn:Hrun;
    cbn [bind]; try discriminate.
  - destruct (_ || _); [|discriminate]. intros H. injection H as <-. now left.
  - intros H. injection H as <-. right. eapply Hsweep. eassumption.
Qed.

Lemma findOptimalHPAConfigurations_errors_witness :
  ErrInvalidTarget 101 = unableToRecommendError
  \/ (singlePoint <> []
      /\ exists inflated,
           ErrInvalidTarget 101 = ErrInvalidTarget inflated
           /\ (inflated < 1 \/ 100 < inflated)).
Proof.
  apply (findOptimalHPAConfigurations_errors (simulatorOnly 0.5) singlePoint 0
           92 92 1%float 5).
  vm_compute. reflexivity.
Defined.

(** X9: termination of the search.  With [0 <= minTarget] and [maxTarget]
    and [maxReplicas] below the largest [int],
    [findOptimalHPAConfigurations] returns a configuration or an error: no
    probe reads [simulatedHPAList] out of range, no addition wraps around,
    and the binary search ends within its 64 iterations. *)
Theorem findOptimalHPAConfigurations_terminates :
  forall (c : CpuUtilizationBasedRecommender) (dataPoints : list DataPoint)
         (acl : Duration) (minTarget maxTarget : Z) (perPodResources : float)
         (maxReplicas : Z),
    0 <= minTarget -> maxTarget < GoInt.max_int -> maxReplicas < GoInt.max_int ->
    (exists best,
        findOptimalHPAConfigurations c dataPoints acl minTarget maxTarget
          perPodResources maxReplicas = Ok best)
    \/ (exists e,
          findOptimalHPAConfigurations c dataPoints acl minTarget maxTarget
            perPodResources maxReplicas = Err e).
Proof.
  intros c dataPoints acl minTarget maxTarget perPodResources maxReplicas
    HminT HmaxT HmaxR.
  pose proof (findOptimalHPAConfigurations_returns c dataPoints acl minTarget
                maxTarget perPodResources maxReplicas HminT HmaxT HmaxR) as Hreturns.
  destruct (findOptimalHPAConfigurations c dataPoints acl minTarget maxTarget
              perPodResources maxReplicas) as [best|e|r].
  - left. exists best. reflexivity.
  - right. exists e. reflexivity.
  - now contradiction (Hreturns r).
Qed.

Lemma findOptimalHPAConfigurations_terminates_witness :
  (exists best,
      findOptimalHPAConfigurations (simulatorOnly 0.5) singlePoint 0 60 61 1 5
      = Ok best)
  \/ (exists e,
        findOptimalHPAConfigurations (simulatorOnly 0.5) singlePoint 0 60 61 1 5
        = Err e).
Proof.
  apply (findOptimalHPAConfigurations_terminates (simulatorOnly 0.5) singlePoint 0
           60 61 1%float 5); vm_compute; (discriminate || reflexivity).
Defined.

(** The binary search ends one below its lower bound, or on a target whose
    probe did not breach. *)
Lemma searchTarget_result_probed (c : CpuUtilizationBasedRecommender)
    (dataPoints : list DataPoint) (acl : Duration) (perPodResources : float)
    (maxReplicas minReplicas : Z) (fuel : nat) :
  forall (low high : Z) (simulated : list DataPoint) (calculatedMin : Z)
         (high' : Z) (simulated' : list DataPoint) (calculatedMin' : Z),
    0 <= low -> high < GoInt.max_int -> low <= high + 1 ->
    searchTarget c dataPoints acl perPodResources maxReplicas minReplicas
      fuel low high simulated calculatedMin = Ok (high', simulated', calculatedMin') ->
    low - 1 <= high'
    /\ (high' = low - 1
        \/ breachFree c dataPoints acl perPodResources maxReplicas minReplicas high').
Proof.
  induction fuel as [|fuel IH]; intros low high simulated calculatedMin
    high' simulated' calculatedMin' Hlow Hhigh Hordered; cbn [searchTarget];
    destruct (low <=? high) eqn:Hguard;
    try (apply Z.leb_gt in Hguard; intros H; injection H as <- _ _;
         split; [lia|left; lia]);
    try discriminate.
  apply Z.leb_le in Hguard.
  destruct (searchTarget_midpoint low high ltac:(lia) Hhigh) as (Hmid & Hup & Hdown).
  assert (Hhalf : 0 <= (high - low) / 2 <= high - low).
  { split; [apply Z.div_pos; lia|apply Z.div_le_upper_bound; lia]. }
  rewrite Hup, Hdown.
  destruct (simulateHPA _ _ _ _ _ _ _) as [[sim cmin]|e|r] eqn:Hsim; cbn [bind];
    try discriminate.
  destruct (hasNoBreachOccurred _ _) as [[|]|e|r] eqn:Hbreach; cbn [bind];
    try discriminate; intros Hrun; apply IH in Hrun; try lia.
  - destruct Hrun as [Hle [Heq|Hfree]]; split; try lia; right; [|assumption].
    replace high' with (GoInt.add low (GoInt.quot (GoInt.sub high low) 2)) by lia.
    exists sim, cmin. auto.
  - destruct Hrun as [Hle Hcases]. split; [lia|exact Hcases].
Qed.

Lemma recordCandidate_sound (c : CpuUtilizationBasedRecommender)
    (dataPoints : list DataPoint) (acl : Duration) (minTarget maxTarget : Z)
    (perPodResources : float) (maxReplicas minReplicas : Z)
    (best : Best) (high : Z) (simulated : list DataPoint) (calculatedMin : Z) :
  1 <= minReplicas <= maxReplicas -> high <= maxTarget ->
  (minTarget <= high ->
   breachFree c dataPoints acl perPodResources maxReplicas minReplicas high) ->
  bestIsSound c dataPoints acl minTarget maxTarget perPodResources maxReplicas best ->
  bestIsSound c dataPoints acl minTarget maxTarget perPodResources maxReplicas
    (recordCandidate c minTarget perPodResources maxReplicas minReplicas best
       high simulated calculatedMin).
Proof.
  intros Hmin Hhigh Hfree Hbest. unfold recordCandidate.
  destruct (minTarget <=? high) eqn:Htarget; cbn [andb]; [|assumption].
  destruct (calculatedMin <=? minReplicas); [|assumption].
  destruct (0 <? Z.of_nat (List.length simulated)); [|assumption].
  destruct (savings best <=? _)%float; [|assumption].
  right. cbn [optimalMin optimalTargetThreshold]. apply Z.leb_le in Htarget.
  split; [lia|]. split; [lia|auto].
Qed.

Lemma sweepMinReplicas_sound (c : CpuUtilizationBasedRecommender)
    (dataPoints : list DataPoint) (acl : Duration) (minTarget maxTarget : Z)
    (perPodResources : float) (maxReplicas : Z) (fuel : nat) :
  0 <= minTarget -> maxTarget < GoInt.max_int -> maxReplicas <= GoInt.max_int ->
  forall (minReplicas : Z) (best result : Best),
    1 <= minReplicas ->
    (minReplicas <= maxReplicas -> Z.of_nat fuel + minReplicas <= maxReplicas + 1) ->
    bestIsSound c dataPoints acl minTarget maxTarget perPodResources maxReplicas best ->
    sweepMinReplicas c dataPoints acl minTarget maxTarget perPodResources maxReplicas
      fuel minReplicas best = Ok result ->
    bestIsSound c dataPoints acl minTarget maxTarget perPodResources maxReplicas result.
Proof.
  intros HminT HmaxT HmaxR.
  assert (Hmax : GoInt.max_int = 9223372036854775807) by reflexivity.
  assert (Hmin : GoInt.min_int = -9223372036854775808) by reflexivity.
  induction fuel as [|fuel IH]; intros minReplicas best result Hone Hfuel Hbest;
    cbn [sweepMinReplicas]; destruct (minReplicas <=? maxReplicas) eqn:Hguard;
    try (intros H; injection H as <-; assumption); try discriminate.
  apply Z.leb_le in Hguard.
  destruct (searchTarget _ _ _ _ _ _ _ _ _ _ _) as [[[high simulated] calculatedMin]|e|r]
    eqn:Hsearch; cbn [bind]; try discriminate.
  assert (Hhigh : high <= maxTarget)
    by (eapply searchTarget_high_bound; [| |exact Hsearch]; lia).
  assert (Hfree : minTarget <= high ->
                  breachFree c dataPoints acl perPodResources maxReplicas
                    minReplicas high).
  { intros Hle.
    destruct (searchTarget_result_probed _ _ _ _ _ _ _ _ _ _ _ _ _ _
                HminT HmaxT ltac:(lia) Hsearch) as [_ [Heq|Hfree]];
      [lia|exact Hfree]. }
  assert (Hrec := recordCandidate_sound c dataPoints acl minTarget maxTarget
                    perPodResources maxReplicas minReplicas best high simulated
                    calculatedMin ltac:(lia) Hhigh Hfree Hbest).
  destruct (Z.eq_dec minReplicas GoInt.max_int) as [Hlast|Hnot].
  - assert (fuel = O) by lia. subst fuel.
    replace (GoInt.add minReplicas 1) with GoInt.min_int
      by (subst minReplicas; reflexivity).
    cbn [sweepMinReplicas].
    replace (GoInt.min_int <=? maxReplicas) with true
      by (symmetry; apply Z.leb_le; lia).
    discriminate.
  - unfold GoInt.add. rewrite GoInt_wrap_small by lia.
    apply IH; [lia|lia|assumption].
Qed.

(** X6: recommendation dominance.  With target bounds
    [0 <= minTarget], [maxTarget] below the largest [int], a configuration
    that [findOptimalHPAConfigurations] returns keeps [maxReplicas], has its
    floor between 1 and [maxReplicas] and its target between [minTarget] and
    [maxTarget], and the simulation of exactly that target and floor
    succeeds and supplies every data point. *)
Theorem findOptimalHPAConfigurations_sound :
  forall (c : CpuUtilizationBasedRecommender) (dataPoints : list DataPoint)
         (acl : Duration) (minTarget maxTarget : Z) (perPodResources : float)
         (maxReplicas : Z) (target minReplicas maxReplicas' : Z),
    0 <= minTarget -> maxTarget < GoInt.max_int -> maxReplicas <= GoInt.max_int ->
    findOptimalHPAConfigurations c dataPoints acl minTarget maxTarget perPodResources
      maxReplicas = Ok (target, minReplicas, maxReplicas') ->
    maxReplicas' = maxReplicas
    /\ 1 <= minReplicas <= maxReplicas
    /\ minTarget <= target <= maxTarget
    /\ breachFree c dataPoints acl perPodResources maxReplicas minReplicas target.
Proof.
  intros c dataPoints acl minTarget maxTarget pp maxReplicas target minReplicas
    maxReplicas' HminT HmaxT HmaxR. unfold findOptimalHPAConfigurations.
  destruct (sweepMinReplicas _ _ _ _ _ _ _ _ _ _) as [best|e|r] eqn:Hsweep;
    cbn [bind]; try discriminate.
  apply sweepMinReplicas_sound in Hsweep; try assumption; try lia.
  - destruct Hsweep as [->|(Hfloor & Htarget & Hfree)].
    + cbn [savings optimalTargetThreshold]. rewrite orb_true_r. discriminate.
    + destruct (_ || _); [discriminate|].
      intros H. injection H as <- <- <-. auto.
  - now left.
Qed.

Lemma findOptimalHPAConfigurations_sound_witness :
  breachFree (simulatorOnly 0.5) singlePoint 0 1%float 5 3 60.
Proof.
  apply (findOptimalHPAConfigurations_sound (simulatorOnly 0.5) singlePoint 0 60 61
           1%float 5 60 3 5); vm_compute; (discriminate || reflexivity).
Defined.

Lemma searchTarget_empty_series (c : CpuUtilizationBasedRecommender) (acl : Duration)
    (perPodResources : float) (maxReplicas minReplicas : Z) (fuel : nat) :
  forall low high : Z,
    0 <= low -> high < GoInt.max_int -> high + 1 - low < 2 ^ Z.of_nat fuel ->
    searchTarget c [] acl perPodResources maxReplicas minReplicas fuel low high [] 0
    = Ok (high, [], 0).
Proof.
  induction fuel as [|fuel IH]; intros low high Hlow Hhigh Hsize;
    cbn [searchTarget]; destruct (low <=? high) eqn:Hguard; try reflexivity.
  - apply Z.leb_le in Hguard. cbn in Hsize. lia.
  - apply Z.leb_le in Hguard.
    rewrite Nat2Z.inj_succ, Z.pow_succ_r in Hsize by lia.
    destruct (searchTarget_midpoint low high ltac:(lia) Hhigh) as (Hmid & Hup & Hdown).
    pose proof (Z.div_mod (high - low) 2 ltac:(lia)) as Hdiv.
    pose proof (Z.mod_pos_bound (high - low) 2 ltac:(lia)) as Hmod.
    unfold simulateHPA. cbn [bind hasNoBreachOccurred]. rewrite Hup.
    apply IH; lia.
Qed.

(** X7: without data there is nothing to recommend.  With target bounds as
    above and fewer than the largest [int] replicas,
    [findOptimalHPAConfigurations] fails on the empty series with
    [unableToRecommendError]: no probe fails (the empty-series return of
    the simulator precedes its target check) and no candidate is
    recorded. *)
Theorem findOptimalHPAConfigurations_empty_series :
  forall (c : CpuUtilizationBasedRecommender) (acl : Duration)
         (minTarget maxTarget : Z) (perPodResources : float) (maxReplicas : Z),
    0 <= minTarget -> maxTarget < GoInt.max_int -> maxReplicas < GoInt.max_int ->
    findOptimalHPAConfigurations c [] acl minTarget maxTarget perPodResources maxReplicas
    = Err unableToRecommendError.
Proof.
  intros c acl minTarget maxTarget pp maxReplicas HminT HmaxT HmaxR.
  assert (Hmax : GoInt.max_int = 9223372036854775807) by reflexivity.
  assert (Hmin : GoInt.min_int = -9223372036854775808) by reflexivity.
  assert (Hsweep : forall (fuel : nat) (minReplicas : Z),
             1 <= minReplicas -> maxReplicas + 1 <= Z.of_nat fuel + minReplicas ->
             sweepMinReplicas c [] acl minTarget maxTarget pp maxReplicas
               fuel minReplicas (mkBest 0 0 0%float) = Ok (mkBest 0 0 0%float)).
  { induction fuel as [|fuel IH]; intros minReplicas Hone Hfuel;
      cbn [sweepMinReplicas]; destruct (minReplicas <=? maxReplicas) eqn:Hguard;
      try reflexivity.
    - apply Z.leb_le in Hguard. lia.
    - apply Z.leb_le in Hguard.
      rewrite searchTarget_empty_series; try lia.
      + cbn [bind]. unfold GoInt.add. rewrite GoInt_wrap_small by lia.
        replace (recordCandidate _ _ _ _ _ _ _ _ _) with (mkBest 0 0 0%float).
        * apply IH; lia.
        * unfold recordCandidate. cbn [List.length Z.of_nat Z.ltb Z.compare].
          destruct (_ && _); reflexivity.
      + unfold searchFuel. change (2 ^ Z.of_nat 64) with 18446744073709551616. lia. }
  unfold findOptimalHPAConfigurations. rewrite Hsweep by lia.
  cbn [bind savings optimalTargetThreshold]. now rewrite orb_true_r.
Qed.

Lemma findOptimalHPAConfigurations_empty_series_witness :
  findOptimalHPAConfigurations (simulatorOnly 0.5) [] 0 10 60 1 5
  = Err unableToRecommendError.
Proof.
  apply (findOptimalHPAConfigurations_empty_series (simulatorOnly 0.5) 0 10 60 1%float 5);
    vm_compute; (discriminate || reflexivity).
Defined.

(** With fewer than one replica the sweep over the floors has no turn. *)
Lemma sweepMinReplicas_no_floor (c : CpuUtilizationBasedRecommender)
    (dataPoints : list DataPoint) (acl : Duration) (minTarget maxTarget : Z)
    (perPodResources : float) (maxReplicas : Z) (fuel : nat) (best : Best) :
  maxReplicas < 1 ->
  sweepMinReplicas c dataPoints acl minTarget maxTarget perPodResources maxReplicas
    fuel 1 best = Ok best.
Proof.
  intros Hnone. destruct fuel; cbn [sweepMinReplicas];
    (replace (1 <=? maxReplicas) with false by (symmetry; apply Z.leb_gt; lia));
    reflexivity.
Qed.

(** X8: a workload whose maximum of replicas is below 1 gets no
    recommendation: the sweep has no candidate floor, no probe runs (so no
    target is validated) and [findOptimalHPAConfigurations] fails with
    [unableToRecommendError], whatever the series and the target bounds. *)
Theorem findOptimalHPAConfigurations_no_replicas :
  forall (c : CpuUtilizationBasedRecommender) (dataPoints : list DataPoint)
         (acl : Duration) (minTarget maxTarget : Z) (perPodResources : float)
         (maxReplicas : Z),
    maxReplicas < 1 ->
    findOptimalHPAConfigurations c dataPoints acl minTarget maxTarget perPodResources
      maxReplicas = Err unableToRecommendError.
Proof.
  intros c dataPoints acl minTarget maxTarget pp maxReplicas Hnone.
  unfold findOptimalHPAConfigurations.
  rewrite sweepMinReplicas_no_floor by exact Hnone.
  cbn [bind savings optimalTargetThreshold]. now rewrite orb_true_r.
Qed.

Lemma findOptimalHPAConfigurations_no_replicas_witness :
  findOptimalHPAConfigurations (simulatorOnly 0.5) singlePoint 0 200 300 1 0
  = Err unableToRecommendError.
Proof.
  apply (findOptimalHPAConfigurations_no_replicas (simulatorOnly 0.5) singlePoint 0
           200 300 1%float 0). reflexivity.
Defined.

(** ** The recommender, further *)

(** X10: the precedence of [getMaxPods] for a known object kind.  The
    max-pods annotation wins whatever the cluster holds; without it a
    listing error other than not-found is returned wrapped; otherwise only
    the first scaled object is read, and when it is absent or has no
    maximum the answer is the one of [GetReplicaCount]. *)
Theorem getMaxPods_precedence :
  forall (c : CpuUtilizationBasedRecommender) (namespace objectKind objectName : string)
         (deploymentClient : ObjectClient),
    GetObjectClient (clientsRegistry c) objectKind = Ok deploymentClient ->
    (forall n,
        GetMaxReplicaFromAnnotation deploymentClient namespace objectName = Ok n ->
        getMaxPods c namespace objectKind objectName = Ok n)
    /\ (forall e items e',
           GetMaxReplicaFromAnnotation deploymentClient namespace objectName = Err e ->
           ListScaledObjects (k8sClient c) namespace objectName = (items, Some e') ->
           IgnoreNotFound_non_nil e' = true ->
           getMaxPods c namespace objectKind objectName = Err (ErrFetchScaledObjects e'))
    /\ (forall e items err,
           GetMaxReplicaFromAnnotation deploymentClient namespace objectName = Err e ->
           ListScaledObjects (k8sClient c) namespace objectName = (items, err) ->
           (forall e', err = Some e' -> IgnoreNotFound_non_nil e' = false) ->
           (forall n rest,
               items = mkScaledObject (Some n) :: rest ->
               getMaxPods c namespace objectKind objectName = Ok n)
           /\ (items = [] \/ (exists rest, items = mkScaledObject None :: rest) ->
               getMaxPods c namespace objectKind objectName
               = GetReplicaCount deploymentClient namespace objectName)).
Proof.
  intros c namespace objectKind objectName client Hclient.
  unfold getMaxPods. rewrite Hclient. split; [|split].
  - intros n ->. reflexivity.
  - intros e items e' -> -> ->. reflexivity.
  - intros e items err -> -> Hignored. cbv zeta.
    destruct err as [e'|]; [rewrite (Hignored e' eq_refl)|];
      (split; [intros n rest ->; reflexivity|intros [->|[rest ->]]; reflexivity]).
Qed.

Lemma getMaxPods_precedence_witness :
  getMaxPods (withoutData 5) "shop" "Deployment" "checkout" = Ok 5.
Proof.
  destruct (getMaxPods_precedence (withoutData 5) "shop" "Deployment" "checkout"
              (plainClient 1 5) eq_refl) as (_ & _ & H).
  destruct (H (External "no max-pods annotation" false) [] None eq_refl eq_refl)
    as [_ Hcount].
  - intros e' He'. discriminate He'.
  - rewrite Hcount; [reflexivity|now left].
Defined.

Lemma findOptimalHPAConfigurations_keeps_max (c : CpuUtilizationBasedRecommender)
    (dataPoints : list DataPoint) (acl : Duration) (minTarget maxTarget : Z)
    (perPodResources : float) (maxReplicas target minReplicas maxReplicas' : Z) :
  findOptimalHPAConfigurations c dataPoints acl minTarget maxTarget perPodResources
    maxReplicas = Ok (target, minReplicas, maxReplicas') ->
  maxReplicas' = maxReplicas.
Proof.
  unfold findOptimalHPAConfigurations.
  destruct (sweepMinReplicas _ _ _ _ _ _ _ _ _ _); cbn [bind]; try discriminate.
  destruct (_ || _); [discriminate|]. intros H. now injection H as _ _ <-.
Qed.

(** X11: [Recommend] never changes the cap: the max of every configuration
    it returns is the answer of [getMaxPods], on the no-op paths and on the
    path of the search alike. *)
Theorem Recommend_keeps_max :
  forall (c : CpuUtilizationBasedRecommender) (now : Time) (wm : WorkloadMeta)
         (cfg : HPAConfiguration),
    Recommend c now wm = Ok cfg ->
    getMaxPods c (Namespace wm) (Kind wm) (Name wm) = Ok (Max cfg).
Proof.
  intros c now wm cfg Hcfg. apply Recommend_ok_path in Hcfg.
  destruct Hcfg as [dataPoints wmr _ Hmax _
                   |dataPoints transformed wmr acl pp cfg _ Hmax _ _ _ _ Hfind].
  - exact Hmax.
  - destruct Hfind as [[_ ->]|(t & m & mx & Hfind & ->)]; [exact Hmax|].
    apply findOptimalHPAConfigurations_keeps_max in Hfind. subst mx. exact Hmax.
Qed.

Lemma Recommend_keeps_max_witness :
  getMaxPods (withoutData 5) "shop" "Deployment" "checkout" = Ok 5.
Proof.
  apply (Recommend_keeps_max (withoutData 5) (minutes 600) someWorkload
           (mkHPAConfiguration 5 5 10)).
  vm_compute. reflexivity.
Defined.

(** X12: a workload without replicas gets the no-op configuration.  When
    [getMaxPods] answers less than 1 and the collaborators succeed,
    [Recommend] returns min = max = that answer and target = [minTarget],
    whether the data gate passes or not. *)
Theorem Recommend_without_replicas :
  forall (c : CpuUtilizationBasedRecommender) (now : Time) (wm : WorkloadMeta)
         (dataPoints transformed : list DataPoint) (n : Z) (above : bool)
         (acl : Duration) (perPodResources : float),
    GetAverageCPUUtilizationByWorkload (scraper c) (Namespace wm) (Name wm)
      (now - metricWindow c) now (metricStep c) = Ok dataPoints ->
    getMaxPods c (Namespace wm) (Kind wm) (Name wm) = Ok n ->
    n < 1 ->
    isMetricsAboveThreshold c dataPoints = Ok above ->
    applyTransformers (metricsTransformer c) (now - metricWindow c) now dataPoints
    = Ok transformed ->
    GetACLByWorkload (scraper c) (Namespace wm) (Name wm) = Ok acl ->
    getContainerCPULimitsSum c (Namespace wm) (Kind wm) (Name wm) = Ok perPodResources ->
    Recommend c now wm = Ok (mkHPAConfiguration n n (minTarget c)).
Proof.
  intros c now wm dataPoints transformed n above acl pp
    Hscrape Hmax Hnone Habove Htransform Hacl Hlimits.
  unfold Recommend. rewrite Hscrape; cbn [bind]. rewrite Hmax; cbn [bind].
  rewrite Habove; cbn [bind]. destruct above; cbn [negb]; [|reflexivity].
  rewrite Htransform; cbn [bind]. rewrite Hacl; cbn [bind]. rewrite Hlimits; cbn [bind].
  unfold findOptimalHPAConfigurations.
  rewrite sweepMinReplicas_no_floor by exact Hnone.
  cbn [bind savings optimalTargetThreshold]. now rewrite orb_true_r.
Qed.

(** X13: transformers compose in order: running a list of transformers is
    running a first part and then, on its result and over the same window,
    the rest; an error of the first part ends the run. *)
Theorem applyTransformers_app :
  forall (first rest : list MetricsTransformer) (start end_ : Time)
         (dataPoints : list DataPoint),
    applyTransformers (first ++ rest) start end_ dataPoints
    = (transformed <- applyTransformers first start end_ dataPoints ;;
       applyTransformers rest start end_ transformed).
Proof.
  induction first as [|t first IH]; intros rest start end_ dataPoints;
    cbn [app applyTransformers bind].
  - reflexivity.
  - destruct (Transform t start end_ dataPoints); cbn [bind]; [apply IH| |]; reflexivity.
Qed.

Lemma Recommend_without_replicas_witness :
  Recommend (withoutData 0) (minutes 600) someWorkload = Ok (mkHPAConfiguration 0 0 10).
Proof.
  apply (Recommend_without_replicas (withoutData 0) (minutes 600) someWorkload
           [] [] 0 false 0 1%float); vm_compute; reflexivity.
Defined.

(** ** The workflow, further *)

(** X14: floor promotion.  [transformTargetRecoConfig] keeps max and target
    and never lowers min; afterwards min is at least [minRequiredReplicas]
    whenever max is, and min is unchanged when max is below it.  Applying it
    twice is applying it once, and nil stays nil. *)
Theorem transformTargetRecoConfig_floor_promotion :
  forall (cfg : HPAConfiguration) (minRequiredReplicas : Z),
    transformTargetRecoConfig None minRequiredReplicas = None
    /\ exists promoted,
         transformTargetRecoConfig (Some cfg) minRequiredReplicas = Some promoted
         /\ Max promoted = Max cfg
         /\ TargetMetricValue promoted = TargetMetricValue cfg
         /\ Min cfg <= Min promoted
         /\ (minRequiredReplicas <= Max cfg -> minRequiredReplicas <= Min promoted)
         /\ (Max cfg < minRequiredReplicas -> Min promoted = Min cfg)
         /\ (Min cfg <= Max cfg -> Min promoted <= Max promoted)
         /\ transformTargetRecoConfig (Some promoted) minRequiredReplicas = Some promoted.
Proof.
  intros cfg k. split; [reflexivity|].
  unfold transformTargetRecoConfig. eexists. split; [reflexivity|].
  cbn [Min Max TargetMetricValue].
  destruct (k <=? Max cfg) eqn:Hmax; destruct (Min cfg <? k) eqn:Hmin; cbn [andb];
    rewrite ?Hmax, ?Hmin, ?Z.ltb_irrefl, ?andb_false_r; cbn [andb];
    repeat split; try lia; destruct cfg; reflexivity.
Qed.

Lemma transformTargetRecoConfig_floor_promotion_witness :
  transformTargetRecoConfig (Some (mkHPAConfiguration 1 10 40)) 3
  = Some (mkHPAConfiguration 3 10 40).
Proof.
  destruct (transformTargetRecoConfig_floor_promotion (mkHPAConfiguration 1 10 40) 3)
    as (_ & promoted & Heq & _).
  rewrite Heq. vm_compute in Heq. injection Heq as <-. reflexivity.
Defined.

Lemma generateNextRecoConfig_shape (rw : RecommendationWorkflowImpl)
    (config : option HPAConfiguration) (policy : option Policy) (wm : WorkloadMeta)
    (nextConfig : option HPAConfiguration) (policyToApply : option Policy) :
  generateNextRecoConfig rw config policy wm = Ok (nextConfig, policyToApply) ->
  (shouldApplyReco config policy = true /\ nextConfig = config)
  \/ (shouldApplyReco config policy = false
      /\ policyToApply = policy
      /\ forall next, nextConfig = Some next ->
           exists cfg p,
             config = Some cfg /\ policy = Some p
             /\ Max next = Max cfg /\ TargetMetricValue next = TargetUtilization p).
Proof.
  unfold generateNextRecoConfig.
  destruct (shouldApplyReco config policy) eqn:Happly.
  - destruct (policyStore rw) as [store|]; [|discriminate].
    destruct (GetSortedPolicies store) as [policies|e|r]; try discriminate.
    + destruct (findClosestSafePolicy config policies); cbn [bind]; try discriminate.
      intros H. injection H as <- _. now left.
    + intros H. injection H as <- _. now left.
  - destruct policy as [p|]; [|discriminate Happly].
    destruct config as [cfg|]; cbn [createRecoConfigFromPolicy];
      intros H; injection H as <- <-; right; split; [reflexivity| |reflexivity|];
      (split; [reflexivity|]); intros next Hnext; [|discriminate Hnext].
    injection Hnext as <-. exists cfg, p. cbn [Max TargetMetricValue]. auto.
Qed.

(** X15: [Execute] never changes the cap.  The raw recommendation it
    returns is the recommender's configuration after floor promotion; the
    configuration to apply is that recommendation itself or, when a policy
    is credited instead, a configuration with the same max and the target
    of that policy. *)
Theorem Execute_keeps_max :
  forall (rw : RecommendationWorkflowImpl) (wm : WorkloadMeta)
         (nextConfig targetRecoConfig : option HPAConfiguration)
         (policyToApply : option Policy),
    Execute rw wm = Ok (nextConfig, targetRecoConfig, policyToApply) ->
    exists r recommended,
      recommender rw = Some r
      /\ RecommendFor r wm = Ok recommended
      /\ targetRecoConfig
         = transformTargetRecoConfig recommended (minRequiredReplicas rw)
      /\ (nextConfig = targetRecoConfig
          \/ forall next, nextConfig = Some next ->
               exists target p,
                 targetRecoConfig = Some target /\ policyToApply = Some p
                 /\ Max next = Max target
                 /\ TargetMetricValue next = TargetUtilization p).
Proof.
  intros rw wm nextConfig targetRecoConfig policyToApply. unfold Execute.
  destruct (recommender rw) as [r|]; [|discriminate].
  destruct (RecommendFor r wm) as [recommended|e|a] eqn:Hreco; cbn [bind];
    try discriminate.
  destruct (runPolicyIterators _ _ _) as [nextPolicy|e|a]; cbn [bind]; try discriminate.
  destruct (generateNextRecoConfig _ _ _ _) as [[next pol]|e|a] eqn:Hgen; cbn [bind];
    try discriminate.
  intros H. injection H as <- <- <-.
  exists r, recommended. split; [reflexivity|]. split; [exact Hreco|].
  split; [reflexivity|].
  apply generateNextRecoConfig_shape in Hgen.
  destruct Hgen as [[_ ->]|(_ & -> & Hderived)]; [now left|]. right.
  intros n Hn. destruct (Hderived n Hn) as (cfg & p & Hcfg & -> & Hmax & Htarget).
  exists cfg, p. auto.
Qed.

Lemma Execute_keeps_max_witness :
  exists r recommended,
    recommender workflowWithStoreDown = Some r
    /\ RecommendFor r someWorkload = Ok recommended
    /\ Some (mkHPAConfiguration 4 10 40)
       = transformTargetRecoConfig recommended (minRequiredReplicas workflowWithStoreDown)
    /\ (Some (mkHPAConfiguration 4 10 40) = Some (mkHPAConfiguration 4 10 40)
        \/ forall next, Some (mkHPAConfiguration 4 10 40) = Some next ->
             exists target p,
               Some (mkHPAConfiguration 4 10 40) = Some target /\ None = Some p
               /\ Max next = Max target
               /\ TargetMetricValue next = TargetUtilization p).
Proof.
  apply (Execute_keeps_max workflowWithStoreDown someWorkload). vm_compute. reflexivity.
Defined.

Lemma runPolicyIterators_no_opinion (iterators : list (string * PolicyIterator))
    (wm : WorkloadMeta) (start : option Policy) :
  Forall (fun it => NextPolicy (snd it) wm = Ok None) iterators ->
  runPolicyIterators iterators wm start = Ok start.
Proof.
  induction 1 as [|[name pi] iterators Hpi _ IH]; cbn [runPolicyIterators].
  - reflexivity.
  - cbn [snd] in Hpi. now rewrite Hpi.
Qed.

(** X16: without a policy the recommendation is applied.  When every policy
    iterator answers nil (or none is configured) and [Execute] succeeds, the
    configuration to apply is the raw recommendation, and the policy
    credited is nil or the closest safe policy of the store. *)
Theorem Execute_without_policy :
  forall (rw : RecommendationWorkflowImpl) (wm : WorkloadMeta)
         (nextConfig targetRecoConfig : option HPAConfiguration)
         (policyToApply : option Policy),
    Forall (fun it => NextPolicy (snd it) wm = Ok None) (policyIterators rw) ->
    Execute rw wm = Ok (nextConfig, targetRecoConfig, policyToApply) ->
    nextConfig = targetRecoConfig
    /\ (policyToApply = None
        \/ exists store policies p,
             policyStore rw = Some store
             /\ GetSortedPolicies store = Ok policies
             /\ findClosestSafePolicy targetRecoConfig policies = Ok p
             /\ policyToApply = Some p).
Proof.
  intros rw wm nextConfig targetRecoConfig policyToApply Hnone. unfold Execute.
  destruct (recommender rw) as [r|]; [|discriminate].
  destruct (RecommendFor r wm) as [recommended|e|a]; cbn [bind]; try discriminate.
  rewrite (runPolicyIterators_no_opinion _ _ _ Hnone). cbn [bind].
  unfold generateNextRecoConfig. cbn [shouldApplyReco].
  destruct (policyStore rw) as [store|]; [|discriminate].
  destruct (GetSortedPolicies store) as [policies|e|a] eqn:Hsorted; try discriminate.
  - destruct (findClosestSafePolicy _ policies) as [p|e|a] eqn:Hclosest; cbn [bind];
      try discriminate.
    intros H. injection H as <- <- <-. split; [reflexivity|].
    right. exists store, policies, p. auto.
  - cbn [bind]. intros H. injection H as <- <- <-. auto.
Qed.

Lemma Execute_without_policy_witness :
  Some (mkHPAConfiguration 4 10 40) = Some (mkHPAConfiguration 4 10 40)
  /\ (@None Policy = None
      \/ exists store policies p,
           policyStore workflowWithStoreDown = Some store
           /\ GetSortedPolicies store = Ok policies
           /\ findClosestSafePolicy (Some (mkHPAConfiguration 4 10 40)) policies = Ok p
           /\ None = Some p).
Proof.
  apply (Execute_without_policy workflowWithStoreDown someWorkload).
  - constructor.
  - vm_compute. reflexivity.
Defined.

Lemma scanClosestSafePolicy_nil_config (items : list PolicyCR) (closest : PolicyCR) :
  (exists pc, In pc items /\ SpecMinReplicaPercentageCut (Spec pc) = 100) ->
  scanClosestSafePolicy None items closest = Abort NilDereference.
Proof.
  intros (pc & Hin & Hcut). revert closest.
  induction items as [|item rest IH]; intros closest; [destruct Hin|].
  cbn [scanClosestSafePolicy].
  destruct (SpecMinReplicaPercentageCut (Spec item) =? 100) eqn:Hitem; [reflexivity|].
  destruct Hin as [->|Hin]; [|now apply IH].
  apply Z.eqb_neq in Hitem. contradiction.
Qed.

(** X17: a recommender that answers nil without an error.  If the merged
    policy is not nil, [Execute] returns a nil configuration to apply, a
    nil recommendation and that policy, and no error: the error of
    [createRecoConfigFromPolicy] is dropped.  If the merged policy is nil
    and the sorted policies of the store hold a policy with cut 100,
    [Execute] panics on the nil configuration in [findClosestSafePolicy]. *)
Theorem Execute_nil_recommendation :
  forall (rw : RecommendationWorkflowImpl) (r : Recommender) (wm : WorkloadMeta),
    recommender rw = Some r ->
    RecommendFor r wm = Ok None ->
    (forall p,
        runPolicyIterators (policyIterators rw) wm None = Ok (Some p) ->
        Execute rw wm = Ok (None, None, Some p))
    /\ (forall store items,
           runPolicyIterators (policyIterators rw) wm None = Ok None ->
           policyStore rw = Some store ->
           GetSortedPolicies store = Ok (Some items) ->
           (exists pc, In pc items /\ SpecMinReplicaPercentageCut (Spec pc) = 100) ->
           Execute rw wm = Abort NilDereference).
Proof.
  intros rw r wm Hrec Hnil. split.
  - intros p Hmerged. unfold Execute. rewrite Hrec, Hnil. cbn [bind].
    rewrite Hmerged. reflexivity.
  - intros store items Hmerged Hstore Hsorted Hnoop. unfold Execute.
    rewrite Hrec, Hnil. cbn [bind]. rewrite Hmerged. cbn [bind].
    unfold generateNextRecoConfig. cbn [transformTargetRecoConfig shouldApplyReco].
    rewrite Hstore, Hsorted. unfold findClosestSafePolicy.
    now rewrite scanClosestSafePolicy_nil_config.
Qed.

Lemma Execute_nil_recommendation_witness :
  Execute (mkWorkflow (Some (mkRecommenderIface (fun _ => Ok None))) []
             (Some singlePolicyStore) 3) someWorkload
  = Abort NilDereference.
Proof.
  apply (proj2 (Execute_nil_recommendation
                  (mkWorkflow (Some (mkRecommenderIface (fun _ => Ok None))) []
                     (Some singlePolicyStore) 3)
                  (mkRecommenderIface (fun _ => Ok None)) someWorkload
                  eq_refl eq_refl) singlePolicyStore [noOpPolicyCR]);
    try reflexivity.
  exists noOpPolicyCR. split; [now left|reflexivity].
Defined.

(** The merge of a list of outputs is the first of the safest ones. *)
Lemma fold_pickSafestPolicy_first_safest (outputs : list (option Policy)) :
  match fold_left pickSafestPolicy outputs None with
  | None => forall o, In o outputs -> o = None
  | Some q =>
      exists before after,
        outputs = before ++ Some q :: after
        /\ (forall p, In (Some p) before ->
                      String.leb (RiskIndex p) (RiskIndex q) = false)
        /\ (forall p, In (Some p) after ->
                      String.leb (RiskIndex q) (RiskIndex p) = true)
  end.
Proof.
  induction outputs as [|x outputs IH] using rev_ind; [intros o []|].
  rewrite fold_left_app. cbn [fold_left].
  destruct (fold_left pickSafestPolicy outputs None) as [q|].
  - destruct IH as (before & after & -> & Hbefore & Hafter).
    destruct x as [p|]; cbn [pickSafestPolicy].
    + destruct (String.leb (RiskIndex q) (RiskIndex p)) eqn:Hqp.
      * exists before, (after ++ [Some p]). split; [now rewrite <- app_assoc|].
        split; [assumption|].
        intros p' Hin. apply in_app_or in Hin. destruct Hin as [Hin|[Heq|[]]];
          [auto|]. now injection Heq as <-.
      * exists (before ++ Some q :: after), []. split; [reflexivity|].
        split; [|intros p' []].
        assert (Hover : forall p', String.leb (RiskIndex q) (RiskIndex p') = true ->
                                   String.leb (RiskIndex p') (RiskIndex p) = false).
        { intros p' Hle. destruct (String.leb (RiskIndex p') (RiskIndex p)) eqn:Hp';
            [|reflexivity].
          rewrite (string_leb_trans _ _ _ Hle Hp') in Hqp. discriminate. }
        intros p' Hin. apply in_app_or in Hin. destruct Hin as [Hin|[Heq|Hin]].
        -- apply Hover. specialize (Hbefore p' Hin).
           destruct (String.leb_total (RiskIndex q) (RiskIndex p')); congruence.
        -- injection Heq as <-. exact Hqp.
        -- apply Hover. auto.
    + exists before, (after ++ [None]). split; [now rewrite <- app_assoc|].
      split; [assumption|].
      intros p' Hin. apply in_app_or in Hin. destruct Hin as [Hin|[Heq|[]]];
        [auto|discriminate Heq].
  - destruct x as [p|]; cbn [pickSafestPolicy].
    + exists outputs, []. split; [reflexivity|]. split; [|intros p' []].
      intros p' Hin. specialize (IH _ Hin). discriminate IH.
    + intros o Hin. apply in_app_or in Hin. destruct Hin as [Hin|[<-|[]]]; auto.
Qed.

(** X18: what the loop of [Execute] merges.  When it ends with a policy,
    that policy is the answer of one of the iterators; every iterator that
    ran before it answered nil or a strictly riskier policy, and no iterator
    after it answered a safer one: among equally safe answers the first in
    the order of the run wins.  When it ends with nil, every iterator
    answered nil. *)
Theorem runPolicyIterators_first_safest :
  forall (iterators : list (string * PolicyIterator)) (wm : WorkloadMeta),
    (forall q,
        runPolicyIterators iterators wm None = Ok (Some q) ->
        exists before name pi after,
          iterators = before ++ (name, pi) :: after
          /\ NextPolicy pi wm = Ok (Some q)
          /\ (forall it p, In it before -> NextPolicy (snd it) wm = Ok (Some p) ->
                           String.leb (RiskIndex p) (RiskIndex q) = false)
          /\ (forall it p, In it after -> NextPolicy (snd it) wm = Ok (Some p) ->
                           String.leb (RiskIndex q) (RiskIndex p) = true))
    /\ (runPolicyIterators iterators wm None = Ok None ->
        forall it, In it iterators -> NextPolicy (snd it) wm = Ok None).
Proof.
  intros iterators wm.
  assert (Hout : forall it p, NextPolicy (snd it) wm = Ok p -> iteratorOutput wm it = p).
  { intros it p H. unfold iteratorOutput. now rewrite H. }
  pose proof (fold_pickSafestPolicy_first_safest (map (iteratorOutput wm) iterators))
    as Hfold.
  split.
  - intros q Hrun. apply runPolicyIterators_ok in Hrun. destruct Hrun as [Hall Hq].
    rewrite <- Hq in Hfold. destruct Hfold as (before & after & Hsplit & Hbefore & Hafter).
    apply map_eq_app in Hsplit. destruct Hsplit as (its1 & its2 & -> & <- & Hrest).
    apply map_eq_cons in Hrest. destruct Hrest as ([name pi] & its3 & -> & Hpi & <-).
    exists its1, name, pi, its3. split; [reflexivity|].
    rewrite Forall_forall in Hall. split.
    + destruct (Hall (name, pi)) as [p Hp]; [apply in_or_app; right; now left|].
      cbn [snd] in Hp. rewrite <- Hpi, Hp. f_equal. symmetry.
      apply (Hout (name, pi)). exact Hp.
    + split; intros it p Hin Hp.
      * apply Hbefore. rewrite <- (Hout it _ Hp). now apply in_map.
      * apply Hafter. rewrite <- (Hout it _ Hp). now apply in_map.
  - intros Hrun it Hin. apply runPolicyIterators_ok in Hrun. destruct Hrun as [Hall Hq].
    rewrite <- Hq in Hfold. rewrite Forall_forall in Hall.
    destruct (Hall it Hin) as [p Hp]. rewrite Hp. f_equal.
    rewrite <- (Hout it p Hp). apply Hfold. now apply in_map.
Qed.

Lemma runPolicyIterators_first_safest_witness :
  exists before name pi after,
    [("a", constantIterator guarded); ("b", constantIterator cautious)]%string
    = before ++ (name, pi) :: after
    /\ NextPolicy pi someWorkload = Ok (Some guarded)
    /\ (forall it p, In it before -> NextPolicy (snd it) someWorkload = Ok (Some p) ->
                     String.leb (RiskIndex p) (RiskIndex guarded) = false)
    /\ (forall it p, In it after -> NextPolicy (snd it) someWorkload = Ok (Some p) ->
                     String.leb (RiskIndex guarded) (RiskIndex p) = true).
Proof.
  apply (proj1 (runPolicyIterators_first_safest
                  [("a", constantIterator guarded); ("b", constantIterator cautious)]%string
                  someWorkload)).
  reflexivity.
Defined.

(** X19: the two iterators of the package never answer nil without an
    error.  An answer of the default iterator is the default policy of the
    store; an answer of the aging iterator is the safest policy when the
    persisted recommendation names no policy, the named policy while
    [now] is before the transition time plus the age, and the policy after
    the named one from then on; the answer carries the name, the risk
    index, the cut and the target of that policy.  A nil pointer from the
    store is a panic, and the error of the read of the persisted
    recommendation plays no part. *)
Theorem iterators_never_answer_nil :
  (forall (store : PolicyStore) (wm : WorkloadMeta) (p : option Policy),
      DefaultPolicyIterator_NextPolicy store wm = Ok p ->
      exists cr,
        GetDefaultPolicy store = Ok (Some cr)
        /\ p = Some (mkPolicy (CRName cr) (SpecRiskIndex (Spec cr))
                       (SpecMinReplicaPercentageCut (Spec cr))
                       (SpecTargetUtilization (Spec cr))))
  /\ (forall (store : PolicyStore)
             (get : string -> string -> PolicyRecommendation * option error)
             (Age : Duration) (now : Time) (wm : WorkloadMeta) (p : option Policy),
         AgingPolicyIterator_NextPolicy store get Age now wm = Ok p ->
         let policyreco := fst (get (Namespace wm) (Name wm)) in
         exists cr,
           p = Some (mkPolicy (CRName cr) (SpecRiskIndex (Spec cr))
                       (SpecMinReplicaPercentageCut (Spec cr))
                       (SpecTargetUtilization (Spec cr)))
           /\ (if (String.length (RecoPolicy policyreco) =? 0)%nat
               then GetSafestPolicy store
               else if now <? TransitionedAt policyreco + Age
                    then GetPolicyByName store (RecoPolicy policyreco)
                    else GetNextPolicyByName store (RecoPolicy policyreco))
              = Ok (Some cr)).
Proof.
  assert (Hptr : forall (answer : outcome (option PolicyCR)) (p : option Policy),
             (policy <- answer ;; PolicyFromCRPtr policy) = Ok p ->
             exists cr,
               answer = Ok (Some cr)
               /\ p = Some (mkPolicy (CRName cr) (SpecRiskIndex (Spec cr))
                              (SpecMinReplicaPercentageCut (Spec cr))
                              (SpecTargetUtilization (Spec cr)))).
  { intros [[cr|]|e|a] p; cbn [bind PolicyFromCRPtr]; try discriminate.
    intros H. injection H as <-. exists cr. split; reflexivity. }
  split.
  - intros store wm p. unfold DefaultPolicyIterator_NextPolicy. apply Hptr.
  - intros store get Age now wm p. unfold AgingPolicyIterator_NextPolicy.
    destruct (get (Namespace wm) (Name wm)) as [policyreco err]. cbn [fst].
    cbn [isAgeBeyondExpiry].
    destruct (String.length (RecoPolicy policyreco) =? 0)%nat;
      destruct (now <? TransitionedAt policyreco + Age); cbn [bind negb];
      intros H; apply Hptr in H; destruct H as (cr & Hcr & ->); eauto.
Qed.

Lemma iterators_never_answer_nil_witness :
  (exists cr,
      GetDefaultPolicy singlePolicyStore = Ok (Some cr)
      /\ Some (mkPolicy "no-op" "1" 100 10)
         = Some (mkPolicy (CRName cr) (SpecRiskIndex (Spec cr))
                   (SpecMinReplicaPercentageCut (Spec cr))
                   (SpecTargetUtilization (Spec cr))))
  /\ (exists cr,
         Some (mkPolicy "no-op" "1" 100 10)
         = Some (mkPolicy (CRName cr) (SpecRiskIndex (Spec cr))
                   (SpecMinReplicaPercentageCut (Spec cr))
                   (SpecTargetUtilization (Spec cr)))
         /\ GetSafestPolicy singlePolicyStore = Ok (Some cr)).
Proof.
  split.
  - apply (proj1 iterators_never_answer_nil singlePolicyStore someWorkload
             (Some (mkPolicy "no-op" "1" 100 10))).
    reflexivity.
  - apply (proj2 iterators_never_answer_nil singlePolicyStore failingGet (minutes 60)
             (minutes 600) someWorkload (Some (mkPolicy "no-op" "1" 100 10))).
    reflexivity.
Defined.

(** ** The builder *)

Lemma find_app_first (A : Type) (f : A -> bool) (l1 l2 : list A) :
  find f (l1 ++ l2) = match find f l1 with Some x => Some x | None => find f l2 end.
Proof.
  induction l1 as [|x l1 IH]; cbn [app find]; [reflexivity|].
  destruct (f x); [reflexivity|exact IH].
Qed.

Lemma existsb_hasName (name : string) (entries : list (string * PolicyIterator)) :
  existsb (RecoWorkflowBuilder.hasName name) entries = false
  <-> ~ In name (map fst entries).
Proof.
  induction entries as [|[n p] entries IH]; cbn [existsb map In fst].
  - split; [intros _ []|reflexivity].
  - unfold RecoWorkflowBuilder.hasName at 1. cbn [fst].
    rewrite orb_false_iff, IH, String.eqb_neq. split.
    + intros [Hne Hnot] [Heq|Hin]; [now apply Hne|now apply Hnot].
    + intros Hnot. split; [intros ->; apply Hnot; now left|].
      intros Hin. apply Hnot. now right.
Qed.

Lemma existsb_hasName_find (name : string) (entries : list (string * PolicyIterator)) :
  existsb (RecoWorkflowBuilder.hasName name) entries = false ->
  find (RecoWorkflowBuilder.hasName name) entries = None.
Proof.
  induction entries as [|entry entries IH]; cbn [existsb find]; [reflexivity|].
  destruct (RecoWorkflowBuilder.hasName name entry); [discriminate|exact IH].
Qed.

Lemma WithPolicyIterator_step (b : RecoWorkflowBuilder.t) (name : string)
    (p : PolicyIterator) :
  NoDup (map fst (RecoWorkflowBuilder.entries b)) ->
  let b' := RecoWorkflowBuilder.WithPolicyIterator b name p in
  NoDup (map fst (RecoWorkflowBuilder.entries b'))
  /\ RecoWorkflowBuilder.policyIterators b' <> None
  /\ (forall n,
         find (RecoWorkflowBuilder.hasName n) (RecoWorkflowBuilder.entries b')
         = match find (RecoWorkflowBuilder.hasName n) (RecoWorkflowBuilder.entries b) with
           | Some entry => Some entry
           | None => find (RecoWorkflowBuilder.hasName n) [(name, p)]
           end)
  /\ RecoWorkflowBuilder.recommender b' = RecoWorkflowBuilder.recommender b
  /\ RecoWorkflowBuilder.policyStore b' = RecoWorkflowBuilder.policyStore b
  /\ RecoWorkflowBuilder.logger b' = RecoWorkflowBuilder.logger b
  /\ RecoWorkflowBuilder.minRequiredReplicas b'
     = RecoWorkflowBuilder.minRequiredReplicas b.
Proof.
  unfold RecoWorkflowBuilder.WithPolicyIterator, RecoWorkflowBuilder.entries.
  destruct (RecoWorkflowBuilder.policyIterators b) as [entries|] eqn:Hits; intros Hnodup.
  - destruct (existsb (RecoWorkflowBuilder.hasName name) entries) eqn:Hexists.
    + cbv zeta. rewrite Hits. repeat split; try assumption; try discriminate.
      intros n. destruct (find (RecoWorkflowBuilder.hasName n) entries) eqn:Hfind;
        [reflexivity|].
      cbn [find]. unfold RecoWorkflowBuilder.hasName at 1. cbn [fst].
      destruct (String.eqb_spec n name) as [->|Hne]; [|reflexivity].
      apply existsb_exists in Hexists. destruct Hexists as (entry & Hin & Hname).
      pose proof (find_none _ _ Hfind entry Hin). congruence.
    + cbv zeta. cbn [RecoWorkflowBuilder.policyIterators RecoWorkflowBuilder.recommender
                     RecoWorkflowBuilder.policyStore RecoWorkflowBuilder.logger
                     RecoWorkflowBuilder.minRequiredReplicas].
      repeat split; try discriminate.
      * rewrite map_app. cbn [map fst]. apply existsb_hasName in Hexists.
        apply NoDup_app_remove_l with (l := []). cbn [app].
        rewrite <- (app_nil_l (map fst entries ++ [name])).
        apply Permutation_NoDup with (l := name :: map fst entries);
          [|constructor; assumption].
        cbn [app]. apply Permutation_cons_append.
      * intros n. apply find_app_first.
  - cbv zeta. cbn [RecoWorkflowBuilder.policyIterators RecoWorkflowBuilder.recommender
                   RecoWorkflowBuilder.policyStore RecoWorkflowBuilder.logger
                   RecoWorkflowBuilder.minRequiredReplicas].
    repeat split; try discriminate.
    cbn [map fst]. constructor; [intros []|constructor].
Qed.

Lemma WithPolicyIterators_from (named : list (string * PolicyIterator)) :
  forall b : RecoWorkflowBuilder.t,
    NoDup (map fst (RecoWorkflowBuilder.entries b)) ->
    let b' := RecoWorkflowBuilder.WithPolicyIterators b named in
    NoDup (map fst (RecoWorkflowBuilder.entries b'))
    /\ (RecoWorkflowBuilder.policyIterators b' = None
        <-> RecoWorkflowBuilder.policyIterators b = None /\ named = [])
    /\ (forall n,
           find (RecoWorkflowBuilder.hasName n) (RecoWorkflowBuilder.entries b')
           = match find (RecoWorkflowBuilder.hasName n) (RecoWorkflowBuilder.entries b) with
             | Some entry => Some entry
             | None => find (RecoWorkflowBuilder.hasName n) named
             end)
    /\ RecoWorkflowBuilder.recommender b' = RecoWorkflowBuilder.recommender b
    /\ RecoWorkflowBuilder.policyStore b' = RecoWorkflowBuilder.policyStore b
    /\ RecoWorkflowBuilder.logger b' = RecoWorkflowBuilder.logger b
    /\ RecoWorkflowBuilder.minRequiredReplicas b'
       = RecoWorkflowBuilder.minRequiredReplicas b.
Proof.
  unfold RecoWorkflowBuilder.WithPolicyIterators.
  induction named as [|[name p] named IH]; intros b Hnodup; cbn [fold_left fst snd].
  - cbv zeta. repeat split; try assumption; try tauto.
    intros n. now destruct (find _ _).
  - destruct (WithPolicyIterator_step b name p Hnodup)
      as (Hnodup' & Hsome & Hfind & Hrec & Hstore & Hlog & Hmin).
    destruct (IH _ Hnodup') as (Hnd & Hnil & Hf & Hr & Hs & Hl & Hm).
    cbv zeta. split; [exact Hnd|]. split; [|split].
    + split; [intros H; apply Hnil in H; tauto|intros [_ H]; discriminate H].
    + intros n. rewrite Hf, Hfind.
      destruct (find (RecoWorkflowBuilder.hasName n) (RecoWorkflowBuilder.entries b));
        [reflexivity|].
      cbn [find]. now destruct (RecoWorkflowBuilder.hasName n (name, p)).
    + repeat split; congruence.
Qed.

(** X20: registering policy iterators.  After any sequence of
    [WithPolicyIterator] calls on a new builder the names of the map are
    distinct, the iterator found under a name is the first one that was
    registered under it (a later one with the same name is ignored), the
    map is nil exactly when no call was made, and the other fields of the
    builder are untouched. *)
Theorem WithPolicyIterator_first_registration_wins :
  forall (named : list (string * PolicyIterator)),
    let b := RecoWorkflowBuilder.WithPolicyIterators
               RecoWorkflowBuilder.NewRecommendationWorkflowBuilder named in
    NoDup (map fst (RecoWorkflowBuilder.entries b))
    /\ (forall name,
           find (RecoWorkflowBuilder.hasName name) (RecoWorkflowBuilder.entries b)
           = find (RecoWorkflowBuilder.hasName name) named)
    /\ (RecoWorkflowBuilder.policyIterators b = None <-> named = [])
    /\ RecoWorkflowBuilder.recommender b = None
    /\ RecoWorkflowBuilder.policyStore b = None
    /\ RecoWorkflowBuilder.logger b = zeroValLogger
    /\ RecoWorkflowBuilder.minRequiredReplicas b = 0.
Proof.
  intros named.
  destruct (WithPolicyIterators_from named
              RecoWorkflowBuilder.NewRecommendationWorkflowBuilder)
    as (Hnd & Hnil & Hf & Hr & Hs & Hl & Hm); [constructor|].
  cbv zeta. split; [exact Hnd|]. split; [exact Hf|]. split; [|auto].
  rewrite Hnil. cbn. tauto.
Qed.

(** X21: the recommender of a builder is assigned once.  A builder that has
    a recommender is left unchanged by every further [WithRecommender]; on a
    builder without one, nil arguments change nothing and the first non-nil
    argument stays. *)
Theorem WithRecommender_single_assignment :
  (forall (b : RecoWorkflowBuilder.t) (r : Recommender) (rs : list (option Recommender)),
      RecoWorkflowBuilder.recommender b = Some r ->
      RecoWorkflowBuilder.WithRecommenders b rs = b)
  /\ (forall (b : RecoWorkflowBuilder.t) (nils rest : list (option Recommender))
             (r : Recommender),
         RecoWorkflowBuilder.recommender b = None ->
         Forall (fun x => x = None) nils ->
         RecoWorkflowBuilder.WithRecommenders b (nils ++ Some r :: rest)
         = RecoWorkflowBuilder.mk (Some r) (RecoWorkflowBuilder.policyIterators b)
             (RecoWorkflowBuilder.policyStore b) (RecoWorkflowBuilder.logger b)
             (RecoWorkflowBuilder.minRequiredReplicas b)).
Proof.
  assert (Hset : forall (b : RecoWorkflowBuilder.t) (r : Recommender)
                        (rs : list (option Recommender)),
             RecoWorkflowBuilder.recommender b = Some r ->
             RecoWorkflowBuilder.WithRecommenders b rs = b).
  { intros b r rs Hb. unfold RecoWorkflowBuilder.WithRecommenders.
    induction rs as [|x rs IH]; cbn [fold_left]; [reflexivity|].
    unfold RecoWorkflowBuilder.WithRecommender at 2. now rewrite Hb. }
  split; [exact Hset|].
  intros b nils rest r Hb Hnils. revert b Hb.
  induction Hnils as [|x nils -> _ IH]; intros b Hb.
  - cbn [app]. unfold RecoWorkflowBuilder.WithRecommenders. cbn [fold_left].
    unfold RecoWorkflowBuilder.WithRecommender at 2. rewrite Hb.
    now apply (Hset _ r rest).
  - cbn [app]. unfold RecoWorkflowBuilder.WithRecommenders. cbn [fold_left].
    unfold RecoWorkflowBuilder.WithRecommender at 2. rewrite Hb.
    replace (RecoWorkflowBuilder.mk None _ _ _ _) with b
      by (destruct b; cbn in *; now subst).
    now apply IH.
Qed.

Lemma WithRecommender_single_assignment_witness :
  RecoWorkflowBuilder.WithRecommenders
    (RecoWorkflowBuilder.WithRecommender
       RecoWorkflowBuilder.NewRecommendationWorkflowBuilder
       (Some (fixedRecommender (mkHPAConfiguration 1 10 40))))
    [Some (failingRecommender storeDown)]
  = RecoWorkflowBuilder.WithRecommender
      RecoWorkflowBuilder.NewRecommendationWorkflowBuilder
      (Some (fixedRecommender (mkHPAConfiguration 1 10 40))).
Proof.
  apply (proj1 WithRecommender_single_assignment _
           (fixedRecommender (mkHPAConfiguration 1 10 40))).
  reflexivity.
Defined.

(** X22: [Build].  It fails exactly when the builder has neither a
    recommender nor a map of policy iterators.  A workflow it returns has the
    recommender, the iterators and the store of the builder, a required
    minimum of replicas that is never 0 (3 stands in for 0) and a logger
    that is never the zero value.  A builder with policy iterators and no
    recommender builds, and every [Execute] of its workflow fails for want
    of a recommender. *)
Theorem Build_spec :
  (forall b : RecoWorkflowBuilder.t,
      RecoWorkflowBuilder.Build b = inr ErrBothNil
      <-> RecoWorkflowBuilder.recommender b = None
          /\ RecoWorkflowBuilder.policyIterators b = None)
  /\ (forall (b : RecoWorkflowBuilder.t) (rw : RecommendationWorkflowImpl) (log : Logger),
         RecoWorkflowBuilder.Build b = inl (rw, log) ->
         recommender rw = RecoWorkflowBuilder.recommender b
         /\ policyIterators rw = RecoWorkflowBuilder.entries b
         /\ policyStore rw = RecoWorkflowBuilder.policyStore b
         /\ minRequiredReplicas rw <> 0
         /\ (RecoWorkflowBuilder.minRequiredReplicas b <> 0 ->
             minRequiredReplicas rw = RecoWorkflowBuilder.minRequiredReplicas b)
         /\ (RecoWorkflowBuilder.minRequiredReplicas b = 0 -> minRequiredReplicas rw = 3)
         /\ log <> zeroValLogger
         /\ (RecoWorkflowBuilder.logger b <> zeroValLogger ->
             log = RecoWorkflowBuilder.logger b))
  /\ (forall (b : RecoWorkflowBuilder.t) (wm : WorkloadMeta),
         RecoWorkflowBuilder.recommender b = None ->
         RecoWorkflowBuilder.policyIterators b <> None ->
         exists rw log,
           RecoWorkflowBuilder.Build b = inl (rw, log)
           /\ Execute rw wm = Err ErrNoRecommender).
Proof.
  split; [|split].
  - intros b. unfold RecoWorkflowBuilder.Build.
    destruct (RecoWorkflowBuilder.recommender b), (RecoWorkflowBuilder.policyIterators b);
      split; try discriminate; try tauto;
      intros [H1 H2]; discriminate.
  - intros b rw log. unfold RecoWorkflowBuilder.Build, RecoWorkflowBuilder.entries.
    assert (Hlog : match RecoWorkflowBuilder.logger b with
                   | zeroValLogger => zapLogger
                   | l => l
                   end <> zeroValLogger
                   /\ (RecoWorkflowBuilder.logger b <> zeroValLogger ->
                       match RecoWorkflowBuilder.logger b with
                       | zeroValLogger => zapLogger
                       | l => l
                       end = RecoWorkflowBuilder.logger b)).
    { destruct (RecoWorkflowBuilder.logger b); split; congruence. }
    assert (Hmin : (if RecoWorkflowBuilder.minRequiredReplicas b =? 0 then 3
                    else RecoWorkflowBuilder.minRequiredReplicas b) <> 0
                   /\ (RecoWorkflowBuilder.minRequiredReplicas b <> 0 ->
                       (if RecoWorkflowBuilder.minRequiredReplicas b =? 0 then 3
                        else RecoWorkflowBuilder.minRequiredReplicas b)
                       = RecoWorkflowBuilder.minRequiredReplicas b)
                   /\ (RecoWorkflowBuilder.minRequiredReplicas b = 0 ->
                       (if RecoWorkflowBuilder.minRequiredReplicas b =? 0 then 3
                        else RecoWorkflowBuilder.minRequiredReplicas b) = 3)).
    { destruct (Z.eqb_spec (RecoWorkflowBuilder.minRequiredReplicas b) 0);
        repeat split; congruence || lia. }
    destruct Hlog as [Hlog1 Hlog2]. destruct Hmin as (Hmin1 & Hmin2 & Hmin3).
    destruct (RecoWorkflowBuilder.recommender b), (RecoWorkflowBuilder.policyIterators b);
      try discriminate; intros H; injection H as <- <-;
      cbn [recommender policyIterators policyStore minRequiredReplicas];
      repeat split; assumption.
  - intros b wm Hnone Hsome. unfold RecoWorkflowBuilder.Build. rewrite Hnone.
    destruct (RecoWorkflowBuilder.policyIterators b); [|contradiction].
    eexists _, _. split; [reflexivity|]. reflexivity.
Qed.

Lemma Build_spec_witness :
  exists rw log,
    RecoWorkflowBuilder.Build
      (RecoWorkflowBuilder.WithPolicyIterator
         RecoWorkflowBuilder.NewRecommendationWorkflowBuilder "aging"
         (constantIterator guarded)) = inl (rw, log)
    /\ Execute rw someWorkload = Err ErrNoRecommender.
Proof.
  apply (proj2 (proj2 Build_spec)); [reflexivity|discriminate].
Defined.

(** ** Timers of the simulator *)

(** X23: [consumeTimers] consumes the longest run of due timers at the head
    of the queue and nothing behind it: the queue splits into the timers
    consumed, all at or before the data point, and the timers kept, whose
    first one is after the data point; the deltas of the timers consumed
    are added to the ready resources in the order of the queue. *)
Theorem consumeTimers_prefix :
  forall (now : Time) (ready : float) (timers : list TimerEvent),
    exists due kept,
      timers = due ++ kept
      /\ Forall (fun t => TimerTimestamp t <= now) due
      /\ (forall t rest, kept = t :: rest -> now < TimerTimestamp t)
      /\ consumeTimers now ready timers
         = (fold_left (fun r t => (r + Delta t)%float) due ready, kept).
Proof.
  intros now ready timers. revert ready.
  induction timers as [|t timers IH]; intros ready; cbn [consumeTimers].
  - exists [], []. repeat split; [constructor|discriminate].
  - destruct (now <? TimerTimestamp t) eqn:Hdue; cbn [negb].
    + exists [], (t :: timers). repeat split; [constructor|].
      intros t' rest H. injection H as <- _. now apply Z.ltb_lt.
    + destruct (IH (ready + Delta t)%float) as (due & kept & -> & Hdue' & Hkept & ->).
      exists (t :: due), kept. repeat split; [|assumption].
      constructor; [now apply Z.ltb_ge|assumption].
Qed.

(** ** Earlier revisions *)

Lemma Earlier_runMap_current (iterators : list (string * PolicyIterator))
    (wm : WorkloadMeta) :
  forall start : option Policy,
    Earlier.runMap iterators wm start
    = match runPolicyIterators iterators wm start with
      | Ok p => Earlier.Done p
      | Err e => Earlier.Failed (Earlier.Plain e)
      | Abort a => Earlier.Panicked a
      end.
Proof.
  induction iterators as [|[name pi] iterators IH]; intros start;
    cbn [Earlier.runMap runPolicyIterators]; [reflexivity|].
  destruct (NextPolicy pi wm) as [[p|]|e|a]; cbn [bind]; auto.
Qed.

(** X24: the revision of [part_000] and the current one.  When the current
    [Execute] succeeds on a non-nil recommendation that floor promotion
    leaves as it is, the earlier [Execute] succeeds with the same
    configuration to apply and the same raw recommendation; it credits the
    merged policy, which is also what the current revision credits unless it
    applies the recommendation. *)
Theorem Earlier_ExecuteMap_agrees :
  forall (rw : RecommendationWorkflowImpl) (r : Recommender) (wm : WorkloadMeta)
         (cfg : HPAConfiguration)
         (nextConfig targetRecoConfig : option HPAConfiguration)
         (policyToApply : option Policy),
    recommender rw = Some r ->
    RecommendFor r wm = Ok (Some cfg) ->
    transformTargetRecoConfig (Some cfg) (minRequiredReplicas rw) = Some cfg ->
    Execute rw wm = Ok (nextConfig, targetRecoConfig, policyToApply) ->
    exists nextPolicy,
      runPolicyIterators (policyIterators rw) wm None = Ok nextPolicy
      /\ Earlier.ExecuteMap (recommender rw) (policyIterators rw) wm
         = Earlier.Done (nextConfig, targetRecoConfig, nextPolicy)
      /\ (shouldApplyReco targetRecoConfig nextPolicy = false ->
          policyToApply = nextPolicy).
Proof.
  intros rw r wm cfg nextConfig targetRecoConfig policyToApply Hrec Hcfg Hsame.
  unfold Execute, Earlier.ExecuteMap, Earlier.recommend.
  rewrite Hrec, Hcfg. cbn [bind Earlier.andThen]. rewrite Hsame.
  rewrite Earlier_runMap_current.
  destruct (runPolicyIterators (policyIterators rw) wm None) as [nextPolicy|e|a];
    cbn [bind Earlier.andThen]; try discriminate.
  destruct (generateNextRecoConfig rw (Some cfg) nextPolicy wm) as [[next pol]|e|a]
    eqn:Hgen; cbn [bind]; try discriminate.
  intros H. injection H as <- <- <-.
  exists nextPolicy. split; [reflexivity|].
  pose proof (generateNextRecoConfig_shape _ _ _ _ _ _ Hgen) as Hshape.
  unfold Earlier.finish, Earlier.generateNextRecoConfig, Earlier.shouldApplyReco.
  unfold generateNextRecoConfig in Hgen.
  destruct nextPolicy as [p|].
  - cbn [shouldApplyReco] in *.
    destruct (MinReplicaPercentageCut p =? 100); cbn [andb] in *;
      [destruct (TargetMetricValue cfg <? TargetUtilization p)|];
      cbn [Earlier.andThen Earlier.createRecoConfigFromPolicy
           createRecoConfigFromPolicy] in *;
      destruct Hshape as [[Happly ->]|(Happly & -> & _)]; try discriminate;
      try (injection Hgen as <-); split; try reflexivity; try discriminate; auto.
  - cbn [shouldApplyReco Earlier.andThen] in *.
    destruct Hshape as [[_ ->]|(Happly & _)]; [|discriminate].
    split; [reflexivity|discriminate].
Qed.

Lemma Earlier_ExecuteMap_agrees_witness :
  exists nextPolicy,
    runPolicyIterators [("default"%string, constantIterator guarded)]
      someWorkload None = Ok nextPolicy
    /\ Earlier.ExecuteMap (Some (fixedRecommender (mkHPAConfiguration 4 10 40)))
         [("default"%string, constantIterator guarded)] someWorkload
       = Earlier.Done (Some (mkHPAConfiguration 4 10 30),
                       Some (mkHPAConfiguration 4 10 40), nextPolicy)
    /\ (shouldApplyReco (Some (mkHPAConfiguration 4 10 40)) nextPolicy = false ->
        Some guarded = nextPolicy).
Proof.
  apply (Earlier_ExecuteMap_agrees
           (mkWorkflow (Some (fixedRecommender (mkHPAConfiguration 4 10 40)))
              [("default"%string, constantIterator guarded)] (Some failingStore) 3)
           (fixedRecommender (mkHPAConfiguration 4 10 40)) someWorkload
           (mkHPAConfiguration 4 10 40)); vm_compute; reflexivity.
Defined.

(** X25: the two earlier revisions.  Both replace every error of the
    recommender by one fixed error.  Over iterators that never answer nil,
    the loop over the slice does what the loop over the map does, except
    that it quotes the error of a failing iterator in a new error instead of
    returning it; on the first nil answer the loop over the slice panics
    where the loop over the map skips the iterator. *)
Theorem Earlier_revisions :
  (forall (r : Recommender) (wm : WorkloadMeta) (e : error)
          (slice : list PolicyIterator) (map_ : list (string * PolicyIterator)),
      RecommendFor r wm = Err e ->
      Earlier.ExecuteSlice (Some r) slice wm
      = Earlier.Failed Earlier.ErrUnableToGenerateRecommendation
      /\ Earlier.ExecuteMap (Some r) map_ wm
         = Earlier.Failed Earlier.ErrUnableToGenerateRecommendation)
  /\ (forall (iterators : list (string * PolicyIterator)) (wm : WorkloadMeta)
             (start : option Policy),
         Forall (fun it => NextPolicy (snd it) wm <> Ok None) iterators ->
         Earlier.runSlice (map snd iterators) wm start
         = match Earlier.runMap iterators wm start with
           | Earlier.Failed (Earlier.Plain e) =>
               Earlier.Failed (Earlier.ErrUnableToGenerateNextPolicy e)
           | other => other
           end)
  /\ (forall (before after : list (string * PolicyIterator)) (name : string)
             (pi : PolicyIterator) (wm : WorkloadMeta) (start : option Policy),
         Forall (fun it => exists p, NextPolicy (snd it) wm = Ok (Some p)) before ->
         NextPolicy pi wm = Ok None ->
         Earlier.runSlice (map snd (before ++ (name, pi) :: after)) wm start
         = Earlier.Panicked NilDereference
         /\ Earlier.runMap (before ++ (name, pi) :: after) wm start
            = Earlier.runMap (before ++ after) wm start).
Proof.
  split; [|split].
  - intros r wm e slice map_ Herr.
    unfold Earlier.ExecuteSlice, Earlier.ExecuteMap, Earlier.recommend.
    rewrite Herr. split; reflexivity.
  - intros iterators wm start Hall. revert start.
    induction Hall as [|[name pi] iterators Hpi _ IH]; intros start;
      cbn [map snd Earlier.runSlice Earlier.runMap]; [reflexivity|].
    cbn [snd] in Hpi. destruct (NextPolicy pi wm) as [[p|]|e|a]; auto.
    now contradiction Hpi.
  - intros before after name pi wm start Hbefore Hnil. revert start.
    induction Hbefore as [|[n b] before [p Hp] _ IH]; intros start;
      cbn [app map snd Earlier.runSlice Earlier.runMap].
    + rewrite Hnil. split; reflexivity.
    + cbn [snd] in Hp. rewrite Hp. apply IH.
Qed.

Lemma Earlier_revisions_witness :
  (Earlier.ExecuteSlice (Some (failingRecommender storeDown)) [] someWorkload
   = Earlier.Failed Earlier.ErrUnableToGenerateRecommendation
   /\ Earlier.ExecuteMap (Some (failingRecommender storeDown)) [] someWorkload
      = Earlier.Failed Earlier.ErrUnableToGenerateRecommendation)
  /\ Earlier.runSlice
       (map snd [("first"%string, constantIterator guarded);
                 ("second"%string, mkPolicyIterator (fun _ => Err storeDown))])
       someWorkload None
     = Earlier.Failed (Earlier.ErrUnableToGenerateNextPolicy storeDown)
  /\ (Earlier.runSlice
        (map snd ([("first"%string, constantIterator guarded)]
                  ++ ("second"%string, mkPolicyIterator (fun _ => Ok None))
                  :: [("third"%string, constantIterator cautious)]))
        someWorkload None
      = Earlier.Panicked NilDereference
      /\ Earlier.runMap
           ([("first"%string, constantIterator guarded)]
            ++ ("second"%string, mkPolicyIterator (fun _ => Ok None))
            :: [("third"%string, constantIterator cautious)])
           someWorkload None
         = Earlier.Done (Some guarded)).
Proof.
  split; [|split].
  - apply (proj1 Earlier_revisions (failingRecommender storeDown) someWorkload
             storeDown).
    reflexivity.
  - apply (proj1 (proj2 Earlier_revisions)
             [("first"%string, constantIterator guarded);
              ("second"%string, mkPolicyIterator (fun _ => Err storeDown))]
             someWorkload None).
    repeat constructor; discriminate.
  - apply (proj2 (proj2 Earlier_revisions)
             [("first"%string, constantIterator guarded)]
             [("third"%string, constantIterator cautious)]
             "second"%string (mkPolicyIterator (fun _ => Ok None))
             someWorkload None).
    + repeat constructor. exists guarded. reflexivity.
    + reflexivity.
Defined.
